(** * Retrieval and validation core of the support copilot

    A shallow embedding of [backend/app/rag_pipeline.py] (the classes
    [HybridRetriever] and [RAGPipeline]) and of the settings of
    [backend/app/config.py], with the properties of the retrieval and
    validation core stated and proved over it.

    Modelling conventions.
    - A Python [float] is an exact rational ([Q]); rounding is not modelled.
      Two floats are the same number when they are [==] in [Q].
    - A Python [str] is a [string] whose characters are code points below
      256; white space, [lower] and [len] follow Python on that range.
    - A Python [dict] with string keys is a [gmap string pyval]; a missing
      key read with [d[k]] raises, read with [d.get(k, x)] gives [x].
    - An exception is a value of [exn]; a call that may raise returns
      [result]. [except Exception] catches every [exn].
    - The vector store, the BM25 index, the two text generation back ends
      and the clock are fields of the objects that own them: functions
      whose results the code consumes. Each call to one of them is
      recorded in the trace of the [world].
    - Start-up ([__init__], [_init_llm], [_load_documents],
      [_build_indices]) is given what it reads from outside: the items of
      the documentation file, the constructors of the models, and the
      operations on the index files. Its calls are not recorded.
    - Console output ([print]) is not modelled. *)

From Stdlib Require Import Ascii String QArith Lqa.
From stdpp Require Import gmap strings list sorting pretty.

Set Warnings "-register-all".
Local Open Scope string_scope.

(** ** Python values, exceptions and results *)

Module Py.

Inductive pyval :=
| VNone
| VBool (b : bool)
| VInt (z : Z)
| VFloat (q : Q)
| VStr (s : string)
| VList (l : list pyval)
| VDict (d : gmap string pyval).

Inductive exn :=
| KeyError (k : string)
| IndexError
| TypeError
| AttributeError
| ValueError (msg : string)
| ExternalError (msg : string).

Inductive result (A : Type) :=
| Ok (a : A)
| Raise (e : exn).
Arguments Ok {A} a.
Arguments Raise {A} e.

Definition rbind {A B} (r : result A) (k : A -> result B) : result B :=
  match r with
  | Ok a => k a
  | Raise e => Raise e
  end.

Declare Scope py_scope.
Delimit Scope py_scope with py.
Notation "'let!' x ':=' r 'in' k" := (rbind r (fun x => k))
  (at level 10, x pattern, r at level 100, k at level 200) : py_scope.

Fixpoint rmap {A B} (f : A -> result B) (l : list A) : result (list B) :=
  match l with
  | [] => Ok []
  | x :: xs => rbind (f x) (fun y => rbind (rmap f xs) (fun ys => Ok (y :: ys)))
  end.

(** [d[k]] and [d.get(k, default)] on a dict. *)
Definition getitem (d : gmap string pyval) (k : string) : result pyval :=
  match d !! k with
  | Some v => Ok v
  | None => Raise (KeyError k)
  end.

Definition get_default (d : gmap string pyval) (k : string) (dflt : pyval) : pyval :=
  default dflt (d !! k).

(** [d.get(k)], which gives [None] for a missing key. *)
Definition get (d : gmap string pyval) (k : string) : pyval :=
  get_default d k VNone.

(** [v[k]] on a value: only a dict can be indexed by a string. *)
Definition subscript (v : pyval) (k : string) : result pyval :=
  match v with
  | VDict d => getitem d k
  | _ => Raise TypeError
  end.

(** [v.get]: only a dict has the method. The method is looked up before
    the arguments of the call are evaluated. *)
Definition method_get (v : pyval) : result (gmap string pyval) :=
  match v with
  | VDict d => Ok d
  | _ => Raise AttributeError
  end.

(** Numbers: [bool], [int] and [float] compare and add as numbers. *)
Definition as_number (v : pyval) : result Q :=
  match v with
  | VBool b => Ok (if b then 1 else 0)%Q
  | VInt z => Ok (inject_Z z)
  | VFloat q => Ok q
  | _ => Raise TypeError
  end.

(** Truth value of a value ([if v:], [not v]). *)
Definition truthy (v : pyval) : bool :=
  match v with
  | VNone => false
  | VBool b => b
  | VInt z => negb (z =? 0)%Z
  | VFloat q => negb (Qeq_bool q 0)
  | VStr s => negb (String.eqb s "")
  | VList l => match l with [] => false | _ => true end
  | VDict d => negb (bool_decide (size d = 0))
  end.

(** [len(v)]. *)
Definition py_len (v : pyval) : result nat :=
  match v with
  | VStr s => Ok (String.length s)
  | VList l => Ok (length l)
  | VDict d => Ok (size d)
  | _ => Raise TypeError
  end.

(** [a == b]. Numbers compare by value across [bool], [int] and [float];
    containers compare element by element. *)
Fixpoint py_eq (a b : pyval) : bool :=
  match a, b with
  | VNone, VNone => true
  | VStr s, VStr t => String.eqb s t
  | VList l1, VList l2 =>
      (fix go (l1 l2 : list pyval) : bool :=
         match l1, l2 with
         | [], [] => true
         | x :: xs, y :: ys => py_eq x y && go xs ys
         | _, _ => false
         end) l1 l2
  | VDict d1, VDict d2 =>
      bool_decide (size d1 = size d2) &&
      map_fold (fun k x acc =>
                  acc && match d2 !! k with
                         | Some y => py_eq x y
                         | None => false
                         end) true d1
  | (VBool _ | VInt _ | VFloat _), (VBool _ | VInt _ | VFloat _) =>
      match as_number a, as_number b with
      | Ok x, Ok y => Qeq_bool x y
      | _, _ => false
      end
  | _, _ => false
  end.

(** *** Strings *)

Definition code (c : ascii) : nat := nat_of_ascii c.

(** [str.isspace] on one character with code point below 256. *)
Definition is_space (c : ascii) : bool :=
  let n := code c in
  (((9 <=? n) && (n <=? 13)) || ((28 <=? n) && (n <=? 32))
   || (n =? 133) || (n =? 160))%nat.

(** [str.lower] on one character with code point below 256. On that
    range [lower] maps a string character by character and keeps its
    length; above it Python's [lower] can lengthen a string, which is
    outside this model of strings. *)
Definition lower_char (c : ascii) : ascii :=
  let n := code c in
  if (((65 <=? n) && (n <=? 90))
      || ((192 <=? n) && (n <=? 222) && negb (n =? 215)))%nat
  then ascii_of_nat (n + 32) else c.

Fixpoint lower (s : string) : string :=
  match s with
  | EmptyString => EmptyString
  | String c s' => String (lower_char c) (lower s')
  end.

Fixpoint lstrip (s : string) : string :=
  match s with
  | EmptyString => EmptyString
  | String c s' => if is_space c then lstrip s' else s
  end.

(** [rstrip]: a character is dropped when it is white space and nothing
    but white space follows it. *)
Fixpoint rstrip (s : string) : string :=
  match s with
  | EmptyString => EmptyString
  | String c s' =>
      match rstrip s' with
      | EmptyString => if is_space c then EmptyString else String c EmptyString
      | r => String c r
      end
  end.

(** [s.strip()]. *)
Definition strip (s : string) : string := rstrip (lstrip s).

(** [s.split()]: the maximal runs of characters that are not white space.
    [cur] holds the run being read, in reverse. *)
Fixpoint split_aux (s : string) (cur : list ascii) : list string :=
  let flush (k : list string) :=
    match cur with
    | [] => k
    | _ => string_of_list_ascii (rev cur) :: k
    end in
  match s with
  | EmptyString => flush []
  | String c s' =>
      if is_space c then flush (split_aux s' []) else split_aux s' (c :: cur)
  end.

Definition split (s : string) : list string := split_aux s [].

(** [p in s] on strings. *)
Fixpoint contains (p s : string) : bool :=
  String.prefix p s ||
  match s with
  | EmptyString => false
  | String _ s' => contains p s'
  end.

(** [", ".join(l)] and the like. *)
Fixpoint join (sep : string) (l : list string) : string :=
  match l with
  | [] => ""
  | [x] => x
  | x :: xs => x ++ sep ++ join sep xs
  end.

(** [s[:n]] for [n >= 0] and [s[-n:]] for [n > 0]. *)
Fixpoint take_str (n : nat) (s : string) : string :=
  match n, s with
  | S n', String c s' => String c (take_str n' s')
  | _, _ => EmptyString
  end.

Fixpoint drop_str (n : nat) (s : string) : string :=
  match n, s with
  | S n', String _ s' => drop_str n' s'
  | _, _ => s
  end.

Definition take_last (n : nat) (s : string) : string :=
  drop_str (String.length s - n) s.

(** [l[:n]] on a list, for any integer [n]: a negative [n] counts from
    the end. *)
Definition slice_to {A} (l : list A) (n : Z) : list A :=
  if (0 <=? n)%Z then firstn (Z.to_nat n) l
  else firstn (Z.to_nat (Z.of_nat (length l) + n)) l.

(** [query.strip()] is empty: the test Python makes with [not s.strip()]. *)
Definition is_blank (s : string) : bool := String.eqb (strip s) "".

End Py.
Import Py.

Local Open Scope Q_scope.
Local Open Scope py_scope.

(** Comparisons of floats as the code writes them. *)
Definition Qltb (a b : Q) : bool := negb (Qle_bool b a).
Definition Qgtb (a b : Q) : bool := Qltb b a.

(** ** Settings ([app/config.py]) *)

Record Settings := {
  similarity_threshold : Q;
  max_context_chunks : Z;
  variance_threshold : Q;
  keyword_overlap_threshold : Q;
  debug : bool;
  vector_weight : Q;
  bm25_weight : Q
}.

(** The defaults of the [Field] declarations. *)
Definition default_settings : Settings := {|
  similarity_threshold := 65 # 100;
  max_context_chunks := 5;
  variance_threshold := 1 # 10;
  keyword_overlap_threshold := 2 # 10;
  debug := false;
  vector_weight := 7 # 10;
  bm25_weight := 3 # 10
|}.

(** The field validators: each one accepts or rejects one field. *)
Definition in_unit (v : Q) : bool := Qle_bool 0 v && Qle_bool v 1.

Definition validate_threshold (v : Q) : bool := in_unit v.
Definition validate_chunks (v : Z) : bool := negb ((v <? 1)%Z || (20 <? v)%Z).
Definition validate_weights (v : Q) : bool := in_unit v.
Definition validate_thresholds (v : Q) : bool := in_unit v.

(** A [Settings] object exists only when every validator accepted. *)
Definition valid_settings (cfg : Settings) : bool :=
  validate_threshold (similarity_threshold cfg)
  && validate_chunks (max_context_chunks cfg)
  && validate_thresholds (variance_threshold cfg)
  && validate_thresholds (keyword_overlap_threshold cfg)
  && validate_weights (vector_weight cfg)
  && validate_weights (bm25_weight cfg).

(** ** The world: clock and trace of calls to the indices and generators *)

Inductive event :=
| VectorSearch (query : string) (k : Z)
| Bm25Scores (tokens : list string)
| TextGeneration (prompt : string)
| LocalGeneration (prompt : string).

(** [clock n] is what the [n]-th call of [time.time()] returns. *)
Record world := {
  clock : nat -> Q;
  reads : nat;
  trace : list event
}.

Definition M (A : Type) : Type := world -> result A * world.

Definition ret {A} (a : A) : M A := fun w => (Ok a, w).
Definition raise {A} (e : exn) : M A := fun w => (Raise e, w).
Definition lift {A} (r : result A) : M A := fun w => (r, w).

Definition bind {A B} (m : M A) (k : A -> M B) : M B :=
  fun w =>
    match m w with
    | (Ok a, w') => k a w'
    | (Raise e, w') => (Raise e, w')
    end.

Notation "'let*' x ':=' m 'in' k" := (bind m (fun x => k))
  (at level 10, x pattern, m at level 100, k at level 200) : py_scope.

(** [try: m except Exception as e: h e]. *)
Definition try_except {A} (m : M A) (h : exn -> M A) : M A :=
  fun w =>
    match m w with
    | (Ok a, w') => (Ok a, w')
    | (Raise e, w') => h e w'
    end.

(** A call to an index or a generator: the call is recorded, then its
    result (or its exception) is delivered. *)
Definition call {A} (ev : event) (r : result A) : M A :=
  fun w => (r, {| clock := clock w; reads := reads w; trace := trace w ++ [ev] |}).

(** [time.time()]. *)
Definition time_time : M Q :=
  fun w => (Ok (clock w (reads w)),
            {| clock := clock w; reads := S (reads w); trace := trace w |}).

(** ** HybridRetriever *)

(** A LangChain [Document]. *)
Record Document := {
  page_content : string;
  metadata : gmap string pyval
}.

(** The attributes set by [__init__]. [_vectorstore q k] stands for
    [similarity_search_with_score(q, k=k)], which gives documents with
    their L2 distance; [_bm25_index tokens] stands for [get_scores(tokens)],
    one score per document of the corpus. *)
Record HybridRetriever := {
  _vectorstore : string -> Z -> result (list (Document * Q));
  _bm25_index : list string -> result (list Q);
  _document_texts : list string;
  _metadata : list (gmap string pyval);
  _vector_weight : Q;
  _bm25_weight : Q;
  _k : Z
}.

(** Index of the first element that satisfies [p] ([enumerate] and the
    early [return idx]). *)
Fixpoint find_index {A} (p : A -> bool) (l : list A) : option nat :=
  match l with
  | [] => None
  | x :: xs => if p x then Some 0%nat else S <$> find_index p xs
  end.

Definition _get_doc_index (self : HybridRetriever) (doc : Document) : option nat :=
  let doc_id := get (metadata doc) "id" in
  if truthy doc_id
  then find_index (fun meta => py_eq (get meta "id") doc_id) (_metadata self)
  else None.

(** [similarity = 1 / (1 + score)]. *)
Definition similarity (score : Q) : Q := 1 / (1 + score).

(** The loop that fills [vector_scores_dict]. *)
Definition vector_scores_dict (self : HybridRetriever)
    (vector_docs : list (Document * Q)) : gmap nat Q :=
  foldl (fun acc ds =>
           match _get_doc_index self (fst ds) with
           | Some doc_idx => <[doc_idx := similarity (snd ds)]> acc
           | None => acc
           end) ∅ vector_docs.

(** [a.max()] of a numpy array: an empty array raises. *)
Definition Qmax2 (a b : Q) : Q := if Qle_bool a b then b else a.

Definition np_max (a : list Q) : result Q :=
  match a with
  | [] => Raise (ValueError "zero-size array to reduction operation maximum which has no identity")
  | x :: xs => Ok (foldl Qmax2 x xs)
  end.

(** [bm25_max = bm25_scores.max() if bm25_scores.max() > 0 else 1]. *)
Definition bm25_max (bm25_scores : list Q) : result Q :=
  let! m := np_max bm25_scores in
  Ok (if Qgtb m 0 then m else 1).

(** [bm25_scores / bm25_max if bm25_max > 0 else bm25_scores]. *)
Definition bm25_scores_normalized (bm25_scores : list Q) : result (list Q) :=
  let! mx := bm25_max bm25_scores in
  Ok (if Qgtb mx 0 then map (fun s => s / mx) bm25_scores else bm25_scores).

(** [a[idx]] on an array or a list. *)
Definition index {A} (a : list A) (idx : nat) : result A :=
  match a !! idx with
  | Some x => Ok x
  | None => Raise IndexError
  end.

(** The loop that fills [combined_scores]. Its keys are
    [0 .. len(document_texts) - 1], inserted in that order, so the dict is
    the list of its values and [combined_scores[idx]] is the [idx]-th one. *)
Definition combined_scores (self : HybridRetriever)
    (vsd : gmap nat Q) (normalized : list Q) : result (list Q) :=
  rmap (fun idx =>
          let vector_score := default 0 (vsd !! idx) in
          let! bm25_score := index normalized idx in
          Ok (_vector_weight self * vector_score + _bm25_weight self * bm25_score))
       (seq 0 (length (_document_texts self))).

(** [combined_scores.items()]. *)
Definition items {A} (l : list A) : list (nat * A) := imap (fun i x => (i, x)) l.

(** [sorted(xs, key=lambda x: x[1], reverse=True)]: a stable sort by
    decreasing key. [insert_desc x l] puts [x] in front of the first
    element whose key is not above the key of [x]; elements are inserted
    from the right, so an element stays in front of the later elements
    that have its key. *)
Fixpoint insert_desc {A} (x : A * Q) (l : list (A * Q)) : list (A * Q) :=
  match l with
  | [] => [x]
  | y :: ys => if Qltb (snd x) (snd y) then y :: insert_desc x ys else x :: y :: ys
  end.

Definition sorted_desc {A} (l : list (A * Q)) : list (A * Q) :=
  foldr insert_desc [] l.

(** The part of [_get_relevant_documents] that follows the two index
    calls: normalise, combine, sort, cut to [k], build the documents. *)
Definition sorted_indices (combined : list Q) : list (nat * Q) :=
  sorted_desc (items combined).

Definition top_indices (self : HybridRetriever) (combined : list Q) : list nat :=
  map fst (slice_to (sorted_indices combined) (_k self)).

Definition build_document (self : HybridRetriever) (vsd : gmap nat Q)
    (normalized combined : list Q) (idx : nat) : result Document :=
  let! text := index (_document_texts self) idx in
  let! meta := index (_metadata self) idx in
  let! score := index combined idx in
  let! bm25 := index normalized idx in
  Ok {| page_content := text;
        metadata :=
          <["bm25_score" := VFloat bm25]>
            (<["vector_score" := VFloat (default 0 (vsd !! idx))]>
               (<["score" := VFloat score]> meta)) |}.

Definition rank (self : HybridRetriever) (vsd : gmap nat Q)
    (bm25_scores : list Q) : result (list Document) :=
  let! normalized := bm25_scores_normalized bm25_scores in
  let! combined := combined_scores self vsd normalized in
  rmap (build_document self vsd normalized combined) (top_indices self combined).

Definition _get_relevant_documents (self : HybridRetriever) (query : string)
    : M (list Document) :=
  let* vector_docs :=
    call (VectorSearch query (_k self * 2)) (_vectorstore self query (_k self * 2)%Z) in
  let vsd := vector_scores_dict self vector_docs in
  let tokenized_query := split (lower query) in
  match tokenized_query with
  | [] => ret []
  | _ =>
      let* bm25_scores :=
        call (Bm25Scores tokenized_query) (_bm25_index self tokenized_query) in
      lift (rank self vsd bm25_scores)
  end.

Definition get_relevant_documents (self : HybridRetriever) (query : string)
    : M (list Document) :=
  _get_relevant_documents self query.

(** ** RAGPipeline *)

(** The attributes the query path reads. [hf_client prompt] stands for
    [hf_client.text_generation(prompt, ...)]; [llm_model] is [None] when no
    local model was loaded, and otherwise [llm prompt] stands for the
    tokenizer's [encode], the model's [generate] and the tokenizer's
    [decode] of the new tokens. *)
Record RAGPipeline := {
  retriever : option HybridRetriever;
  use_inference_api : bool;
  hf_client : string -> result string;
  llm_model : option (string -> result string)
}.

Definition nl : string := String (ascii_of_nat 10) EmptyString.

(** [np.var]: the population variance. *)
Definition np_sum (l : list Q) : Q := foldr Qplus 0 l.
Definition np_mean (l : list Q) : Q := np_sum l / inject_Z (Z.of_nat (length l)).
Definition np_var (l : list Q) : Q :=
  let m := np_mean l in
  np_mean (map (fun x => (x - m) * (x - m)) l).

(** [set(word.lower() for word in s.split() if len(word) > 2)]. *)
Definition content_words (s : string) : gset string :=
  list_to_set (map lower (filter (fun word => (2 < String.length word)%nat) (split s))).

(** [v.split()], [v.strip()], [v.lower()]: only a [str] has the methods. *)
Definition as_str (v : pyval) : result string :=
  match v with
  | VStr s => Ok s
  | _ => Raise AttributeError
  end.

Section Rendering.

(** How numbers and values are turned into text: [fixed n x] stands for
    [f"{x:.nf}"] and [repr v] for [str(v)] of a value that is not a
    string. *)
Variable fixed : nat -> Q -> string.
Variable repr : pyval -> string.

Definition py_str (v : pyval) : string :=
  match v with
  | VStr s => s
  | _ => repr v
  end.

(** [f"{v:.nf}"]: the value has to be a number. *)
Definition format_fixed (n : nat) (v : pyval) : result string :=
  let! x := as_number v in Ok (fixed n x).

(** *** retrieve *)

Definition format_result (doc : Document) : gmap string pyval :=
  let md := metadata doc in
  {[ "content" := VStr (page_content doc);
     "score" := get_default md "score" (VFloat 0);
     "metadata" := VDict
        {[ "id" := get md "id";
           "category" := get md "category";
           "question" := get md "question";
           "answer" := get md "answer";
           "tags" := get_default md "tags" (VList []) ]} ]}.

Definition retrieve (cfg : Settings) (self : RAGPipeline) (query : string)
    (top_k : option Z) : M (list (gmap string pyval)) :=
  if String.eqb query "" || is_blank query then ret []
  else
    let top_k := default (max_context_chunks cfg) top_k in
    match retriever self with
    | None => raise (ValueError "RAG pipeline not properly initialized. Retriever missing.")
    | Some r =>
        try_except
          (let* docs := get_relevant_documents r query in
           ret (map format_result (slice_to docs top_k)))
          (fun _ => ret [])
    end.

(** *** validate_relevance *)

(** Validation 2. [Some variance] when the check blocks. *)
Definition consistency_check (cfg : Settings) (chunks : list (gmap string pyval))
    : result (option Q) :=
  if (3 <=? length chunks)%nat then
    let! raw := rmap (fun chunk => getitem chunk "score") (firstn 3 chunks) in
    let! scores := rmap as_number raw in
    let variance := np_var scores in
    Ok (if Qgtb variance (variance_threshold cfg) then Some variance else None)
  else Ok None.

(** Validation 3. [Some overlap] when the check blocks. *)
Definition coverage_check (cfg : Settings) (top_chunk : gmap string pyval)
    (query : string) : result (option Q) :=
  let query_words := content_words query in
  if bool_decide (size query_words = 0%nat) then Ok None
  else
    let! content := getitem top_chunk "content" in
    let! text := as_str content in
    let top_chunk_words := content_words text in
    let overlap :=
      inject_Z (Z.of_nat (size (query_words ∩ top_chunk_words)))
      / inject_Z (Z.of_nat (size query_words)) in
    Ok (if Qltb overlap (keyword_overlap_threshold cfg) then Some overlap else None).

Definition validate_relevance (cfg : Settings) (chunks : list (gmap string pyval))
    (query : string) : result (bool * pyval * string) :=
  match chunks with
  | [] => Ok (false, VFloat 0, "No chunks retrieved")
  | top_chunk :: _ =>
      let! top_score := getitem top_chunk "score" in
      let! top := as_number top_score in
      if Qltb top (similarity_threshold cfg) then
        Ok (false, top_score,
            "Similarity score " ++ fixed 2 top ++ " below threshold "
            ++ repr (VFloat (similarity_threshold cfg)))
      else
        let! high := consistency_check cfg chunks in
        match high with
        | Some variance =>
            Ok (false, top_score,
                "High score variance " ++ fixed 3 variance
                ++ " indicates ambiguous query")
        | None =>
            let! low := coverage_check cfg top_chunk query in
            match low with
            | Some overlap =>
                Ok (false, top_score,
                    "Low keyword overlap " ++ fixed 2 overlap
                    ++ " - retrieved content may not be relevant")
            | None => Ok (true, top_score, "All validation checks passed")
            end
        end
  end.

(** *** generate_answer *)

Definition no_information : string :=
  "I don't have enough information to answer this question. Please try rephrasing or contact support.".

Definition no_detailed_answer : string :=
  "I found relevant information but cannot generate a detailed answer.".

Definition generation_error : string :=
  "I encountered an error while generating an answer. Please try again or contact support.".

Definition refusal_patterns : list string :=
  [ "i don't know"; "i cannot"; "i'm unable"; "i don't have";
    "insufficient information"; "i don't have enough";
    "cannot answer"; "unable to answer" ].

(** [any(pattern in answer.lower() for pattern in refusal_patterns)]. *)
Definition is_refusal (answer : string) : bool :=
  existsb (fun pattern => contains pattern (lower answer)) refusal_patterns.

(** [best_chunk['metadata'].get('answer', dflt)]. *)
Definition stored_answer (best_chunk : gmap string pyval) (dflt : string)
    : result pyval :=
  let! md := getitem best_chunk "metadata" in
  let! md := method_get md in
  Ok (get_default md "answer" (VStr dflt)).

(** One element of [context_parts]. *)
Definition context_part (chunk : gmap string pyval) : result string :=
  let! score := getitem chunk "score" in
  let! md := method_get (get_default chunk "metadata" (VDict ∅)) in
  let! dflt := getitem chunk "content" in
  let content := get_default md "answer" dflt in
  let! shown := format_fixed 2 score in
  Ok ("[Score: " ++ shown ++ "]" ++ nl ++ py_str content ++ nl).

Definition build_prompt (context query : string) : string :=
  "You are a helpful support assistant. Answer based ONLY on the provided documentation."
  ++ nl ++ nl ++ "Context:" ++ nl ++ context ++ nl ++ nl
  ++ "Question: " ++ query ++ nl ++ nl ++ "Answer based on the context above:".

(** [prompt[:max//2] + "\n...\n" + prompt[-max//2:]] when the prompt is
    longer than [max_prompt_length = 1024]. *)
Definition truncate_prompt (prompt : string) : string :=
  if (1024 <? String.length prompt)%nat
  then take_str 512 prompt ++ nl ++ "..." ++ nl ++ take_last 512 prompt
  else prompt.

(** The three ways an answer is produced. *)
Definition produce_answer (self : RAGPipeline) (prompt : string)
    (chunks : list (gmap string pyval)) : M pyval :=
  if use_inference_api self then
    let* answer := call (TextGeneration prompt) (hf_client self prompt) in
    ret (VStr answer)
  else
    match llm_model self with
    | Some llm =>
        let prompt := truncate_prompt prompt in
        let* answer := call (LocalGeneration prompt) (llm prompt) in
        ret (VStr answer)
    | None =>
        lift (let! best_chunk := index chunks 0 in
              stored_answer best_chunk no_detailed_answer)
    end.

(** The checks that follow [answer = answer.strip()]. *)
Definition post_process (chunks : list (gmap string pyval)) (answer : string)
    : result pyval :=
  let! answer :=
    if is_refusal answer then
      let! best_chunk := index chunks 0 in
      stored_answer best_chunk no_detailed_answer
    else Ok (VStr answer) in
  let! too_short :=
    if negb (truthy answer) then Ok true
    else let! n := py_len answer in Ok (n <? 10)%nat in
  if too_short then
    let! best_chunk := index chunks 0 in
    stored_answer best_chunk no_detailed_answer
  else Ok answer.

(** The prompt: the context parts joined by a line break, then the
    question. *)
Definition prompt_for (query : string) (chunks : list (gmap string pyval))
    : result string :=
  let! context_parts := rmap context_part chunks in
  Ok (build_prompt (join nl context_parts) query).

Definition generate_answer (self : RAGPipeline) (query : string)
    (chunks : list (gmap string pyval)) : M pyval :=
  match chunks with
  | [] => ret (VStr no_information)
  | _ =>
      let* prompt := lift (prompt_for query chunks) in
      try_except
        (let* answer := produce_answer self prompt chunks in
         let* answer := lift (as_str answer) in
         lift (post_process chunks (strip answer)))
        (fun _ =>
           lift (let! best_chunk := index chunks 0 in
                 stored_answer best_chunk generation_error))
  end.

(** *** query *)

Definition please_ask : string := "Please provide a valid question.".

Definition pipeline_error : string :=
  "I encountered an error while processing your question. Please try again or contact support.".

Definition no_information_because (validation_reason : string) : string :=
  "I don't have enough information to answer this question. ("
  ++ validation_reason ++ ") Please try rephrasing or contact support.".

Definition query_result (answer : pyval) (chunks : list pyval) (confidence : pyval)
    (blocked : bool) (response_time_ms : Q) : gmap string pyval :=
  {[ "answer" := answer;
     "chunks" := VList chunks;
     "confidence" := confidence;
     "blocked" := VBool blocked;
     "response_time_ms" := VFloat response_time_ms ]}.

(** [(time.time() - start_time) * 1000]. *)
Definition elapsed_ms (start_time : Q) : M Q :=
  let* now := time_time in ret ((now - start_time) * 1000).

(** One element of [formatted_chunks]. *)
Definition format_chunk (chunk : gmap string pyval) : result pyval :=
  let! content := getitem chunk "content" in
  let! score := getitem chunk "score" in
  let! md := getitem chunk "metadata" in
  let! id := subscript md "id" in
  let! md := getitem chunk "metadata" in
  let! category := subscript md "category" in
  Ok (VDict {[ "content" := content;
               "score" := score;
               "metadata" := VDict {[ "id" := id; "category" := category ]} ]}).

(** The three methods [query] calls on [self]. *)
Record Stages := {
  do_retrieve : string -> M (list (gmap string pyval));
  do_validate_relevance :
    list (gmap string pyval) -> string -> result (bool * pyval * string);
  do_generate_answer : string -> list (gmap string pyval) -> M pyval
}.

(** The body of the [try] block of [query]. *)
Definition query_try (cfg : Settings) (self : Stages) (user_query : string)
    (start_time : Q) : M (gmap string pyval) :=
  let* chunks := do_retrieve self user_query in
  let* (is_valid, confidence, validation_reason) :=
    lift (do_validate_relevance self chunks user_query) in
  let* (answer, blocked) :=
    if is_valid : bool then
      let* answer := do_generate_answer self user_query chunks in
      ret (answer, false)
    else
      ret (VStr (if debug cfg then no_information_because validation_reason
                 else no_information), true) in
  let* response_time_ms := elapsed_ms start_time in
  let* formatted_chunks := lift (rmap format_chunk chunks) in
  ret (query_result answer formatted_chunks confidence blocked response_time_ms).

Definition query_with (cfg : Settings) (self : Stages) (user_query : string)
    : M (gmap string pyval) :=
  let* start_time := time_time in
  if String.eqb user_query "" || is_blank user_query then
    let* response_time_ms := elapsed_ms start_time in
    ret (query_result (VStr please_ask) [] (VFloat 0) true response_time_ms)
  else
    try_except
      (query_try cfg self user_query start_time)
      (fun _ =>
         let* response_time_ms := elapsed_ms start_time in
         ret (query_result (VStr pipeline_error) [] (VFloat 0) true response_time_ms)).

(** [query] on a pipeline: the three methods are those of the class. *)
Definition methods (cfg : Settings) (self : RAGPipeline) : Stages := {|
  do_retrieve := fun q => retrieve cfg self q None;
  do_validate_relevance := validate_relevance cfg;
  do_generate_answer := generate_answer self
|}.

Definition query (cfg : Settings) (self : RAGPipeline) (user_query : string)
    : M (gmap string pyval) :=
  query_with cfg (methods cfg self) user_query.

End Rendering.

(** ** Start-up: [_init_llm], [_load_documents], [_build_indices]

    What start-up reads from outside the program is given to it: the
    items of the parsed documentation file, the constructors of the
    Hugging Face client, tokenizer and model, and the operations of the
    FAISS store and of [BM25Okapi]. *)

(** The pipeline as [__init__] has it before the first call: no
    retriever, no model, and no [hf_client] attribute. *)
Definition new_pipeline : RAGPipeline :=
  {| retriever := None;
     use_inference_api := false;
     hf_client := fun _ => Raise AttributeError;
     llm_model := None |}.

(** *** _init_llm *)

(** The settings [_init_llm] reads; [settings_llm_model] is
    [settings.llm_model]. *)
Record LLMSettings := {
  settings_llm_model : string;
  huggingface_api_key : option string;
  use_hf_inference : bool
}.

(** [settings.use_hf_inference and settings.huggingface_api_key]: the key
    counts when it is set and not empty. *)
Definition inference_key (s : LLMSettings) : option string :=
  if use_hf_inference s then
    match huggingface_api_key s with
    | Some key => if String.eqb key "" then None else Some key
    | None => None
    end
  else None.

Section Hub.

(** A tokenizer and a model are what [from_pretrained] gives;
    [local_generate tokenizer model prompt] stands for [encode],
    [generate] and [decode] of the new tokens. The assignment of the
    padding token that follows the two loads is not modelled. *)
Context {Tokenizer Model : Type}.
Variable local_generate : Tokenizer -> Model -> string -> result string.

(** The three constructors [_init_llm] calls: [InferenceClient model token],
    [AutoTokenizer.from_pretrained name] and
    [AutoModelForCausalLM.from_pretrained name]. *)
Record Hub := {
  InferenceClient : string -> string -> result (string -> result string);
  AutoTokenizer_from_pretrained : string -> result Tokenizer;
  AutoModelForCausalLM_from_pretrained : string -> result Model
}.

(** The body of the [try] of [_init_llm]. *)
Definition init_llm_try (s : LLMSettings) (hub : Hub) (self : RAGPipeline)
    : result RAGPipeline :=
  match inference_key s with
  | Some key =>
      let! client := InferenceClient hub (settings_llm_model s) key in
      Ok {| retriever := retriever self;
            use_inference_api := true;
            hf_client := client;
            llm_model := llm_model self |}
  | None =>
      let model_name := settings_llm_model s in
      let! tokenizer := AutoTokenizer_from_pretrained hub model_name in
      let! model := AutoModelForCausalLM_from_pretrained hub model_name in
      Ok {| retriever := retriever self;
            use_inference_api := false;
            hf_client := hf_client self;
            llm_model := Some (local_generate tokenizer model) |}
  end.

(** An exception leaves the attributes as they were, but for [llm_model],
    which the handler sets to [None]. *)
Definition _init_llm (s : LLMSettings) (hub : Hub) (self : RAGPipeline)
    : RAGPipeline :=
  match init_llm_try s hub self with
  | Ok self' => self'
  | Raise _ =>
      {| retriever := retriever self;
         use_inference_api := use_inference_api self;
         hf_client := hf_client self;
         llm_model := None |}
  end.

End Hub.

Arguments Hub : clear implicits.

(** *** _load_documents *)

(** [field in doc]: a key of a dict, a substring of a string, an element
    of a list; the other values are not containers. *)
Definition py_in (field : string) (doc : pyval) : result bool :=
  match doc with
  | VDict d => Ok (bool_decide (is_Some (d !! field)))
  | VStr s => Ok (contains field s)
  | VList l => Ok (existsb (py_eq (VStr field)) l)
  | _ => Raise TypeError
  end.

Definition required_fields : list string :=
  ["id"; "category"; "question"; "answer"; "tags"].

(** [all(field in doc for field in fields)]: the tests are made in order
    and stop at the first one that fails. *)
Fixpoint has_fields (doc : pyval) (fields : list string) : result bool :=
  match fields with
  | [] => Ok true
  | field :: fields' =>
      let! present := py_in field doc in
      if present : bool then has_fields doc fields' else Ok false
  end.

(** What [_load_documents] appends to: the four lists of [self]. The
    attribute [self.metadata] is [corpus_metadata] here. *)
Record Corpus := {
  documents : list pyval;
  langchain_documents : list Document;
  document_texts : list string;
  corpus_metadata : list (gmap string pyval)
}.

Definition empty_corpus : Corpus :=
  {| documents := []; langchain_documents := []; document_texts := [];
     corpus_metadata := [] |}.

Section Loading.

(** [repr v] stands for [str(v)] of a value that is not a string, and
    [key_order d] for the keys of a dict in the order a loop over it
    visits them. *)
Variable repr : pyval -> string.
Variable key_order : gmap string pyval -> list string.

(** [sep.join(v)]: the items of [v] have to be strings. A string is
    joined character by character, a dict by its keys. *)
Definition join_value (sep : string) (v : pyval) : result string :=
  match v with
  | VList l =>
      let! words := rmap (fun item => match item with
                                      | VStr s => Ok s
                                      | _ => Raise TypeError
                                      end) l in
      Ok (join sep words)
  | VStr s =>
      Ok (join sep (map (fun c => String c EmptyString) (list_ascii_of_string s)))
  | VDict d => Ok (join sep (key_order d))
  | _ => Raise TypeError
  end.

(** The f-string that gives [content]. *)
Definition entry_content (d : gmap string pyval) (tags_str : string)
    : result string :=
  let! category := getitem d "category" in
  let! question := getitem d "question" in
  let! answer := getitem d "answer" in
  Ok ("Category: " ++ py_str repr category ++ nl
      ++ "Question: " ++ py_str repr question ++ nl
      ++ "Answer: " ++ py_str repr answer ++ nl
      ++ "Tags: " ++ tags_str).

(** The dict literal that gives [metadata]. *)
Definition entry_metadata (d : gmap string pyval) : result (gmap string pyval) :=
  let! id := getitem d "id" in
  let! category := getitem d "category" in
  let! question := getitem d "question" in
  let! answer := getitem d "answer" in
  Ok {[ "id" := id;
        "category" := category;
        "source" := VStr "documentation.json";
        "question" := question;
        "answer" := answer;
        "tags" := get_default d "tags" (VList []) ]}.

(** One turn of the loop over the entries of the file. *)
Definition load_entry (self : Corpus) (doc : pyval) : result Corpus :=
  let! complete := has_fields doc required_fields in
  if negb complete then Ok self
  else
    let! d := method_get doc in
    let! tags_str := join_value ", " (get_default d "tags" (VList [])) in
    let! content := entry_content d tags_str in
    let! md := entry_metadata d in
    let langchain_doc := {| page_content := content; metadata := md |} in
    Ok {| documents := documents self ++ [doc];
          langchain_documents := langchain_documents self ++ [langchain_doc];
          document_texts := document_texts self ++ [content];
          corpus_metadata := corpus_metadata self ++ [md] |}.

Fixpoint load_entries (self : Corpus) (docs : list pyval) : result Corpus :=
  match docs with
  | [] => Ok self
  | doc :: docs' =>
      let! self := load_entry self doc in
      load_entries self docs'
  end.

(** [file_exists] is [data_path.exists()] and [json_load] what [open] and
    [json.load] give: the items of the parsed file, in order, or an
    exception. [FileNotFoundError] is an [ExternalError] here. *)
Definition _load_documents (file_exists : bool) (json_load : result (list pyval))
    (self : Corpus) : result Corpus :=
  if negb file_exists
  then Raise (ExternalError "Documentation file not found")
  else
    let! docs := json_load in
    load_entries self docs.

End Loading.

(** *** _build_indices *)

(** A FAISS store: the number of vectors of its index, and its search. *)
Record VectorStore := {
  ntotal : nat;
  similarity_search_with_score : string -> Z -> result (list (Document * Q))
}.

(** What index building reads from outside: whether [vector_index_path]
    and the file [index.faiss] beside it exist, and the results of
    [FAISS.load_local], [FAISS.from_documents], [mkdir] with [save_local],
    and [BM25Okapi]. *)
Record IndexEnv := {
  index_path_exists : bool;
  index_file_exists : bool;
  load_local : result VectorStore;
  from_documents : list Document -> result VectorStore;
  save_local : VectorStore -> result unit;
  BM25Okapi : list (list string) -> result (list string -> result (list Q))
}.

(** The store that was built is kept whether or not it could be saved. *)
Definition _rebuild_indices (env : IndexEnv) (self : Corpus) : result VectorStore :=
  let! vectorstore := from_documents env (langchain_documents self) in
  match save_local env vectorstore with
  | Ok _ => Ok vectorstore
  | Raise _ => Ok vectorstore
  end.

(** The body of the [try] of [_build_indices]: the rebuild after a count
    mismatch is inside it. *)
Definition load_index_try (env : IndexEnv) (self : Corpus) : result VectorStore :=
  let! vectorstore := load_local env in
  if (ntotal vectorstore =? length (langchain_documents self))%nat
  then Ok vectorstore
  else _rebuild_indices env self.

Definition _build_indices (cfg : Settings) (env : IndexEnv) (self : Corpus)
    : result HybridRetriever :=
  match langchain_documents self with
  | [] => Raise (ValueError "No documents loaded")
  | _ =>
      let! vectorstore :=
        if index_path_exists env && index_file_exists env then
          match load_index_try env self with
          | Ok vectorstore => Ok vectorstore
          | Raise _ => _rebuild_indices env self
          end
        else _rebuild_indices env self in
      let tokenized_docs := map (fun doc => split (lower doc)) (document_texts self) in
      let! bm25_index := BM25Okapi env tokenized_docs in
      Ok {| _vectorstore := similarity_search_with_score vectorstore;
            _bm25_index := bm25_index;
            _document_texts := document_texts self;
            _metadata := corpus_metadata self;
            _vector_weight := vector_weight cfg;
            _bm25_weight := bm25_weight cfg;
            _k := max_context_chunks cfg |}
  end.

(** *** RAGPipeline.__init__ *)

(** Everything [__init__] is given: the settings of the model, the result
    of loading the embedding model, the Hugging Face constructors, the
    documentation file and the index environment. *)
Record Startup {Tokenizer Model : Type} := {
  llm_settings : LLMSettings;
  HuggingFaceEmbeddings : result unit;
  hf_hub : Hub Tokenizer Model;
  data_file_exists : bool;
  data_file_items : result (list pyval);
  index_env : IndexEnv
}.
Arguments Startup : clear implicits.

Definition __init__ {Tokenizer Model : Type}
    (local_generate : Tokenizer -> Model -> string -> result string)
    (repr : pyval -> string) (key_order : gmap string pyval -> list string)
    (cfg : Settings) (start : Startup Tokenizer Model) : result RAGPipeline :=
  let! _ := HuggingFaceEmbeddings start in
  let self := _init_llm local_generate (llm_settings start) (hf_hub start)
                new_pipeline in
  let! corpus := _load_documents repr key_order (data_file_exists start)
                   (data_file_items start) empty_corpus in
  let! r := _build_indices cfg (index_env start) corpus in
  Ok {| retriever := Some r;
        use_inference_api := use_inference_api self;
        hf_client := hf_client self;
        llm_model := llm_model self |}.

(** ** A decimal rendering, used where a concrete one is needed

    [decimal_fixed n x] rounds the rational [x] to [n] decimals, half to
    even; [decimal_repr] writes a float with the decimals it needs, up to
    seventeen. *)

Definition round_half_even (x : Q) : Z :=
  let a := Qnum x in
  let b := Zpos (Qden x) in
  let f := (a / b)%Z in
  let r := (2 * (a mod b))%Z in
  if (r <? b)%Z then f
  else if (b <? r)%Z then (f + 1)%Z
  else if Z.even f then f else (f + 1)%Z.

Fixpoint pad_left (width : nat) (s : string) : string :=
  match width with
  | O => s
  | S w => if (String.length s <? width)%nat then pad_left w ("0" ++ s) else s
  end.

Definition decimal_digits (n : nat) (scaled : Z) : string :=
  let p := (10 ^ Z.of_nat n)%Z in
  let m := Z.abs scaled in
  (if (scaled <? 0)%Z then "-" else "")
  ++ pretty (m / p)%Z
  ++ match n with
     | O => ""
     | _ => "." ++ pad_left n (pretty (m mod p)%Z)
     end.

Definition decimal_fixed (n : nat) (x : Q) : string :=
  decimal_digits n (round_half_even (x * inject_Z (10 ^ Z.of_nat n))).

Fixpoint decimals_needed (fuel n : nat) (x : Q) : nat :=
  match fuel with
  | O => n
  | S fuel' =>
      if Qeq_bool (inject_Z (round_half_even (x * inject_Z (10 ^ Z.of_nat n))))
                  (x * inject_Z (10 ^ Z.of_nat n))
      then n else decimals_needed fuel' (S n) x
  end.

Definition decimal_repr (v : pyval) : string :=
  match v with
  | VNone => "None"
  | VBool b => if b then "True" else "False"
  | VInt z => pretty z
  | VFloat x => decimal_fixed (decimals_needed 16 1 x) x
  | VStr s => s
  | VList _ => "[...]"
  | VDict _ => "{...}"
  end.

(** ** Shapes and examples used by the statements *)

(** A chunk as [retrieve] builds it: a float score, a text, and a
    metadata dict that has the five keys. *)
Definition metadata_keys : list string :=
  ["id"; "category"; "question"; "answer"; "tags"].

Definition is_chunk (chunk : gmap string pyval) : Prop :=
  (exists s, chunk !! "score" = Some (VFloat s))
  /\ (exists text, chunk !! "content" = Some (VStr text))
  /\ (exists md, chunk !! "metadata" = Some (VDict md)
        /\ Forall (fun k => is_Some (md !! k)) metadata_keys).

(** The fused score of a chunk, when it has one. *)
Definition score_of (chunk : gmap string pyval) : option Q :=
  match chunk !! "score" with
  | Some (VFloat s) => Some s
  | _ => None
  end.

(** A string made of white space only (the empty string included). *)
Fixpoint all_space (s : string) : bool :=
  match s with
  | EmptyString => true
  | String c s' => is_space c && all_space s'
  end.

(** The entry of scenario A of the specification. *)
Definition billing_meta : gmap string pyval :=
  {[ "id" := VStr "1";
     "category" := VStr "Billing";
     "source" := VStr "documentation.json";
     "question" := VStr "How do I update my payment method?";
     "answer" := VStr "Go to Settings > Billing...";
     "tags" := VList [VStr "billing"; VStr "payment"] ]}.

Definition billing_text : string :=
  "Category: Billing" ++ nl
  ++ "Question: How do I update my payment method?" ++ nl
  ++ "Answer: Go to Settings > Billing..." ++ nl
  ++ "Tags: billing, payment".

Definition login_meta : gmap string pyval :=
  {[ "id" := VStr "2";
     "category" := VStr "Account";
     "source" := VStr "documentation.json";
     "question" := VStr "How do I reset my password?";
     "answer" := VStr "Use the Forgot password link on the sign-in page.";
     "tags" := VList [VStr "account"; VStr "password"] ]}.

Definition login_text : string :=
  "Category: Account" ++ nl
  ++ "Question: How do I reset my password?" ++ nl
  ++ "Answer: Use the Forgot password link on the sign-in page." ++ nl
  ++ "Tags: account, password".

Definition export_meta : gmap string pyval :=
  {[ "id" := VStr "3";
     "category" := VStr "Data";
     "source" := VStr "documentation.json";
     "question" := VStr "How do I export my data?";
     "answer" := VStr "Open Settings > Data and choose Export.";
     "tags" := VList [VStr "data"; VStr "export"] ]}.

Definition export_text : string :=
  "Category: Data" ++ nl
  ++ "Question: How do I export my data?" ++ nl
  ++ "Answer: Open Settings > Data and choose Export." ++ nl
  ++ "Tags: data, export".

(** A retriever over these three entries. The vector store answers with
    the given distances, the BM25 index with the given scores. *)
Definition demo_retriever (vw bw : Q) (distances : list (nat * Q)) (bm25 : list Q)
    : HybridRetriever :=
  let texts := [billing_text; login_text; export_text] in
  let metas := [billing_meta; login_meta; export_meta] in
  {| _vectorstore := fun _ _ =>
       Ok (omap (fun '(i, d) =>
                   text ← texts !! i; meta ← metas !! i;
                   Some ({| page_content := text; metadata := meta |}, d))
                distances);
     _bm25_index := fun _ => Ok bm25;
     _document_texts := texts;
     _metadata := metas;
     _vector_weight := vw;
     _bm25_weight := bw;
     _k := 5 |}.

(** A pipeline around a retriever, with no generation back end. *)
Definition demo_pipeline (r : HybridRetriever) : RAGPipeline :=
  {| retriever := Some r;
     use_inference_api := false;
     hf_client := fun _ => Raise (ExternalError "no inference client");
     llm_model := None |}.

(** A pipeline whose inference client answers every prompt with [text]. *)
Definition scripted_pipeline (r : HybridRetriever) (text : string) : RAGPipeline :=
  {| retriever := Some r;
     use_inference_api := true;
     hf_client := fun _ => Ok text;
     llm_model := None |}.

Definition world0 : world :=
  {| clock := fun n => inject_Z (Z.of_nat n); reads := 0; trace := [] |}.

(** A chunk with the given score, text and stored answer. *)
Definition demo_chunk (score : Q) (text answer : string) : gmap string pyval :=
  {[ "content" := VStr text;
     "score" := VFloat score;
     "metadata" := VDict
        {[ "id" := VStr "1";
           "category" := VStr "Billing";
           "question" := VStr "How do I update my payment method?";
           "answer" := VStr answer;
           "tags" := VList [] ]} ]}.

(** The three chunks of scenario D: fused scores 0.9, 0.5 and 0.4. *)
Definition scenario_D : list (gmap string pyval) :=
  [ demo_chunk (9 # 10) billing_text "Go to Settings > Billing...";
    demo_chunk (5 # 10) login_text "Use the Forgot password link on the sign-in page.";
    demo_chunk (4 # 10) export_text "Open Settings > Data and choose Export." ].

(** Distances and BM25 scores for a query about payment: the first entry
    is the closest and the best lexical match. *)
Definition demo_distances : list (nat * Q) := [(0%nat, 1 # 4); (1%nat, 1)].
Definition demo_bm25 : list Q := [2; 1; 0].

(** The retriever with the default weights 0.7 and 0.3. *)
Definition default_retriever : HybridRetriever :=
  demo_retriever (vector_weight default_settings) (bm25_weight default_settings)
    demo_distances demo_bm25.

(** Settings with both weights at 1.0, which each pass [validate_weights],
    and the retriever built from them. *)
Definition heavy_settings : Settings := {|
  similarity_threshold := 65 # 100;
  max_context_chunks := 5;
  variance_threshold := 1 # 10;
  keyword_overlap_threshold := 2 # 10;
  debug := false;
  vector_weight := 1;
  bm25_weight := 1
|}.

Definition heavy_retriever : HybridRetriever :=
  demo_retriever (vector_weight heavy_settings) (bm25_weight heavy_settings)
    demo_distances demo_bm25.

(** A corpus that holds the entry of scenario A alone. With one document,
    [BM25Okapi] gives every term of the corpus the inverse document
    frequency [log 0.5 - log 1.5], replaces it (it is negative) by 0.25
    times the average, which is the same negative number, and so scores
    the query [billing], a term that occurs once in the document, with
    [0.25 * (log 0.5 - log 1.5)], about -0.2747. *)
Definition single_retriever : HybridRetriever :=
  {| _vectorstore := fun _ _ =>
       Ok [({| page_content := billing_text; metadata := billing_meta |}, 1 # 2)];
     _bm25_index := fun _ => Ok [- (2747 # 10000)];
     _document_texts := [billing_text];
     _metadata := [billing_meta];
     _vector_weight := vector_weight default_settings;
     _bm25_weight := bm25_weight default_settings;
     _k := max_context_chunks default_settings |}.

(** The fused scores of the chunks a run of [retrieve] returned. *)
Definition returned_scores (run : result (list (gmap string pyval)) * world)
    : option (list (option Q)) :=
  match fst run with
  | Ok chunks => Some (map score_of chunks)
  | Raise _ => None
  end.

(** An exception leaves one of the three stages of [query]: retrieval,
    validation of what was retrieved, or generation from chunks that were
    accepted. [raised_in self q w e w'] gives the exception and the world
    it leaves behind. *)
Inductive raised_in (self : Stages) (q : string) (w : world) : exn -> world -> Prop :=
| raised_in_retrieval e w' :
    do_retrieve self q w = (Raise e, w') ->
    raised_in self q w e w'
| raised_in_validation chunks e w' :
    do_retrieve self q w = (Ok chunks, w') ->
    do_validate_relevance self chunks q = Raise e ->
    raised_in self q w e w'
| raised_in_generation chunks confidence reason e w' w'' :
    do_retrieve self q w = (Ok chunks, w') ->
    do_validate_relevance self chunks q = Ok (true, confidence, reason) ->
    do_generate_answer self q chunks w' = (Raise e, w'') ->
    raised_in self q w e w''.

(** The world after one more reading of the clock. *)
Definition tick (w : world) : world :=
  {| clock := clock w; reads := S (reads w); trace := trace w |}.

(** A dict with the five fields of a query result, the elapsed time being
    measured from the reading [start_time]. *)
Definition is_query_result (start_time : Q) (d : gmap string pyval) : Prop :=
  exists answer chunks confidence blocked now,
    d = query_result answer chunks confidence blocked ((now - start_time) * 1000).

(** A pipeline that was not initialised: it has no retriever. *)
Definition broken_pipeline : RAGPipeline :=
  {| retriever := None;
     use_inference_api := false;
     hf_client := fun _ => Raise (ExternalError "no inference client");
     llm_model := None |}.

(** A retriever for which the query of scenario A is accepted: the first
    entry is at distance 0 and is the best lexical match. *)
Definition accepting_retriever : HybridRetriever :=
  demo_retriever (vector_weight default_settings) (bm25_weight default_settings)
    [(0%nat, 0); (1%nat, 1); (2%nat, 1)] [2; 1; 0].

(** A pipeline whose inference client raises on every prompt. *)
Definition failing_generator_pipeline : RAGPipeline :=
  {| retriever := Some accepting_retriever;
     use_inference_api := true;
     hf_client := fun _ => Raise (ExternalError "inference endpoint unavailable");
     llm_model := None |}.

(** A pipeline whose vector store raises on every query. *)
Definition failing_index_pipeline : RAGPipeline :=
  {| retriever := Some
       {| _vectorstore := fun _ _ => Raise (ExternalError "embedding failed");
          _bm25_index := fun _ => Ok [2; 1; 0];
          _document_texts := [billing_text; login_text; export_text];
          _metadata := [billing_meta; login_meta; export_meta];
          _vector_weight := vector_weight default_settings;
          _bm25_weight := bm25_weight default_settings;
          _k := max_context_chunks default_settings |};
     use_inference_api := false;
     hf_client := fun _ => Raise (ExternalError "no inference client");
     llm_model := None |}.

(** What a run of [query] shows to its caller: the answer, the number of
    chunks, the confidence and the blocked flag, or [None] if it raised. *)
Definition shown (run : result (gmap string pyval) * world)
    : option (option pyval * option nat * option pyval * option pyval) :=
  match fst run with
  | Ok d =>
      Some (d !! "answer",
            match d !! "chunks" with
            | Some (VList l) => Some (length l)
            | _ => None
            end,
            d !! "confidence",
            d !! "blocked")
  | Raise _ => None
  end.

(** The calls to a generator recorded in the trace of a run. *)
Definition is_generation (ev : event) : bool :=
  match ev with
  | TextGeneration _ | LocalGeneration _ => true
  | _ => false
  end.

Definition generator_calls {A} (run : A * world) : nat :=
  length (List.filter is_generation (trace (snd run))).

(** An entry of the documentation file that passes the test of the
    required fields. *)
Definition complete (doc : pyval) : bool :=
  match has_fields doc required_fields with
  | Ok present => present
  | Raise _ => false
  end.

(** The four lists of a corpus describe the same entries, position by
    position: the entry at a position is a complete dict, and the text,
    the metadata and the LangChain document at that position are the ones
    [_load_documents] makes of it. *)
Definition aligned (repr : pyval -> string)
    (key_order : gmap string pyval -> list string) (self : Corpus) : Prop :=
  length (langchain_documents self) = length (documents self)
  /\ length (document_texts self) = length (documents self)
  /\ length (corpus_metadata self) = length (documents self)
  /\ forall i doc,
       documents self !! i = Some doc ->
       exists d tags_str content md,
         doc = VDict d
         /\ complete doc = true
         /\ join_value key_order ", " (get_default d "tags" (VList [])) = Ok tags_str
         /\ entry_content repr d tags_str = Ok content
         /\ entry_metadata d = Ok md
         /\ document_texts self !! i = Some content
         /\ corpus_metadata self !! i = Some md
         /\ langchain_documents self !! i
            = Some {| page_content := content; metadata := md |}.

(** A tags value that [", ".join] rejects: not a container, or a list
    with an element that is not a string. *)
Definition unjoinable (tags : pyval) : Prop :=
  match tags with
  | VNone | VBool _ | VInt _ | VFloat _ => True
  | VList l => exists item, item ∈ l /\ forall s, item <> VStr s
  | VStr _ | VDict _ => False
  end.

(** Start-up inputs for a corpus of the three entries above: no index on
    disk, a store that answers every search with nothing and a BM25 index
    that scores every entry 0; the local model echoes its prompt. *)
Definition demo_entries : list pyval :=
  [VDict billing_meta; VDict login_meta; VDict export_meta].

Definition demo_index_env : IndexEnv :=
  {| index_path_exists := false;
     index_file_exists := false;
     load_local := Raise (ExternalError "no index on disk");
     from_documents := fun docs =>
       Ok {| ntotal := length docs;
             similarity_search_with_score := fun _ _ => Ok [] |};
     save_local := fun _ => Raise (ExternalError "read-only file system");
     BM25Okapi := fun corpus => Ok (fun _ => Ok (map (fun _ => 0) corpus)) |}.

Definition demo_hub : Hub unit unit :=
  {| InferenceClient := fun _ _ => Raise (ExternalError "no network");
     AutoTokenizer_from_pretrained := fun _ => Raise (ExternalError "model not found");
     AutoModelForCausalLM_from_pretrained := fun _ => Ok tt |}.

Definition demo_llm_settings : LLMSettings :=
  {| settings_llm_model := "microsoft/DialoGPT-medium";
     huggingface_api_key := None;
     use_hf_inference := false |}.

Definition demo_startup (entries : list pyval) : Startup unit unit :=
  {| llm_settings := demo_llm_settings;
     HuggingFaceEmbeddings := Ok tt;
     hf_hub := demo_hub;
     data_file_exists := true;
     data_file_items := Ok entries;
     index_env := demo_index_env |}.

Definition echo (tokenizer model : unit) (prompt : string) : result string :=
  Ok prompt.

(** A retriever over the three entries whose first and third entries get
    the same combined score: no vector score, and BM25 scores 1, 2, 1. *)
Definition tied_retriever : HybridRetriever :=
  demo_retriever (vector_weight default_settings) (bm25_weight default_settings)
    [] [1; 2; 1].

(** The corpus of one document again, asked the question of its entry.
    The seven words of the question all occur in the document, "payment"
    twice, so [BM25Okapi] sums the negative inverse document frequency
    [0.25 * (log 0.5 - log 1.5)] seven times, with the weight 10/7 for the
    word that occurs twice: about -2.0403. The vector store gives the
    document at distance 0.4. *)
Definition own_question_retriever : HybridRetriever :=
  {| _vectorstore := fun _ _ =>
       Ok [({| page_content := billing_text; metadata := billing_meta |}, 2 # 5)];
     _bm25_index := fun _ => Ok [- (20403 # 10000)];
     _document_texts := [billing_text];
     _metadata := [billing_meta];
     _vector_weight := vector_weight default_settings;
     _bm25_weight := bm25_weight default_settings;
     _k := max_context_chunks default_settings |}.

(** The order of the ranking: [a] comes before [b] when its score is
    higher, or when the scores are the same number and [a] has the smaller
    corpus index. *)
Definition ranks_before (a b : nat * Q) : Prop :=
  snd b < snd a \/ (snd b == snd a /\ (fst a < fst b)%nat).

(** Corpus indices that grow from left to right. *)
Definition index_before (a b : nat * Q) : Prop := (fst a < fst b)%nat.

(** * Properties *)

(** ** Comparisons and results *)

Ltac forall_list :=
  repeat match goal with
         | |- Forall _ (_ :: _) => constructor
         | |- Forall _ [] => constructor
         end.

Lemma Qltb_lt (a b : Q) : Qltb a b = true <-> a < b.
Proof.
  unfold Qltb. rewrite negb_true_iff, <- not_true_iff_false, Qle_bool_iff.
  split; [apply Qnot_le_lt | apply Qlt_not_le].
Qed.

Lemma Qltb_ge (a b : Q) : Qltb a b = false <-> b <= a.
Proof.
  unfold Qltb. rewrite negb_false_iff. apply Qle_bool_iff.
Qed.

Lemma getitem_Some (d : gmap string pyval) (k : string) (v : pyval) :
  d !! k = Some v -> getitem d k = Ok v.
Proof. intros H. unfold getitem. by rewrite H. Qed.

(** ** validate_relevance *)

Section Validation.

Variable fixed : nat -> Q -> string.
Variable repr : pyval -> string.

(** An empty chunk list is blocked with confidence 0.0. *)
Lemma validate_no_chunks cfg query :
  validate_relevance fixed repr cfg [] query
  = Ok (false, VFloat 0, "No chunks retrieved").
Proof. reflexivity. Qed.

(** C5. A chunk list whose first chunk has a fused score strictly below
    [similarity_threshold] is blocked, whatever follows the first chunk
    and whatever the query is; the confidence returned is that score and
    the reason is the threshold message. *)
Theorem below_threshold_blocks cfg top_chunk rest query top_score top :
  top_chunk !! "score" = Some top_score ->
  as_number top_score = Ok top ->
  top < similarity_threshold cfg ->
  validate_relevance fixed repr cfg (top_chunk :: rest) query
  = Ok (false, top_score,
        "Similarity score " ++ fixed 2 top ++ " below threshold "
        ++ repr (VFloat (similarity_threshold cfg))).
Proof.
  intros Hscore Hnum Hlt. unfold validate_relevance.
  rewrite (getitem_Some _ _ _ Hscore). simpl. rewrite Hnum. simpl.
  apply Qltb_lt in Hlt. by rewrite Hlt.
Qed.

(** The scores read by the consistency check from chunks that have one. *)
Lemma consistency_scores cfg c0 c1 c2 rest s0 s1 s2 :
  c0 !! "score" = Some (VFloat s0) ->
  c1 !! "score" = Some (VFloat s1) ->
  c2 !! "score" = Some (VFloat s2) ->
  consistency_check cfg (c0 :: c1 :: c2 :: rest)
  = Ok (if Qgtb (np_var [s0; s1; s2]) (variance_threshold cfg)
        then Some (np_var [s0; s1; s2]) else None).
Proof.
  intros H0 H1 H2. unfold consistency_check. simpl.
  by rewrite (getitem_Some _ _ _ H0), (getitem_Some _ _ _ H1),
    (getitem_Some _ _ _ H2).
Qed.

Lemma consistency_total cfg chunks :
  Forall is_chunk chunks -> exists high, consistency_check cfg chunks = Ok high.
Proof.
  intros Hall. destruct chunks as [|c0 [|c1 [|c2 rest]]]; try (by eexists).
  inversion Hall as [|? ? [[s0 H0] _] Hall1]; subst.
  inversion Hall1 as [|? ? [[s1 H1] _] Hall2]; subst.
  inversion Hall2 as [|? ? [[s2 H2] _] _]; subst.
  erewrite consistency_scores by eassumption. eauto.
Qed.

Lemma coverage_total cfg top_chunk query :
  is_chunk top_chunk -> exists low, coverage_check cfg top_chunk query = Ok low.
Proof.
  intros (_ & [text Htext] & _). unfold coverage_check.
  case_bool_decide; [by eexists|].
  rewrite (getitem_Some _ _ _ Htext). simpl. eauto.
Qed.

(** The four outcomes of [validate_relevance] on a non-empty list of
    chunks. *)
Lemma validate_relevance_outcome cfg top_chunk rest query :
  Forall is_chunk (top_chunk :: rest) ->
  exists s,
    top_chunk !! "score" = Some (VFloat s)
    /\ (validate_relevance fixed repr cfg (top_chunk :: rest) query
          = Ok (false, VFloat s,
                "Similarity score " ++ fixed 2 s ++ " below threshold "
                ++ repr (VFloat (similarity_threshold cfg)))
        \/ (exists variance,
              validate_relevance fixed repr cfg (top_chunk :: rest) query
              = Ok (false, VFloat s,
                    "High score variance " ++ fixed 3 variance
                    ++ " indicates ambiguous query"))
        \/ (exists overlap,
              validate_relevance fixed repr cfg (top_chunk :: rest) query
              = Ok (false, VFloat s,
                    "Low keyword overlap " ++ fixed 2 overlap
                    ++ " - retrieved content may not be relevant"))
        \/ validate_relevance fixed repr cfg (top_chunk :: rest) query
           = Ok (true, VFloat s, "All validation checks passed")).
Proof.
  intros Hall. pose proof Hall as Hall'.
  inversion Hall' as [|? ? Htop _]; subst.
  destruct (consistency_total cfg _ Hall) as [high Hhigh].
  destruct (coverage_total cfg _ query Htop) as [low Hlow].
  destruct Htop as ([s Hs] & _). exists s. split; [done|].
  unfold validate_relevance. rewrite (getitem_Some _ _ _ Hs). simpl.
  destruct (Qltb s (similarity_threshold cfg)); [by left|].
  rewrite Hhigh. simpl. destruct high as [variance|]; [right; left; eauto|].
  rewrite Hlow. simpl. destruct low as [overlap|]; [right; right; left; eauto|].
  by right; right; right.
Qed.

(** The population variance of 0.9, 0.5 and 0.4 is 7/150. *)
Lemma variance_scenario_D s0 s1 s2 :
  s0 == 9 # 10 -> s1 == 5 # 10 -> s2 == 4 # 10 ->
  np_var [s0; s1; s2] == 7 # 150.
Proof.
  intros H0 H1 H2. unfold np_var, np_mean, np_sum. simpl.
  rewrite H0, H1, H2. reflexivity.
Qed.

(** C1, as the code has it. With the default variance threshold of 0.1,
    a chunk list whose three first fused scores are 0.9, 0.5 and 0.4 and
    whose top score clears the similarity threshold passes the consistency
    check, because the variance of the three scores is 7/150, below 0.1.
    The outcome is that of the keyword overlap check: accepted, or blocked
    for a low overlap; the confidence is the top score. *)
Theorem scenario_D_passes_consistency cfg c0 c1 c2 rest query s0 s1 s2 text :
  variance_threshold cfg == 1 # 10 ->
  similarity_threshold cfg <= 9 # 10 ->
  c0 !! "score" = Some (VFloat s0) -> s0 == 9 # 10 ->
  c1 !! "score" = Some (VFloat s1) -> s1 == 5 # 10 ->
  c2 !! "score" = Some (VFloat s2) -> s2 == 4 # 10 ->
  c0 !! "content" = Some (VStr text) ->
  consistency_check cfg (c0 :: c1 :: c2 :: rest) = Ok None
  /\ (validate_relevance fixed repr cfg (c0 :: c1 :: c2 :: rest) query
        = Ok (true, VFloat s0, "All validation checks passed")
      \/ exists overlap,
           overlap < keyword_overlap_threshold cfg
           /\ validate_relevance fixed repr cfg (c0 :: c1 :: c2 :: rest) query
              = Ok (false, VFloat s0,
                    "Low keyword overlap " ++ fixed 2 overlap
                    ++ " - retrieved content may not be relevant")).
Proof.
  intros Hvar Hsim H0 E0 H1 E1 H2 E2 Htext.
  assert (Hcons : consistency_check cfg (c0 :: c1 :: c2 :: rest) = Ok None).
  { rewrite (consistency_scores cfg c0 c1 c2 rest s0 s1 s2) by done.
    assert (Hle : Qgtb (np_var [s0; s1; s2]) (variance_threshold cfg) = false).
    { apply Qltb_ge. rewrite (variance_scenario_D s0 s1 s2), Hvar by done.
      by unfold Qle. }
    by rewrite Hle. }
  split; [done|].
  unfold validate_relevance. rewrite (getitem_Some _ _ _ H0). simpl.
  assert (Hge : Qltb s0 (similarity_threshold cfg) = false).
  { apply Qltb_ge. by rewrite E0. }
  rewrite Hge, Hcons. simpl.
  unfold coverage_check. case_bool_decide; simpl; [by left|].
  rewrite (getitem_Some _ _ _ Htext). simpl.
  match goal with |- context [Qltb ?o ?t] => destruct (Qltb o t) eqn:Hov end.
  - right. eexists. split; [|done]. by apply Qltb_lt.
  - by left.
Qed.

End Validation.

Lemma below_threshold_blocks_witness :
  validate_relevance decimal_fixed decimal_repr default_settings
    [ demo_chunk (1 # 2) login_text "Use the Forgot password link on the sign-in page.";
      demo_chunk (2 # 5) export_text "Open Settings > Data and choose Export." ]
    "How do I pilot a submarine?"
  = Ok (false, VFloat (1 # 2), "Similarity score 0.50 below threshold 0.65").
Proof.
  apply (below_threshold_blocks decimal_fixed decimal_repr default_settings
           (demo_chunk (1 # 2) login_text
              "Use the Forgot password link on the sign-in page.")
           [demo_chunk (2 # 5) export_text "Open Settings > Data and choose Export."]
           "How do I pilot a submarine?" (VFloat (1 # 2)) (1 # 2)).
  - vm_compute. reflexivity.
  - reflexivity.
  - reflexivity.
Defined.

Lemma demo_chunk_is_chunk s text answer : is_chunk (demo_chunk s text answer).
Proof.
  unfold is_chunk, demo_chunk. split; [|split].
  - eexists. by simplify_map_eq.
  - eexists. by simplify_map_eq.
  - eexists. split; [by simplify_map_eq|].
    unfold metadata_keys. forall_list; by simplify_map_eq.
Qed.

(** Scenario D on the code: the three chunks have fused scores 0.9, 0.5 and
    0.4, the top score clears the default similarity threshold, and the
    query is accepted; the variance of the three scores is not above the
    default variance threshold. *)
Lemma scenario_D_not_blocked :
  map score_of scenario_D = [Some (9 # 10); Some (5 # 10); Some (4 # 10)]
  /\ Qltb (9 # 10) (similarity_threshold default_settings) = false
  /\ Qgtb (np_var [9 # 10; 5 # 10; 4 # 10]) (variance_threshold default_settings)
     = false
  /\ validate_relevance decimal_fixed decimal_repr default_settings scenario_D
       "How do I update my payment method?"
     = Ok (true, VFloat (9 # 10), "All validation checks passed").
Proof. vm_compute. repeat split. Qed.

Lemma scenario_D_passes_consistency_witness :
  consistency_check default_settings scenario_D = Ok None
  /\ (validate_relevance decimal_fixed decimal_repr default_settings scenario_D
        "How do I pilot a submarine?"
      = Ok (true, VFloat (9 # 10), "All validation checks passed")
      \/ exists overlap,
           overlap < keyword_overlap_threshold default_settings
           /\ validate_relevance decimal_fixed decimal_repr default_settings
                scenario_D "How do I pilot a submarine?"
              = Ok (false, VFloat (9 # 10),
                    "Low keyword overlap " ++ decimal_fixed 2 overlap
                    ++ " - retrieved content may not be relevant")).
Proof.
  apply (scenario_D_passes_consistency decimal_fixed decimal_repr default_settings
           _ _ _ [] "How do I pilot a submarine?" (9 # 10) (5 # 10) (4 # 10)
           billing_text).
  - reflexivity.
  - vm_compute. discriminate.
  - vm_compute. reflexivity.
  - reflexivity.
  - vm_compute. reflexivity.
  - reflexivity.
  - vm_compute. reflexivity.
  - reflexivity.
  - vm_compute. reflexivity.
Defined.

(** ** Ranking: the sort of [_get_relevant_documents] *)

Lemma StronglySorted_lookup {A} (R : relation A) (l : list A) i j x y :
  StronglySorted R l -> (i < j)%nat ->
  l !! i = Some x -> l !! j = Some y -> R x y.
Proof.
  intros Hs. revert i j. induction Hs as [|a l Hs IH Hall]; intros i j Hij Hi Hj.
  - done.
  - destruct j as [|j]; [lia|]. simpl in Hj. destruct i as [|i]; simpl in Hi.
    + inversion Hi; subst. rewrite Forall_forall in Hall.
      apply Hall. by eapply list_elem_of_lookup_2.
    + apply (IH i j); [lia|done..].
Qed.

Lemma items_from_sorted {A} (l : list A) (k : nat) :
  StronglySorted (fun a b : nat * A => (fst a < fst b)%nat)
    (imap (fun i x => ((k + i)%nat, x)) l)
  /\ Forall (fun a : nat * A => (k <= fst a)%nat)
       (imap (fun i x => ((k + i)%nat, x)) l).
Proof.
  revert k. induction l as [|x l IH]; intros k; simpl.
  - split; constructor.
  - destruct (IH (S k)) as [Hs Hall].
    assert (Heq : imap ((fun i y => ((k + i)%nat, y)) ∘ S) l
                  = imap (fun i y => ((S k + i)%nat, y)) l).
    { apply imap_ext. intros i y _. simpl. f_equal. lia. }
    rewrite Heq. split.
    + constructor; [done|]. eapply Forall_impl; [exact Hall|].
      intros [a y]; simpl. lia.
    + constructor; [simpl; lia|]. eapply Forall_impl; [exact Hall|].
      intros [a y]; simpl. lia.
Qed.

Lemma items_index_before (combined : list Q) :
  StronglySorted index_before (items combined).
Proof. apply (items_from_sorted combined 0). Qed.

Lemma items_lookup {A} (l : list A) i a x :
  items l !! i = Some (a, x) -> a = i /\ l !! i = Some x.
Proof.
  unfold items. rewrite list_lookup_imap_Some.
  intros (y & Hy & Heq). by inversion Heq; subst.
Qed.

Lemma insert_desc_perm {A} (x : A * Q) (l : list (A * Q)) :
  insert_desc x l ≡ₚ x :: l.
Proof.
  induction l as [|y l IH]; simpl; [done|].
  destruct (Qltb (snd x) (snd y)); [|done].
  rewrite IH. apply Permutation_swap.
Qed.

Lemma sorted_desc_perm {A} (l : list (A * Q)) : sorted_desc l ≡ₚ l.
Proof.
  induction l as [|x l IH]; simpl; [done|].
  unfold sorted_desc in *. simpl. by rewrite insert_desc_perm, IH.
Qed.

Lemma ranks_before_trans : Transitive ranks_before.
Proof.
  intros [a x] [b y] [c z]; unfold ranks_before; simpl.
  intros [H1|[H1 H1']] [H2|[H2 H2']].
  - left. by eapply Qlt_trans.
  - left. by rewrite H2.
  - left. by rewrite <- H1.
  - right. split; [by rewrite H2|lia].
Qed.

Lemma insert_desc_sorted (x : nat * Q) (l : list (nat * Q)) :
  Forall (index_before x) l ->
  StronglySorted ranks_before l ->
  StronglySorted ranks_before (insert_desc x l).
Proof.
  intros Hx Hs. induction Hs as [|y l Hs IH Hall]; simpl.
  - repeat constructor.
  - inversion Hx as [|? ? Hxy Hxl]; subst.
    destruct (Qltb (snd x) (snd y)) eqn:Hlt.
    + apply Qltb_lt in Hlt. constructor; [by apply IH|].
      rewrite insert_desc_perm. constructor; [by left|done].
    + apply Qltb_ge in Hlt. constructor; [by constructor|].
      assert (Hy : ranks_before x y).
      { destruct (Qlt_le_dec (snd y) (snd x)) as [?|Hle]; [by left|].
        right. split; [by apply Qle_antisym|exact Hxy]. }
      constructor; [done|].
      eapply Forall_impl; [exact Hall|].
      intros z Hz. by eapply ranks_before_trans.
Qed.

Lemma sorted_desc_sorted (l : list (nat * Q)) :
  StronglySorted index_before l ->
  StronglySorted ranks_before (sorted_desc l).
Proof.
  induction 1 as [|x l Hs IH Hall]; [constructor|].
  change (sorted_desc (x :: l)) with (insert_desc x (sorted_desc l)).
  apply insert_desc_sorted; [|done].
  by rewrite sorted_desc_perm.
Qed.

(** Two lists in ranking order that hold the same entries are the same
    list: a stable sort by decreasing score has one possible result. *)
Lemma ranking_unique (l1 l2 : list (nat * Q)) :
  StronglySorted ranks_before l1 -> StronglySorted ranks_before l2 ->
  l1 ≡ₚ l2 -> l1 = l2.
Proof.
  apply StronglySorted_unique_strong.
  intros [a x] [b y] _ _; unfold ranks_before; simpl.
  intros [H1|[H1 H1']] [H2|[H2 H2']]; exfalso.
  - apply (Qlt_irrefl x). by eapply Qlt_trans.
  - rewrite H2 in H1. by apply (Qlt_irrefl y).
  - rewrite H1 in H2. by apply (Qlt_irrefl x).
  - lia.
Qed.

Lemma sorted_indices_perm (combined : list Q) :
  sorted_indices combined ≡ₚ items combined.
Proof. apply sorted_desc_perm. Qed.

Lemma sorted_indices_elem (combined : list Q) idx score :
  (idx, score) ∈ sorted_indices combined <-> combined !! idx = Some score.
Proof.
  rewrite sorted_indices_perm, list_elem_of_lookup. split.
  - intros [i Hi]. by apply items_lookup in Hi as [-> ?].
  - intros H. exists idx. unfold items. by rewrite list_lookup_imap, H.
Qed.

Lemma sorted_indices_order (combined : list Q) i j a b x y :
  (i < j)%nat ->
  sorted_indices combined !! i = Some (a, x) ->
  sorted_indices combined !! j = Some (b, y) ->
  y <= x /\ (y == x -> (a < b)%nat).
Proof.
  intros Hij Hi Hj.
  pose proof (sorted_desc_sorted _ (items_index_before combined)) as Hs.
  pose proof (StronglySorted_lookup _ _ _ _ _ _ Hs Hij Hi Hj) as Hr.
  unfold ranks_before in Hr; simpl in Hr. destruct Hr as [Hlt|[Heq Hab]].
  - split; [by apply Qlt_le_weak|]. intros Heq. rewrite Heq in Hlt.
    by apply Qlt_irrefl in Hlt.
  - split; [by rewrite Heq; apply Qle_refl|done].
Qed.

(** ** Normalisation of the BM25 scores *)

Lemma Qmax2_l (a b : Q) : a <= Qmax2 a b.
Proof.
  unfold Qmax2. destruct (Qle_bool a b) eqn:H.
  - by apply Qle_bool_iff.
  - apply Qle_refl.
Qed.

Lemma Qmax2_r (a b : Q) : b <= Qmax2 a b.
Proof.
  unfold Qmax2. destruct (Qle_bool a b) eqn:H.
  - apply Qle_refl.
  - apply Qlt_le_weak, Qnot_le_lt. intros Hle.
    apply Qle_bool_iff in Hle. congruence.
Qed.

Lemma foldl_Qmax2_upper (l : list Q) (a : Q) :
  a <= foldl Qmax2 a l /\ Forall (fun x => x <= foldl Qmax2 a l) l.
Proof.
  revert a. induction l as [|x l IH]; intros a; simpl.
  - split; [apply Qle_refl|constructor].
  - destruct (IH (Qmax2 a x)) as [Hm Hall]. split.
    + eapply Qle_trans; [apply Qmax2_l|exact Hm].
    + constructor; [|done]. eapply Qle_trans; [apply Qmax2_r|exact Hm].
Qed.

Lemma np_max_upper (l : list Q) (m : Q) :
  np_max l = Ok m -> Forall (fun x => x <= m) l.
Proof.
  destruct l as [|x l]; simpl; [done|]. intros H; inversion H; subst.
  destruct (foldl_Qmax2_upper l x) as [Hx Hall]. by constructor.
Qed.

(** The divisor is never zero: it is the maximum when that is positive,
    and 1 otherwise. *)
Lemma bm25_max_positive (bm25_scores : list Q) (mx : Q) :
  bm25_max bm25_scores = Ok mx -> 0 < mx.
Proof.
  unfold bm25_max. destruct (np_max bm25_scores) as [m|]; simpl; [|done].
  intros H; inversion H; subst. destruct (Qgtb m 0) eqn:Hm.
  - by apply Qltb_lt in Hm.
  - reflexivity.
Qed.

Lemma bm25_scores_normalized_eq (bm25_scores normalized : list Q) :
  bm25_scores_normalized bm25_scores = Ok normalized ->
  exists m mx,
    np_max bm25_scores = Ok m
    /\ mx = (if Qgtb m 0 then m else 1)
    /\ 0 < mx
    /\ normalized = map (fun s => s / mx) bm25_scores.
Proof.
  unfold bm25_scores_normalized.
  destruct (bm25_max bm25_scores) as [mx|] eqn:Hmx; simpl; [|done].
  pose proof (bm25_max_positive _ _ Hmx) as Hpos.
  apply Qltb_lt in Hpos as Hpos'. unfold Qgtb. rewrite Hpos'.
  intros H; inversion H; subst. unfold bm25_max in Hmx.
  destruct (np_max bm25_scores) as [m|]; simpl in Hmx; [|done].
  inversion Hmx; subst. by exists m, (if Qgtb m 0 then m else 1).
Qed.

(** When the index gives scores that are not negative, every normalised
    score is in [0,1]. *)
Lemma normalized_in_unit (bm25_scores normalized : list Q) :
  Forall (fun s => 0 <= s) bm25_scores ->
  bm25_scores_normalized bm25_scores = Ok normalized ->
  Forall (fun s => 0 <= s /\ s <= 1) normalized.
Proof.
  intros Hpos Hnorm.
  destruct (bm25_scores_normalized_eq _ _ Hnorm) as (m & mx & Hm & Hmx & Hlt & ->).
  pose proof (np_max_upper _ _ Hm) as Hup.
  rewrite Forall_fmap. rewrite Forall_forall in Hpos, Hup. apply Forall_forall.
  intros s Hs. simpl. specialize (Hpos s Hs). specialize (Hup s Hs). split.
  - apply Qle_shift_div_l; [done|]. by rewrite Qmult_0_l.
  - apply Qle_shift_div_r; [done|]. rewrite Qmult_1_l.
    destruct (Qgtb m 0) eqn:Hgt; subst mx; [done|].
    apply Qltb_ge in Hgt. apply Qle_trans with m; [done|].
    apply Qle_trans with 0; [done|]. by unfold Qle.
Qed.

(** When the maximum is 0 and no score is negative, every normalised
    score is 0. *)
Lemma normalized_all_zero (bm25_scores normalized : list Q) (m : Q) :
  Forall (fun s => 0 <= s) bm25_scores ->
  np_max bm25_scores = Ok m -> m == 0 ->
  bm25_scores_normalized bm25_scores = Ok normalized ->
  Forall (fun s => s == 0) normalized.
Proof.
  intros Hpos Hm Hzero Hnorm.
  destruct (bm25_scores_normalized_eq _ _ Hnorm) as (m' & mx & Hm' & Hmx & Hlt & ->).
  rewrite Hm in Hm'. inversion Hm'; subst m'.
  pose proof (np_max_upper _ _ Hm) as Hup.
  rewrite Forall_fmap. rewrite Forall_forall in Hpos, Hup. apply Forall_forall.
  intros s Hs. simpl. specialize (Hpos s Hs). specialize (Hup s Hs).
  assert (Hs0 : s == 0).
  { apply Qle_antisym; [|done]. by rewrite <- Hzero. }
  rewrite Hs0. unfold Qdiv. apply Qmult_0_l.
Qed.

(** ** The documents built by [rank] *)

Lemma rmap_lookup_inv {A B} (f : A -> result B) (l : list A) (l' : list B) i y :
  rmap f l = Ok l' -> l' !! i = Some y -> exists x, l !! i = Some x /\ f x = Ok y.
Proof.
  revert l' i. induction l as [|a l IH]; simpl; intros l' i H Hi.
  - inversion H; subst. done.
  - destruct (f a) as [b|] eqn:Ha; simpl in H; [|done].
    destruct (rmap f l) as [ys|] eqn:Hl; simpl in H; [|done].
    inversion H; subst. destruct i as [|i]; simpl in *.
    + inversion Hi; subst. eauto.
    + eapply IH; eauto.
Qed.

Lemma index_Ok {A} (a : list A) idx x : index a idx = Ok x <-> a !! idx = Some x.
Proof.
  unfold index. destruct (a !! idx); split; intros H; by inversion H.
Qed.

Lemma slice_to_take {A} (l : list A) (n : Z) :
  exists m, slice_to l n = take m l /\ ((0 <= n)%Z -> m = Z.to_nat n).
Proof.
  unfold slice_to. destruct (0 <=? n)%Z eqn:Hn.
  - by eexists.
  - eexists. split; [done|]. intros H. apply Z.leb_gt in Hn. lia.
Qed.

Lemma slice_to_lookup {A} (l : list A) (n : Z) i x :
  slice_to l n !! i = Some x -> l !! i = Some x.
Proof.
  destruct (slice_to_take l n) as (m & -> & _).
  rewrite lookup_take_Some. by intros [? _].
Qed.

Lemma slice_to_length {A} (l : list A) (n : Z) :
  (0 <= n)%Z -> (length (slice_to l n) <= Z.to_nat n)%nat.
Proof.
  intros Hn. destruct (slice_to_take l n) as (m & -> & Hm).
  rewrite length_take, (Hm Hn). lia.
Qed.

Lemma combined_scores_lookup self vsd normalized combined idx c :
  combined_scores self vsd normalized = Ok combined ->
  combined !! idx = Some c ->
  exists b,
    normalized !! idx = Some b
    /\ c = _vector_weight self * default 0 (vsd !! idx) + _bm25_weight self * b.
Proof.
  intros Hc Hidx. unfold combined_scores in Hc.
  destruct (rmap_lookup_inv _ _ _ _ _ Hc Hidx) as (i & Hi & Hf).
  apply lookup_seq in Hi as [-> _]. simpl in Hf.
  destruct (index normalized idx) as [b|] eqn:Hb; simpl in Hf; [|done].
  inversion Hf; subst. apply index_Ok in Hb. eauto.
Qed.

(** What [rank] returns: the document at position [i] is built from the
    entry at position [i] of the ranking, and carries the fused score of
    that entry with the two scores it was fused from. *)
Lemma rank_lookup self vsd bm25_scores docs i doc :
  rank self vsd bm25_scores = Ok docs ->
  docs !! i = Some doc ->
  exists normalized combined idx score text meta b,
    bm25_scores_normalized bm25_scores = Ok normalized
    /\ combined_scores self vsd normalized = Ok combined
    /\ sorted_indices combined !! i = Some (idx, score)
    /\ _document_texts self !! idx = Some text
    /\ _metadata self !! idx = Some meta
    /\ normalized !! idx = Some b
    /\ score = _vector_weight self * default 0 (vsd !! idx) + _bm25_weight self * b
    /\ doc = {| page_content := text;
                metadata :=
                  <["bm25_score" := VFloat b]>
                    (<["vector_score" := VFloat (default 0 (vsd !! idx))]>
                       (<["score" := VFloat score]> meta)) |}.
Proof.
  unfold rank. intros Hrank Hi.
  destruct (bm25_scores_normalized bm25_scores) as [normalized|] eqn:Hn;
    simpl in Hrank; [|done].
  destruct (combined_scores self vsd normalized) as [combined|] eqn:Hc;
    simpl in Hrank; [|done].
  destruct (rmap_lookup_inv _ _ _ _ _ Hrank Hi) as (idx & Hidx & Hdoc).
  unfold top_indices in Hidx. apply list_lookup_fmap_Some_1 in Hidx.
  destruct Hidx as ([idx' score] & -> & Hp). simpl in Hdoc.
  apply slice_to_lookup in Hp.
  assert (Hscore : combined !! idx' = Some score).
  { apply sorted_indices_elem. by eapply list_elem_of_lookup_2. }
  unfold build_document in Hdoc.
  destruct (index (_document_texts self) idx') as [text|] eqn:Ht;
    simpl in Hdoc; [|done].
  destruct (index (_metadata self) idx') as [meta|] eqn:Hmeta;
    simpl in Hdoc; [|done].
  apply index_Ok in Hscore as Hscore'. rewrite Hscore' in Hdoc. simpl in Hdoc.
  destruct (index normalized idx') as [b|] eqn:Hb; simpl in Hdoc; [|done].
  inversion Hdoc; subst doc.
  apply index_Ok in Ht, Hmeta, Hb.
  destruct (combined_scores_lookup _ _ _ _ _ _ Hc Hscore) as (b' & Hb' & Hval).
  rewrite Hb in Hb'. inversion Hb'; subst b'.
  exists normalized, combined, idx', score, text, meta, b. by repeat split.
Qed.

(** ** The size of what is returned *)

Lemma rmap_length {A B} (f : A -> result B) (l : list A) (l' : list B) :
  rmap f l = Ok l' -> length l' = length l.
Proof.
  revert l'. induction l as [|a l IH]; simpl; intros l' H.
  - by inversion H.
  - destruct (f a) as [b|]; simpl in H; [|done].
    destruct (rmap f l) as [ys|]; simpl in H; [|done].
    inversion H; subst. simpl. f_equal. by apply IH.
Qed.

Lemma items_length {A} (l : list A) : length (items l) = length l.
Proof. unfold items. apply length_imap. Qed.

Lemma sorted_indices_length (combined : list Q) :
  length (sorted_indices combined) = length combined.
Proof. by rewrite (Permutation_length (sorted_indices_perm combined)), items_length. Qed.

Lemma combined_scores_length self vsd normalized combined :
  combined_scores self vsd normalized = Ok combined ->
  length combined = length (_document_texts self).
Proof.
  intros H. unfold combined_scores in H. apply rmap_length in H.
  by rewrite H, length_seq.
Qed.

Lemma slice_to_length_le {A} (l : list A) (n : Z) :
  (length (slice_to l n) <= length l)%nat.
Proof.
  destruct (slice_to_take l n) as (m & -> & _). rewrite length_take. lia.
Qed.

Lemma slice_to_length_eq {A B} (l : list A) (l' : list B) (n : Z) :
  length l = length l' -> length (slice_to l n) = length (slice_to l' n).
Proof.
  intros H. unfold slice_to. rewrite H.
  destruct (0 <=? n)%Z; rewrite !length_take; lia.
Qed.

Lemma rank_length self vsd bm25_scores docs :
  rank self vsd bm25_scores = Ok docs ->
  length docs = length (slice_to (_document_texts self) (_k self)).
Proof.
  unfold rank. intros Hrank.
  destruct (bm25_scores_normalized bm25_scores) as [normalized|] eqn:Hn;
    simpl in Hrank; [|done].
  destruct (combined_scores self vsd normalized) as [combined|] eqn:Hc;
    simpl in Hrank; [|done].
  apply rmap_length in Hrank. rewrite Hrank. unfold top_indices.
  rewrite length_map. apply slice_to_length_eq.
  rewrite sorted_indices_length. by eapply combined_scores_length.
Qed.

(** What the retriever did when it returned documents. *)
Lemma get_relevant_documents_inv self query w docs w' :
  _get_relevant_documents self query w = (Ok docs, w') ->
  (split (lower query) = [] /\ docs = [])
  \/ exists vector_docs bm25_scores,
       split (lower query) <> []
       /\ _vectorstore self query (_k self * 2)%Z = Ok vector_docs
       /\ _bm25_index self (split (lower query)) = Ok bm25_scores
       /\ rank self (vector_scores_dict self vector_docs) bm25_scores = Ok docs.
Proof.
  unfold _get_relevant_documents, bind, call, ret, lift.
  destruct (_vectorstore self query (_k self * 2)%Z) as [vd|]; [|done].
  destruct (split (lower query)) as [|tok toks] eqn:Htok.
  { intros H; inversion H; subst. by left. }
  destruct (_bm25_index self (tok :: toks)) as [bs|] eqn:Hb; [|done].
  destruct (rank self (vector_scores_dict self vd) bs) as [ds|] eqn:Hrank; [|done].
  intros H; inversion H; subst. right. by exists vd, bs.
Qed.

Lemma built_metadata_lookup (meta : gmap string pyval) (score vscore b : Q) :
  let md := <["bm25_score" := VFloat b]>
              (<["vector_score" := VFloat vscore]> (<["score" := VFloat score]> meta)) in
  md !! "score" = Some (VFloat score)
  /\ md !! "vector_score" = Some (VFloat vscore)
  /\ md !! "bm25_score" = Some (VFloat b)
  /\ (forall key, key <> "score" -> key <> "vector_score" -> key <> "bm25_score" ->
        md !! key = meta !! key).
Proof.
  intros md. subst md. repeat split.
  - by repeat first [rewrite lookup_insert_eq | rewrite lookup_insert_ne by done].
  - by repeat first [rewrite lookup_insert_eq | rewrite lookup_insert_ne by done].
  - by rewrite lookup_insert_eq.
  - intros key H1 H2 H3. by rewrite !lookup_insert_ne.
Qed.

(** C6. For a query that has at least one word, the documents the
    retriever returns are the head of one ranking of the whole corpus.
    Every position of the corpus has a combined score, the weighted sum
    of its vector similarity and its normalised BM25 score. The ranking
    holds every position exactly once with its combined score; scores do
    not increase along it, and positions whose combined scores are the
    same number appear in corpus order; it is the only list with these
    properties, so any stable sort by decreasing score computes it. The
    documents returned are as many as the slice [[:k]] of the ranking,
    and the document at a place has the text, the metadata and the
    combined score of the corpus position the ranking has at that
    place. *)
Theorem ranking_sorted_stable self query w docs w' :
  _get_relevant_documents self query w = (Ok docs, w') ->
  split (lower query) <> [] ->
  exists vector_docs bm25_scores normalized combined,
    _vectorstore self query (_k self * 2)%Z = Ok vector_docs
    /\ _bm25_index self (split (lower query)) = Ok bm25_scores
    /\ bm25_scores_normalized bm25_scores = Ok normalized
    /\ combined_scores self (vector_scores_dict self vector_docs) normalized
       = Ok combined
    /\ length combined = length (_document_texts self)
    /\ (forall idx score,
          combined !! idx = Some score ->
          exists b,
            normalized !! idx = Some b
            /\ score = _vector_weight self
                       * default 0 (vector_scores_dict self vector_docs !! idx)
                       + _bm25_weight self * b)
    /\ sorted_indices combined ≡ₚ items combined
    /\ (forall idx score,
          (idx, score) ∈ sorted_indices combined <-> combined !! idx = Some score)
    /\ (forall i j a b x y,
          (i < j)%nat ->
          sorted_indices combined !! i = Some (a, x) ->
          sorted_indices combined !! j = Some (b, y) ->
          y <= x /\ (y == x -> (a < b)%nat))
    /\ (forall ranking : list (nat * Q),
          ranking ≡ₚ items combined ->
          StronglySorted ranks_before ranking ->
          ranking = sorted_indices combined)
    /\ length docs = length (slice_to (sorted_indices combined) (_k self))
    /\ (forall i doc,
          docs !! i = Some doc ->
          exists idx score text meta,
            sorted_indices combined !! i = Some (idx, score)
            /\ _document_texts self !! idx = Some text
            /\ _metadata self !! idx = Some meta
            /\ page_content doc = text
            /\ metadata doc !! "score" = Some (VFloat score)
            /\ (forall key, key <> "score" -> key <> "vector_score" ->
                  key <> "bm25_score" -> metadata doc !! key = meta !! key)).
Proof.
  intros Hrun Htok.
  destruct (get_relevant_documents_inv _ _ _ _ _ Hrun)
    as [[Hnil _]|(vd & bs & _ & Hv & Hb & Hrank)]; [done|].
  assert (Hnc : exists normalized combined,
             bm25_scores_normalized bs = Ok normalized
             /\ combined_scores self (vector_scores_dict self vd) normalized
                = Ok combined).
  { unfold rank in Hrank.
    destruct (bm25_scores_normalized bs) as [normalized|] eqn:Hn;
      simpl in Hrank; [|done].
    destruct (combined_scores self (vector_scores_dict self vd) normalized)
      as [combined|] eqn:Hc; simpl in Hrank; [|done].
    by exists normalized, combined. }
  destruct Hnc as (normalized & combined & Hn & Hc).
  exists vd, bs, normalized, combined.
  split; [done|]. split; [done|]. split; [done|]. split; [done|].
  split; [by eapply combined_scores_length|].
  split; [intros idx score Hs; by eapply combined_scores_lookup|].
  split; [apply sorted_indices_perm|].
  split; [apply sorted_indices_elem|].
  split; [apply sorted_indices_order|].
  split.
  { intros ranking Hperm Hs. apply ranking_unique; [done| |].
    - apply sorted_desc_sorted, items_index_before.
    - by rewrite sorted_indices_perm. }
  split.
  { rewrite (rank_length _ _ _ _ Hrank). apply slice_to_length_eq.
    rewrite sorted_indices_length. symmetry. by eapply combined_scores_length. }
  intros i doc Hdoc.
  destruct (rank_lookup _ _ _ _ _ _ Hrank Hdoc)
    as (normalized' & combined' & idx & score & text & meta & b
        & Hn' & Hc' & Hsorted & Ht & Hm & Hnb & Hscore & ->).
  rewrite Hn in Hn'. inversion Hn'; subst normalized'.
  rewrite Hc in Hc'. inversion Hc'; subst combined'.
  exists idx, score, text, meta.
  destruct (built_metadata_lookup meta score
              (default 0 (vector_scores_dict self vd !! idx)) b) as (H1 & _ & _ & H4).
  by repeat split.
Qed.

Lemma ranking_sorted_stable_witness :
  exists docs w',
    _get_relevant_documents tied_retriever "update payment method" world0
    = (Ok docs, w')
    /\ map page_content docs = [login_text; billing_text; export_text]
    /\ length docs = 3%nat.
Proof.
  destruct (_get_relevant_documents tied_retriever "update payment method" world0)
    as [res w'] eqn:Hrun.
  assert (Hok : exists docs, res = Ok docs
                             /\ map page_content docs
                                = [login_text; billing_text; export_text]).
  { assert (H : match res with
                | Ok docs => Some (map page_content docs)
                | Raise _ => None
                end = Some [login_text; billing_text; export_text]).
    { change res with (fst (res, w')). rewrite <- Hrun. vm_compute. reflexivity. }
    destruct res as [docs|]; [|discriminate]. inversion H. eauto. }
  destruct Hok as (docs & -> & Horder).
  destruct (ranking_sorted_stable tied_retriever "update payment method" world0
              docs w' Hrun)
    as (vd & bs & nz & cb & _ & _ & _ & _ & Hlen & _ & _ & _ & _ & _ & Hdocs & _).
  { vm_compute. discriminate. }
  exists docs, w'. split; [reflexivity|]. split; [exact Horder|].
  rewrite Hdocs. unfold slice_to. simpl.
  rewrite length_take, sorted_indices_length, Hlen. reflexivity.
Defined.

(** ** retrieve *)

Lemma similarity_in_unit (d : Q) :
  0 <= d -> 0 <= similarity d /\ similarity d <= 1.
Proof.
  intros Hd. unfold similarity. assert (0 < 1 + d) by lra. split.
  - apply Qle_shift_div_l; [done|]. lra.
  - apply Qle_shift_div_r; [done|]. lra.
Qed.

Lemma vector_scores_dict_in_unit self vector_docs idx v :
  Forall (fun ds : Document * Q => 0 <= snd ds) vector_docs ->
  vector_scores_dict self vector_docs !! idx = Some v ->
  0 <= v /\ v <= 1.
Proof.
  unfold vector_scores_dict. intros Hall.
  assert (Hgen : forall acc : gmap nat Q,
             map_Forall (fun _ x => 0 <= x /\ x <= 1) acc ->
             map_Forall (fun _ x => 0 <= x /\ x <= 1)
               (foldl (fun acc ds =>
                         match _get_doc_index self (fst ds) with
                         | Some doc_idx => <[doc_idx := similarity (snd ds)]> acc
                         | None => acc
                         end) acc vector_docs)).
  { induction Hall as [|ds l Hds _ IH]; intros acc Hacc; simpl; [done|].
    apply IH. destruct (_get_doc_index self (fst ds)); [|done].
    apply map_Forall_insert_2; [|done]. by apply similarity_in_unit. }
  intros Hv. by apply (Hgen ∅ (map_Forall_empty _) idx v).
Qed.

Lemma fused_score_bounds (vw bw vs b : Q) :
  0 <= vw -> 0 <= bw -> 0 <= vs /\ vs <= 1 -> 0 <= b /\ b <= 1 ->
  0 <= vw * vs + bw * b /\ vw * vs + bw * b <= vw + bw.
Proof. intros Hvw Hbw [Hvs0 Hvs1] [Hb0 Hb1]. split; nra. Qed.

Lemma slice_to_nil {A} (n : Z) : slice_to (@nil A) n = [].
Proof. unfold slice_to. by destruct (0 <=? n)%Z; rewrite take_nil. Qed.

Lemma not_blank_not_empty (query : string) :
  is_blank query = false -> String.eqb query "" = false.
Proof.
  intros H. destruct (String.eqb query "") eqn:He; [|done].
  apply String.eqb_eq in He. subst. done.
Qed.

(** With a retriever in place and a query that is not blank, [retrieve]
    returns: the chunks are the formatted first documents of the
    retriever, or nothing when an index call or the ranking raised. *)
Lemma retrieve_inv cfg self r query top_k w :
  retriever self = Some r ->
  is_blank query = false ->
  exists docs w',
    retrieve cfg self query top_k w
    = (Ok (map format_result
             (slice_to docs (default (max_context_chunks cfg) top_k))), w')
    /\ (docs = []
        \/ exists vector_docs bm25_scores,
             _vectorstore r query (_k r * 2)%Z = Ok vector_docs
             /\ _bm25_index r (split (lower query)) = Ok bm25_scores
             /\ rank r (vector_scores_dict r vector_docs) bm25_scores = Ok docs).
Proof.
  intros Hr Hblank. unfold retrieve.
  rewrite Hblank, (not_blank_not_empty _ Hblank), Hr. simpl.
  unfold try_except, bind, get_relevant_documents, _get_relevant_documents,
    bind, call, ret, lift.
  destruct (_vectorstore r query (_k r * 2)%Z) as [vector_docs|e] eqn:Hv.
  - destruct (split (lower query)) as [|tok toks] eqn:Htok.
    + exists []; eexists. rewrite slice_to_nil. split; [reflexivity|by left].
    + destruct (_bm25_index r (tok :: toks)) as [bm25_scores|e] eqn:Hb.
      * destruct (rank r (vector_scores_dict r vector_docs) bm25_scores)
          as [docs|e] eqn:Hrank.
        -- exists docs; eexists. split; [reflexivity|]. right. eauto.
        -- exists []; eexists. rewrite slice_to_nil. split; [reflexivity|by left].
      * exists []; eexists. rewrite slice_to_nil. split; [reflexivity|by left].
  - exists []; eexists. rewrite slice_to_nil. split; [reflexivity|by left].
Qed.

Lemma format_result_score text meta score vscore b :
  score_of (format_result
              {| page_content := text;
                 metadata :=
                   <["bm25_score" := VFloat b]>
                     (<["vector_score" := VFloat vscore]>
                        (<["score" := VFloat score]> meta)) |})
  = Some score.
Proof.
  unfold score_of, format_result, get_default. simpl.
  rewrite lookup_insert_ne by done. rewrite lookup_insert_eq.
  rewrite lookup_insert_ne by done. rewrite lookup_insert_ne by done.
  by rewrite lookup_insert_eq.
Qed.

(** The chunk at position [i] of what [retrieve] returns comes from the
    entry at position [i] of the ranking. *)
Lemma retrieve_lookup cfg self r query top_k w chunks w' i c :
  retriever self = Some r ->
  is_blank query = false ->
  retrieve cfg self query top_k w = (Ok chunks, w') ->
  chunks !! i = Some c ->
  exists vector_docs bm25_scores normalized combined idx score text meta b,
    _vectorstore r query (_k r * 2)%Z = Ok vector_docs
    /\ _bm25_index r (split (lower query)) = Ok bm25_scores
    /\ bm25_scores_normalized bm25_scores = Ok normalized
    /\ combined_scores r (vector_scores_dict r vector_docs) normalized = Ok combined
    /\ sorted_indices combined !! i = Some (idx, score)
    /\ _document_texts r !! idx = Some text
    /\ _metadata r !! idx = Some meta
    /\ normalized !! idx = Some b
    /\ score = _vector_weight r * default 0 (vector_scores_dict r vector_docs !! idx)
               + _bm25_weight r * b
    /\ c = format_result
             {| page_content := text;
                metadata :=
                  <["bm25_score" := VFloat b]>
                    (<["vector_score" :=
                         VFloat (default 0 (vector_scores_dict r vector_docs !! idx))]>
                       (<["score" := VFloat score]> meta)) |}.
Proof.
  intros Hr Hblank Hret Hc.
  destruct (retrieve_inv cfg self r query top_k w Hr Hblank)
    as (docs & w'' & Hret' & Hdocs).
  rewrite Hret in Hret'. inversion Hret'; subst chunks w''.
  apply list_lookup_fmap_Some_1 in Hc as (doc & -> & Hdoc).
  apply slice_to_lookup in Hdoc.
  destruct Hdocs as [->|(vector_docs & bm25_scores & Hv & Hb & Hrank)]; [done|].
  destruct (rank_lookup _ _ _ _ _ _ Hrank Hdoc)
    as (normalized & combined & idx & score & text & meta & b
        & Hn & Hcomb & Hsorted & Ht & Hm & Hnb & Hscore & ->).
  exists vector_docs, bm25_scores, normalized, combined, idx, score, text, meta, b.
  by repeat split.
Qed.

(** On a pipeline that has its retriever, for a query that is not blank
    and any requested top-K, [retrieve] returns a list of chunks; it has
    at most top-K chunks when top-K is not negative; each chunk has a
    fused score and the scores do not increase along the list. *)
Lemma retrieve_sorted_capped cfg self r query top_k w :
  retriever self = Some r ->
  is_blank query = false ->
  exists chunks w',
    retrieve cfg self query top_k w = (Ok chunks, w')
    /\ ((0 <= default (max_context_chunks cfg) top_k)%Z ->
        (length chunks <= Z.to_nat (default (max_context_chunks cfg) top_k))%nat)
    /\ (forall i j ci cj,
          (i < j)%nat -> chunks !! i = Some ci -> chunks !! j = Some cj ->
          exists si sj, score_of ci = Some si /\ score_of cj = Some sj /\ sj <= si).
Proof.
  intros Hr Hblank.
  destruct (retrieve_inv cfg self r query top_k w Hr Hblank)
    as (docs & w' & Hret & _).
  eexists _, w'. split; [exact Hret|]. split.
  - intros Hk. rewrite length_map. by apply slice_to_length.
  - intros i j ci cj Hij Hi Hj.
    destruct (retrieve_lookup _ _ _ _ _ _ _ _ _ _ Hr Hblank Hret Hi)
      as (vd & bs & nz & cb & idx & si & text & meta & b
          & Hv & Hb & Hn & Hc & Hs & _ & _ & _ & _ & ->).
    destruct (retrieve_lookup _ _ _ _ _ _ _ _ _ _ Hr Hblank Hret Hj)
      as (vd' & bs' & nz' & cb' & idx' & sj & text' & meta' & b'
          & Hv' & Hb' & Hn' & Hc' & Hs' & _ & _ & _ & _ & ->).
    rewrite Hv in Hv'. inversion Hv'; subst vd'.
    rewrite Hb in Hb'. inversion Hb'; subst bs'.
    rewrite Hn in Hn'. inversion Hn'; subst nz'.
    rewrite Hc in Hc'. inversion Hc'; subst cb'.
    exists si, sj. rewrite !format_result_score. repeat split.
    by destruct (sorted_indices_order cb _ _ _ _ _ _ Hij Hs Hs').
Qed.

(** Where the fused scores are in [0,1]: when the weights are not
    negative and sum to at most 1, and neither the distances given by the
    vector store nor the raw scores given by the BM25 index are
    negative. *)
Lemma retrieve_scores_in_unit cfg self r query top_k w chunks w' c :
  retriever self = Some r ->
  is_blank query = false ->
  0 <= _vector_weight r -> 0 <= _bm25_weight r ->
  _vector_weight r + _bm25_weight r <= 1 ->
  (forall vector_docs,
      _vectorstore r query (_k r * 2)%Z = Ok vector_docs ->
      Forall (fun ds : Document * Q => 0 <= snd ds) vector_docs) ->
  (forall bm25_scores,
      _bm25_index r (split (lower query)) = Ok bm25_scores ->
      Forall (fun s => 0 <= s) bm25_scores) ->
  retrieve cfg self query top_k w = (Ok chunks, w') ->
  c ∈ chunks ->
  exists s, score_of c = Some s /\ 0 <= s /\ s <= 1.
Proof.
  intros Hr Hblank Hvw Hbw Hsum Hdist Hbm25 Hret Hin.
  apply list_elem_of_lookup_1 in Hin as [i Hi].
  destruct (retrieve_lookup _ _ _ _ _ _ _ _ _ _ Hr Hblank Hret Hi)
    as (vd & bs & nz & cb & idx & s & text & meta & b
        & Hv & Hb & Hn & Hc & Hs & _ & _ & Hnb & -> & ->).
  eexists. rewrite format_result_score. split; [done|].
  assert (Hbound : 0 <= _vector_weight r * default 0 (vector_scores_dict r vd !! idx)
                        + _bm25_weight r * b
                   /\ _vector_weight r * default 0 (vector_scores_dict r vd !! idx)
                      + _bm25_weight r * b
                      <= _vector_weight r + _bm25_weight r).
  { apply fused_score_bounds; [done..| |].
    - destruct (vector_scores_dict r vd !! idx) as [v|] eqn:Hvs; simpl.
      + eapply vector_scores_dict_in_unit; [|exact Hvs]. by apply Hdist.
      + split; [apply Qle_refl|by unfold Qle].
    - pose proof (normalized_in_unit _ _ (Hbm25 _ Hb) Hn) as Hunit.
      rewrite Forall_forall in Hunit. apply Hunit.
      by eapply list_elem_of_lookup_2. }
  destruct Hbound as [H0 H1]. split; [done|]. by eapply Qle_trans.
Qed.

(** C3, evaluated. The fused score of a chunk is not kept in [0,1]. With
    both weights at 1.0, which each pass the validator of the settings,
    the first chunk returned for a query about payment has a fused score
    above 1; with the default weights, on the corpus of one document
    asked its own question, the raw BM25 score is negative and the chunk
    returned has a fused score below 0. *)
Theorem fused_score_outside_unit :
  valid_settings heavy_settings = true
  /\ is_blank "update payment method" = false
  /\ (exists s rest,
        returned_scores
          (retrieve heavy_settings (demo_pipeline heavy_retriever)
             "update payment method" (Some 5%Z) world0)
        = Some (Some s :: rest)
        /\ 1 < s)
  /\ valid_settings default_settings = true
  /\ is_blank "How do I update my payment method?" = false
  /\ (exists s,
        returned_scores
          (retrieve default_settings (demo_pipeline own_question_retriever)
             "How do I update my payment method?" (Some 5%Z) world0)
        = Some [Some s]
        /\ s < 0).
Proof.
  split; [reflexivity|]. split; [vm_compute; reflexivity|].
  split; [do 2 eexists; split; [vm_compute; reflexivity|reflexivity]|].
  split; [reflexivity|]. split; [vm_compute; reflexivity|].
  eexists. split; [vm_compute; reflexivity|reflexivity].
Qed.

Lemma format_result_built text (meta : gmap string pyval) score vscore b :
  format_result
    {| page_content := text;
       metadata :=
         <["bm25_score" := VFloat b]>
           (<["vector_score" := VFloat vscore]>
              (<["score" := VFloat score]> meta)) |}
  = {[ "content" := VStr text;
       "score" := VFloat score;
       "metadata" := VDict
          {[ "id" := get meta "id";
             "category" := get meta "category";
             "question" := get meta "question";
             "answer" := get meta "answer";
             "tags" := get_default meta "tags" (VList []) ]} ]}.
Proof.
  unfold format_result, get, get_default. simpl.
  by repeat first [rewrite lookup_insert_eq | rewrite lookup_insert_ne by done].
Qed.

(** A chunk that [retrieve] returns is the formatted version of a
    document the retriever built for an entry of the corpus. *)
Lemma retrieve_elem cfg self query top_k w chunks w' c :
  retrieve cfg self query top_k w = (Ok chunks, w') ->
  c ∈ chunks ->
  exists r idx text meta score vscore lscore,
    retriever self = Some r
    /\ _document_texts r !! idx = Some text
    /\ _metadata r !! idx = Some meta
    /\ score = _vector_weight r * vscore + _bm25_weight r * lscore
    /\ c = format_result
             {| page_content := text;
                metadata :=
                  <["bm25_score" := VFloat lscore]>
                    (<["vector_score" := VFloat vscore]>
                       (<["score" := VFloat score]> meta)) |}.
Proof.
  intros Hret Hin. pose proof Hret as Hret0. unfold retrieve in Hret.
  destruct (String.eqb query "" || is_blank query) eqn:Hb.
  { inversion Hret; subst. by apply elem_of_nil in Hin. }
  apply orb_false_elim in Hb as [_ Hblank].
  destruct (retriever self) as [r|] eqn:Hr; [|done]. clear Hret.
  apply list_elem_of_lookup_1 in Hin as [i Hi].
  destruct (retrieve_lookup _ _ _ _ _ _ _ _ _ _ Hr Hblank Hret0 Hi)
    as (vd & bs & nz & cb & idx & score & text & meta & b
        & _ & _ & _ & _ & _ & Ht & Hm & _ & Hscore & ->).
  exists r, idx, text, meta, score, (default 0 (vector_scores_dict r vd !! idx)), b.
  by repeat split.
Qed.

(** The chunks of [retrieve] have the shape [is_chunk] describes. *)
Lemma retrieve_is_chunk cfg self query top_k w chunks w' :
  retrieve cfg self query top_k w = (Ok chunks, w') ->
  Forall is_chunk chunks.
Proof.
  intros Hret. apply Forall_forall. intros c Hin.
  destruct (retrieve_elem _ _ _ _ _ _ _ _ Hret Hin)
    as (r & idx & text & meta & score & vscore & lscore & _ & _ & _ & _ & ->).
  rewrite format_result_built. unfold is_chunk. split; [|split].
  - eexists. by simplify_map_eq.
  - eexists. by simplify_map_eq.
  - eexists. split; [by simplify_map_eq|].
    unfold metadata_keys. forall_list; by simplify_map_eq.
Qed.

(** [retrieve] formats what the retriever returned, and returns nothing
    when the retriever raised. *)
Lemma retrieve_run cfg self r query top_k w :
  retriever self = Some r ->
  is_blank query = false ->
  retrieve cfg self query top_k w
  = (match fst (_get_relevant_documents r query w) with
     | Ok docs =>
         Ok (map format_result
               (slice_to docs (default (max_context_chunks cfg) top_k)))
     | Raise _ => Ok []
     end,
     snd (_get_relevant_documents r query w)).
Proof.
  intros Hr Hblank. unfold retrieve.
  rewrite Hblank, (not_blank_not_empty _ Hblank), Hr. simpl.
  unfold try_except, bind, get_relevant_documents, ret.
  by destruct (_get_relevant_documents r query w) as [[docs|e] w1].
Qed.

(** The chunk at a position of what [retrieve] returns is the formatted
    document at that position of what the retriever returned. *)
Lemma retrieve_position cfg self query top_k w chunks w' i c :
  retrieve cfg self query top_k w = (Ok chunks, w') ->
  chunks !! i = Some c ->
  exists r docs doc,
    retriever self = Some r
    /\ is_blank query = false
    /\ _get_relevant_documents r query w = (Ok docs, w')
    /\ docs !! i = Some doc
    /\ c = format_result doc.
Proof.
  intros Hret Hc. destruct (is_blank query) eqn:Hblank.
  { unfold retrieve in Hret. rewrite Hblank, orb_true_r in Hret.
    inversion Hret; subst. done. }
  destruct (retriever self) as [r|] eqn:Hr.
  2: { unfold retrieve in Hret.
       rewrite Hblank, (not_blank_not_empty _ Hblank), Hr in Hret. done. }
  rewrite (retrieve_run cfg self r query top_k w Hr Hblank) in Hret.
  destruct (_get_relevant_documents r query w) as [[docs|e] w1] eqn:Hrun;
    simpl in Hret; inversion Hret; subst; [|done].
  apply list_lookup_fmap_Some_1 in Hc as (doc & -> & Hdoc).
  apply slice_to_lookup in Hdoc. by exists r, docs, doc.
Qed.

(** C4, as the code has it. The chunk at a position of what [retrieve]
    returns is made from the Document the retriever returned at that
    position, which stands for one entry of the corpus. The metadata of
    that Document carries the fused score and the two scores it was fused
    from: the vector similarity of the entry (0 when the vector store did
    not return it) and its normalised BM25 score; the fused score is the
    weighted sum of the two and is the score of the ranking at that
    position. The chunk keeps the content, that fused score and a
    metadata dict with the id, category, question, answer and tags of the
    entry, and nothing else: it has no key for either component score. *)
Theorem retrieve_chunk_fields cfg self query top_k w chunks w' i c :
  retrieve cfg self query top_k w = (Ok chunks, w') ->
  chunks !! i = Some c ->
  exists r docs doc vector_docs bm25_scores normalized combined idx text meta b,
    retriever self = Some r
    /\ _get_relevant_documents r query w = (Ok docs, w')
    /\ docs !! i = Some doc
    /\ _vectorstore r query (_k r * 2)%Z = Ok vector_docs
    /\ _bm25_index r (split (lower query)) = Ok bm25_scores
    /\ bm25_scores_normalized bm25_scores = Ok normalized
    /\ combined_scores r (vector_scores_dict r vector_docs) normalized = Ok combined
    /\ _document_texts r !! idx = Some text
    /\ _metadata r !! idx = Some meta
    /\ normalized !! idx = Some b
    /\ let vscore := default 0 (vector_scores_dict r vector_docs !! idx) in
       let score := _vector_weight r * vscore + _bm25_weight r * b in
       sorted_indices combined !! i = Some (idx, score)
       /\ page_content doc = text
       /\ metadata doc
          = <["bm25_score" := VFloat b]>
              (<["vector_score" := VFloat vscore]> (<["score" := VFloat score]> meta))
       /\ metadata doc !! "score" = Some (VFloat score)
       /\ metadata doc !! "vector_score" = Some (VFloat vscore)
       /\ metadata doc !! "bm25_score" = Some (VFloat b)
       /\ c = format_result doc
       /\ c = {[ "content" := VStr text;
                 "score" := VFloat score;
                 "metadata" := VDict
                    {[ "id" := get meta "id";
                       "category" := get meta "category";
                       "question" := get meta "question";
                       "answer" := get meta "answer";
                       "tags" := get_default meta "tags" (VList []) ]} ]}
       /\ c !! "vector_score" = None
       /\ c !! "bm25_score" = None.
Proof.
  intros Hret Hc.
  destruct (retrieve_position _ _ _ _ _ _ _ _ _ Hret Hc)
    as (r & docs & doc & Hr & Hblank & Hrun & Hdoc & ->).
  destruct (get_relevant_documents_inv _ _ _ _ _ Hrun)
    as [[_ ->]|(vd & bs & _ & Hv & Hb & Hrank)]; [done|].
  destruct (rank_lookup _ _ _ _ _ _ Hrank Hdoc)
    as (normalized & combined & idx & score & text & meta & b
        & Hn & Hcomb & Hsorted & Ht & Hm & Hnb & -> & ->).
  exists r, docs,
    {| page_content := text;
       metadata :=
         <["bm25_score" := VFloat b]>
           (<["vector_score" := VFloat (default 0 (vector_scores_dict r vd !! idx))]>
              (<["score" :=
                   VFloat (_vector_weight r * default 0 (vector_scores_dict r vd !! idx)
                           + _bm25_weight r * b)]> meta)) |},
    vd, bs, normalized, combined, idx, text, meta, b.
  destruct (built_metadata_lookup meta
              (_vector_weight r * default 0 (vector_scores_dict r vd !! idx)
               + _bm25_weight r * b)
              (default 0 (vector_scores_dict r vd !! idx)) b) as (H1 & H2 & H3 & _).
  cbv zeta. rewrite format_result_built.
  repeat match goal with |- _ /\ _ => split end; done.
Qed.

Lemma retrieve_chunk_fields_witness :
  exists chunks w' c,
    retrieve default_settings (demo_pipeline default_retriever)
      "update payment method" None world0 = (Ok chunks, w')
    /\ chunks !! 0%nat = Some c
    /\ c !! "content" = Some (VStr billing_text)
    /\ c !! "vector_score" = None
    /\ c !! "bm25_score" = None.
Proof.
  destruct (retrieve default_settings (demo_pipeline default_retriever)
              "update payment method" None world0) as [res w'] eqn:Hret.
  assert (Hfirst : exists c rest, res = Ok (c :: rest)
                                  /\ c !! "content" = Some (VStr billing_text)).
  { assert (H : match res with
                | Ok (c :: _) => c !! "content"
                | _ => None
                end = Some (VStr billing_text)).
    { change res with (fst (res, w')). rewrite <- Hret. vm_compute. reflexivity. }
    destruct res as [[|c rest]|]; try discriminate. eauto. }
  destruct Hfirst as (c & rest & -> & Hcontent).
  destruct (retrieve_chunk_fields _ _ _ _ _ _ _ 0%nat c Hret eq_refl)
    as (r & docs & doc & vd & bs & nz & cb & idx & text & meta & b & _ & _ & _ & _ & _
        & _ & _ & _ & _ & _ & _ & _ & _ & _ & _ & _ & _ & _ & Hv & Hb).
  exists (c :: rest), w', c. by repeat split.
Defined.

(** The chunks returned for a query about payment have no key for the
    vector similarity and none for the BM25 score, neither at the top nor
    in their metadata. *)
Lemma chunks_without_component_scores :
  match fst (retrieve default_settings (demo_pipeline default_retriever)
               "update payment method" None world0) with
  | Ok chunks =>
      Some (map (fun c =>
                   (c !! "vector_score", c !! "bm25_score", c !! "lexical_score",
                    match c !! "metadata" with
                    | Some (VDict md) =>
                        Some (md !! "vector_score", md !! "bm25_score")
                    | _ => None
                    end)) chunks)
  | Raise _ => None
  end
  = Some [ (None, None, None, Some (None, None));
           (None, None, None, Some (None, None));
           (None, None, None, Some (None, None)) ].
Proof. vm_compute. reflexivity. Qed.

(** ** The lexical score on a corpus of one document *)

(** C7, evaluated. On the corpus of one document the raw BM25 score of the
    query is negative, so the maximum is not positive, the divisor is 1,
    and the lexical score carried by the document that is returned is the
    raw negative score: it is not in [0,1]. A positive maximum does not
    help a negative score either: [2, -1] is normalised to [1, -1/2]. *)
Theorem lexical_score_below_zero :
  bm25_max [- (2747 # 10000)] = Ok 1
  /\ (match fst (_get_relevant_documents single_retriever "billing" world0) with
      | Ok [doc] =>
          match metadata doc !! "bm25_score" with
          | Some (VFloat b) => Some (Qltb b 0)
          | _ => None
          end
      | _ => None
      end = Some true)
  /\ (match bm25_scores_normalized [2; -1] with
      | Ok [a; b] => Qeq_bool a 1 && Qeq_bool b (- (1 # 2))
      | _ => false
      end = true).
Proof. vm_compute. repeat split. Qed.

(** ** query *)

Lemma lstrip_all_space (s : string) : all_space s = true -> lstrip s = "".
Proof.
  induction s as [|c s IH]; simpl; [done|].
  intros [Hc Hs]%andb_true_iff. rewrite Hc. by apply IH.
Qed.

Lemma rstrip_empty (s : string) : rstrip s = "" -> all_space s = true.
Proof.
  induction s as [|c s IH]; simpl; [done|].
  destruct (rstrip s) eqn:Hr; [|done].
  destruct (is_space c); [|done]. intros _. by apply IH.
Qed.

Lemma lstrip_all_space_inv (s : string) :
  all_space (lstrip s) = true -> all_space s = true.
Proof.
  induction s as [|c s IH]; simpl; [done|].
  destruct (is_space c) eqn:Hc; simpl; [done|]. by rewrite Hc.
Qed.

(** The test [not query.strip()] holds exactly for the strings made of
    white space only. *)
Lemma is_blank_all_space (s : string) : is_blank s = all_space s.
Proof.
  unfold is_blank, strip. destruct (all_space s) eqn:Hs.
  - by rewrite (lstrip_all_space _ Hs).
  - apply not_true_iff_false. intros H%String.eqb_eq.
    apply rstrip_empty, lstrip_all_space_inv in H. congruence.
Qed.

Lemma query_with_blank cfg (self : Stages) user_query w :
  all_space user_query = true ->
  query_with cfg self user_query w
  = (Ok (query_result (VStr please_ask) [] (VFloat 0) true
           ((clock w (S (reads w)) - clock w (reads w)) * 1000)),
     tick (tick w)).
Proof.
  intros Hs. unfold query_with, bind, time_time. simpl.
  by rewrite is_blank_all_space, Hs, orb_true_r.
Qed.

Section Query.

Variable fixed : nat -> Q -> string.
Variable repr : pyval -> string.

(** C8. For a query that is empty or made of white space only, [query]
    returns the fixed result: blocked, no chunks, confidence 0.0 and the
    answer "Please provide a valid question.". The world it leaves differs
    from the one it found by two readings of the clock only: the trace has
    no call to the vector store, to the BM25 index or to a generator, and
    the result is the same whatever the pipeline is. *)
Theorem blank_query_rejected cfg (self : RAGPipeline) user_query w :
  all_space user_query = true ->
  query fixed repr cfg self user_query w
  = (Ok {[ "answer" := VStr "Please provide a valid question.";
           "chunks" := VList [];
           "confidence" := VFloat 0;
           "blocked" := VBool true;
           "response_time_ms" :=
             VFloat ((clock w (S (reads w)) - clock w (reads w)) * 1000) ]},
     {| clock := clock w; reads := S (S (reads w)); trace := trace w |}).
Proof. intros Hs. unfold query. by rewrite query_with_blank. Qed.

End Query.

Lemma blank_query_rejected_witness :
  query decimal_fixed decimal_repr default_settings
    (demo_pipeline default_retriever) "   " world0
  = (Ok {[ "answer" := VStr "Please provide a valid question.";
           "chunks" := VList [];
           "confidence" := VFloat 0;
           "blocked" := VBool true;
           "response_time_ms" :=
             VFloat ((clock world0 1%nat - clock world0 0%nat) * 1000) ]},
     {| clock := clock world0; reads := 2; trace := [] |}).
Proof.
  apply (blank_query_rejected decimal_fixed decimal_repr default_settings
           (demo_pipeline default_retriever) "   " world0).
  reflexivity.
Defined.

(** The handler of [query]: when the body of the [try] raises, the result
    is the apology, blocked, with no chunks and confidence 0.0. *)
Lemma query_with_caught cfg (self : Stages) user_query w e w' :
  is_blank user_query = false ->
  query_try cfg self user_query (clock w (reads w)) (tick w) = (Raise e, w') ->
  query_with cfg self user_query w
  = (Ok (query_result (VStr pipeline_error) [] (VFloat 0) true
           ((clock w' (reads w') - clock w (reads w)) * 1000)),
     tick w').
Proof.
  intros Hblank Htry. unfold query_with, bind, time_time, try_except. simpl.
  rewrite Hblank, (not_blank_not_empty _ Hblank). simpl.
  fold (tick w). by rewrite Htry.
Qed.

Lemma query_with_returned cfg (self : Stages) user_query w d w' :
  is_blank user_query = false ->
  query_try cfg self user_query (clock w (reads w)) (tick w) = (Ok d, w') ->
  query_with cfg self user_query w = (Ok d, w').
Proof.
  intros Hblank Htry. unfold query_with, bind, time_time, try_except. simpl.
  rewrite Hblank, (not_blank_not_empty _ Hblank). simpl.
  fold (tick w). by rewrite Htry.
Qed.

(** An exception that leaves a stage leaves the body of the [try]. *)
Lemma raised_in_query_try cfg (self : Stages) user_query start_time w e w' :
  raised_in self user_query w e w' ->
  query_try cfg self user_query start_time w = (Raise e, w').
Proof.
  intros H. unfold query_try, bind, lift, ret.
  destruct H as [e w' Hr|chunks e w' Hr Hv|chunks c reason e w' w'' Hr Hv Hg].
  - by rewrite Hr.
  - by rewrite Hr, Hv.
  - by rewrite Hr, Hv, Hg.
Qed.

(** What the body of the [try] returns is a query result. *)
Lemma query_try_result cfg (self : Stages) user_query start_time w d w' :
  query_try cfg self user_query start_time w = (Ok d, w') ->
  is_query_result start_time d.
Proof.
  unfold query_try, bind, lift, ret, elapsed_ms, bind, time_time, ret.
  destruct (do_retrieve self user_query w) as [[chunks|e] w1]; [|done].
  destruct (do_validate_relevance self chunks user_query)
    as [[[is_valid confidence] reason]|e]; [|done].
  destruct is_valid.
  - destruct (do_generate_answer self user_query chunks w1) as [[answer|e] w2];
      [|done].
    destruct (rmap format_chunk chunks) as [formatted|e]; [|done].
    intros H; inversion H; subst. by do 5 eexists.
  - destruct (rmap format_chunk chunks) as [formatted|e]; [|done].
    intros H; inversion H; subst. by do 5 eexists.
Qed.

(** C2, as the code has it. Whatever the three stages do, [query] returns
    a result and raises nothing: the result has the five fields, the
    elapsed time among them, measured from the reading of the clock made
    on entry. When the query is not blank and an exception leaves
    [retrieve], [validate_relevance] or [generate_answer], the result is
    the apology: blocked, no chunks, confidence 0.0. The property holds
    for any implementation of the three stages, those of the class
    ([query], through [methods]) included. What a stage catches itself
    does not reach [query]: see [index_failure_no_chunks] and
    [generation_failure_falls_back]. *)
Theorem query_never_raises cfg (self : Stages) user_query w :
  exists d w',
    query_with cfg self user_query w = (Ok d, w')
    /\ is_query_result (clock w (reads w)) d
    /\ (forall e w1,
          is_blank user_query = false ->
          raised_in self user_query (tick w) e w1 ->
          d = {[ "answer" := VStr pipeline_error;
                 "chunks" := VList [];
                 "confidence" := VFloat 0;
                 "blocked" := VBool true;
                 "response_time_ms" :=
                   VFloat ((clock w1 (reads w1) - clock w (reads w)) * 1000) ]}
          /\ w' = tick w1).
Proof.
  destruct (is_blank user_query) eqn:Hblank.
  - rewrite is_blank_all_space in Hblank.
    rewrite (query_with_blank _ _ _ _ Hblank). do 2 eexists.
    split; [done|]. split; [by do 5 eexists|]. intros; congruence.
  - destruct (query_try cfg self user_query (clock w (reads w)) (tick w))
      as [[d|e] w1] eqn:Htry.
    + rewrite (query_with_returned _ _ _ _ _ _ Hblank Htry). do 2 eexists.
      split; [done|]. split; [by eapply query_try_result|].
      intros e w2 _ Hraised.
      rewrite (raised_in_query_try cfg _ _ (clock w (reads w)) _ _ _ Hraised) in Htry.
      congruence.
    + rewrite (query_with_caught _ _ _ _ _ _ Hblank Htry). do 2 eexists.
      split; [done|]. split; [by do 5 eexists|].
      intros e' w2 _ Hraised.
      rewrite (raised_in_query_try cfg _ _ (clock w (reads w)) _ _ _ Hraised) in Htry.
      by inversion Htry; subst.
Qed.

(** An exception of the vector store does not leave [retrieve]: there
    are no chunks then. *)
Lemma index_failure_no_chunks cfg self r query top_k w e :
  retriever self = Some r ->
  is_blank query = false ->
  _vectorstore r query (_k r * 2)%Z = Raise e ->
  retrieve cfg self query top_k w
  = (Ok [], {| clock := clock w; reads := reads w;
               trace := trace w ++ [VectorSearch query (_k r * 2)] |}).
Proof.
  intros Hr Hblank Hv. unfold retrieve.
  rewrite Hblank, (not_blank_not_empty _ Hblank), Hr. simpl.
  unfold try_except, bind, get_relevant_documents, _get_relevant_documents,
    bind, call, ret.
  by rewrite Hv.
Qed.

(** The inference client raises on every prompt, so an exception is thrown
    during answer generation: one generator call is in the trace of the
    run. [query] then returns the stored answer of the top chunk, with the
    three chunks, the top score as confidence and [blocked] false. *)
Lemma generation_failure_not_blocked :
  (forall prompt,
      hf_client failing_generator_pipeline prompt
      = Raise (ExternalError "inference endpoint unavailable"))
  /\ generator_calls
       (query decimal_fixed decimal_repr default_settings
          failing_generator_pipeline "How do I update my payment method?" world0)
     = 1%nat
  /\ shown
       (query decimal_fixed decimal_repr default_settings
          failing_generator_pipeline "How do I update my payment method?" world0)
     = Some (Some (VStr "Go to Settings > Billing..."), Some 3%nat,
             Some (VFloat (200 # 200)), Some (VBool false)).
Proof.
  split; [reflexivity|]. split; vm_compute; reflexivity.
Qed.

(** The vector store raises on every query: [retrieve] returns no chunk
    and [query] answers that it has not enough information, blocked, with
    confidence 0.0. *)
Lemma index_failure_blocked :
  shown
    (query decimal_fixed decimal_repr default_settings
       failing_index_pipeline "How do I update my payment method?" world0)
  = Some (Some (VStr no_information), Some 0%nat, Some (VFloat 0),
          Some (VBool true)).
Proof. vm_compute. reflexivity. Qed.

(** Scenario A of the specification: the query of the entry is answered
    from the entry, with the top score as confidence. *)
Lemma scenario_A_answered :
  shown
    (query decimal_fixed decimal_repr default_settings
       (demo_pipeline accepting_retriever)
       "How do I update my payment method?" world0)
  = Some (Some (VStr "Go to Settings > Billing..."), Some 3%nat,
          Some (VFloat (200 # 200)), Some (VBool false)).
Proof. vm_compute. reflexivity. Qed.

Lemma query_never_raises_witness :
  exists d w',
    query decimal_fixed decimal_repr default_settings broken_pipeline
      "update payment method" world0 = (Ok d, w')
    /\ d !! "blocked" = Some (VBool true)
    /\ d !! "answer" = Some (VStr pipeline_error)
    /\ d !! "confidence" = Some (VFloat 0)
    /\ d !! "chunks" = Some (VList [])
    /\ d !! "response_time_ms" = Some (VFloat 1000).
Proof.
  destruct (query_never_raises default_settings
              (methods decimal_fixed decimal_repr default_settings broken_pipeline)
              "update payment method" world0) as (d & w' & Hq & _ & Hraised).
  destruct (Hraised
              (ValueError "RAG pipeline not properly initialized. Retriever missing.")
              (tick world0)) as [-> ->].
  - vm_compute. reflexivity.
  - apply raised_in_retrieval. vm_compute. reflexivity.
  - do 2 eexists. split; [exact Hq|]. vm_compute. repeat split.
Defined.

(** ** generate_answer *)

Section Generation.

Variable fixed : nat -> Q -> string.
Variable repr : pyval -> string.

Lemma stored_answer_Some top_chunk md stored dflt :
  top_chunk !! "metadata" = Some (VDict md) ->
  md !! "answer" = Some stored ->
  stored_answer top_chunk dflt = Ok stored.
Proof.
  intros Hmd Hans. unfold stored_answer, get_default.
  rewrite (getitem_Some _ _ _ Hmd). simpl. by rewrite Hans.
Qed.

(** Once the generated text is refused, empty or short, the checks after
    [answer.strip()] give the stored answer or raise. *)
Lemma post_process_replaced top_chunk rest md stored answer :
  top_chunk !! "metadata" = Some (VDict md) ->
  md !! "answer" = Some stored ->
  is_refusal answer = true \/ answer = "" \/ (String.length answer < 10)%nat ->
  post_process (top_chunk :: rest) answer = Ok stored
  \/ exists e, post_process (top_chunk :: rest) answer = Raise e.
Proof.
  intros Hmd Hans Hbad. unfold post_process. simpl.
  rewrite !(stored_answer_Some _ _ _ _ Hmd Hans).
  destruct (is_refusal answer) eqn:Hrefusal; simpl.
  - destruct (truthy stored); simpl; [|by left].
    destruct (py_len stored) as [n|e]; simpl; [|by right; eexists].
    destruct (n <? 10)%nat; by left.
  - destruct Hbad as [?|[->|Hshort]]; [congruence|left; reflexivity|].
    apply Nat.ltb_lt in Hshort.
    destruct (String.eqb answer ""); simpl; [by left|].
    rewrite Hshort. by left.
Qed.

(** [p in s]: [s] has [p] as a substring. *)
Lemma prefix_spec (p s : string) :
  String.prefix p s = true <-> exists post, s = p ++ post.
Proof.
  revert s. induction p as [|a p IH]; intros s; simpl.
  - destruct s; split; eauto.
  - destruct s as [|b s]; simpl.
    + split; [done|]. by intros [post H].
    + destruct (ascii_dec a b) as [->|Hne].
      * rewrite IH. split; intros [post H]; exists post; [by rewrite H|].
        by inversion H.
      * split; [done|]. intros [post H]. inversion H. congruence.
Qed.

Lemma contains_unfold (p s : string) :
  contains p s
  = String.prefix p s
    || match s with
       | EmptyString => false
       | String _ s' => contains p s'
       end.
Proof. by destruct s. Qed.

Lemma contains_spec (p s : string) :
  contains p s = true <-> exists pre post, s = pre ++ p ++ post.
Proof.
  induction s as [|c s IH]; rewrite contains_unfold.
  - rewrite orb_false_r, prefix_spec. split.
    + intros [post H]. by exists "", post.
    + intros (pre & post & H). destruct pre; simpl in H; [eauto|done].
  - rewrite orb_true_iff, prefix_spec, IH. split.
    + intros [[post H]|(pre & post & H)].
      * by exists "", post.
      * exists (String c pre), post. simpl. by rewrite H.
    + intros (pre & post & H). destruct pre as [|c' pre]; simpl in H.
      * left. eauto.
      * right. inversion H; subst. eauto.
Qed.

(** The refusal test of the code holds exactly when the answer, in lower
    case, has one of the phrases of the list as a substring. *)
Lemma is_refusal_spec (answer : string) :
  is_refusal answer = true
  <-> exists pattern pre post,
        pattern ∈ refusal_patterns /\ lower answer = pre ++ pattern ++ post.
Proof.
  unfold is_refusal. rewrite existsb_exists. split.
  - intros (pattern & Hin & (pre & post & H)%contains_spec).
    exists pattern, pre, post. split; [by apply list_elem_of_In|done].
  - intros (pattern & pre & post & Hin & H). exists pattern.
    split; [by apply list_elem_of_In|]. apply contains_spec. eauto.
Qed.

(** An exception of the back end does not leave [generate_answer]: the
    stored answer of the top chunk is returned. *)
Lemma generation_failure_falls_back (self : RAGPipeline) query top_chunk rest md
    stored prompt e w w' :
  top_chunk !! "metadata" = Some (VDict md) ->
  md !! "answer" = Some stored ->
  prompt_for fixed repr query (top_chunk :: rest) = Ok prompt ->
  produce_answer self prompt (top_chunk :: rest) w = (Raise e, w') ->
  generate_answer fixed repr self query (top_chunk :: rest) w = (Ok stored, w').
Proof.
  intros Hmd Hans Hprompt Hprod.
  unfold generate_answer, bind, lift, try_except. rewrite Hprompt, Hprod. simpl.
  by rewrite (stored_answer_Some _ _ _ _ Hmd Hans).
Qed.

(** C9. Whatever back end produced the text (the inference client, the
    local model, or the fallback on the stored answer), when the text,
    once stripped, contains one of the refusal phrases of the list in any
    letter case, or is empty, or has fewer than 10 characters,
    [generate_answer] returns the answer stored in the metadata of the top
    chunk. *)
Theorem refused_generation_replaced (self : RAGPipeline) query top_chunk rest md
    stored prompt generated w w' :
  top_chunk !! "metadata" = Some (VDict md) ->
  md !! "answer" = Some stored ->
  prompt_for fixed repr query (top_chunk :: rest) = Ok prompt ->
  produce_answer self prompt (top_chunk :: rest) w = (Ok (VStr generated), w') ->
  (exists pattern pre post,
      pattern ∈ refusal_patterns
      /\ lower (strip generated) = pre ++ pattern ++ post)
  \/ strip generated = ""
  \/ (String.length (strip generated) < 10)%nat ->
  generate_answer fixed repr self query (top_chunk :: rest) w = (Ok stored, w').
Proof.
  intros Hmd Hans Hprompt Hprod Hbad.
  assert (Hbad' : is_refusal (strip generated) = true
                  \/ strip generated = ""
                  \/ (String.length (strip generated) < 10)%nat).
  { destruct Hbad as [H|H]; [left; by apply is_refusal_spec|by right]. }
  unfold generate_answer, bind, lift, try_except. rewrite Hprompt, Hprod. simpl.
  destruct (post_process_replaced _ rest _ _ _ Hmd Hans Hbad') as [->|[e ->]].
  - done.
  - by rewrite (stored_answer_Some _ _ _ _ Hmd Hans).
Qed.

(** The three back ends, as [produce_answer] calls them. *)
Lemma produce_answer_inference (self : RAGPipeline) prompt chunks w text :
  use_inference_api self = true ->
  hf_client self prompt = Ok text ->
  produce_answer self prompt chunks w
  = (Ok (VStr text),
     {| clock := clock w; reads := reads w;
        trace := trace w ++ [TextGeneration prompt] |}).
Proof.
  intros Hapi Htext. unfold produce_answer, bind, call, ret.
  by rewrite Hapi, Htext.
Qed.

Lemma produce_answer_local (self : RAGPipeline) prompt chunks w llm text :
  use_inference_api self = false ->
  llm_model self = Some llm ->
  llm (truncate_prompt prompt) = Ok text ->
  produce_answer self prompt chunks w
  = (Ok (VStr text),
     {| clock := clock w; reads := reads w;
        trace := trace w ++ [LocalGeneration (truncate_prompt prompt)] |}).
Proof.
  intros Hapi Hllm Htext. unfold produce_answer, bind, call, ret.
  by rewrite Hapi, Hllm, Htext.
Qed.

Lemma produce_answer_fallback (self : RAGPipeline) prompt top_chunk rest w md stored :
  use_inference_api self = false ->
  llm_model self = None ->
  top_chunk !! "metadata" = Some (VDict md) ->
  md !! "answer" = Some stored ->
  produce_answer self prompt (top_chunk :: rest) w = (Ok stored, w).
Proof.
  intros Hapi Hllm Hmd Hans. unfold produce_answer, lift.
  rewrite Hapi, Hllm. simpl. by rewrite (stored_answer_Some _ _ _ _ Hmd Hans).
Qed.

End Generation.

Lemma refused_generation_replaced_witness :
  lower (strip "  I cannot say.  ") = "" ++ "i cannot" ++ " say."
  /\ fst (generate_answer decimal_fixed decimal_repr
            (scripted_pipeline default_retriever "  I cannot say.  ")
            "payment"
            [demo_chunk (9 # 10) "update payment" "Go to Settings > Billing..."]
            world0)
     = Ok (VStr "Go to Settings > Billing...").
Proof.
  split; [vm_compute; reflexivity|].
  erewrite (refused_generation_replaced decimal_fixed decimal_repr
              (scripted_pipeline default_retriever "  I cannot say.  ")
              "payment"
              (demo_chunk (9 # 10) "update payment" "Go to Settings > Billing...")
              [] _ _ _ "  I cannot say.  " world0).
  - reflexivity.
  - vm_compute. reflexivity.
  - vm_compute. reflexivity.
  - vm_compute. reflexivity.
  - vm_compute. reflexivity.
  - left. exists "i cannot", "", " say.". split.
    + unfold refusal_patterns. set_solver.
    + vm_compute. reflexivity.
Defined.

(** ** The confidence reported by validation and by query *)

Section Confidence.

Variable fixed : nat -> Q -> string.
Variable repr : pyval -> string.

Lemma format_chunk_total chunk :
  is_chunk chunk -> exists v, format_chunk chunk = Ok v.
Proof.
  intros ([s Hs] & [text Htext] & (md & Hmd & Hkeys)).
  unfold metadata_keys in Hkeys.
  inversion Hkeys as [|? ? [id Hid] Hkeys1]; subst.
  inversion Hkeys1 as [|? ? [category Hcat] _]; subst.
  unfold format_chunk.
  rewrite (getitem_Some _ _ _ Htext), (getitem_Some _ _ _ Hs),
    (getitem_Some _ _ _ Hmd). simpl.
  rewrite (getitem_Some _ _ _ Hid), (getitem_Some _ _ _ Hcat). simpl. eauto.
Qed.

Lemma rmap_total {A B} (f : A -> result B) (l : list A) :
  Forall (fun x => exists y, f x = Ok y) l -> exists l', rmap f l = Ok l'.
Proof.
  induction 1 as [|x l [y Hy] _ [l' IH]]; simpl; [by eexists|].
  rewrite Hy, IH. simpl. eauto.
Qed.

Lemma context_part_total chunk :
  is_chunk chunk -> exists part, context_part fixed repr chunk = Ok part.
Proof.
  intros ([s Hs] & [text Htext] & (md & Hmd & _)).
  unfold context_part, get_default, format_fixed.
  rewrite (getitem_Some _ _ _ Hs), Hmd, (getitem_Some _ _ _ Htext). simpl. eauto.
Qed.

(** On chunks of the shape [retrieve] builds, [generate_answer] returns:
    what the back end raises is caught, and the stored answer is at hand. *)
Lemma generate_answer_total (self : RAGPipeline) query chunks w :
  Forall is_chunk chunks ->
  exists answer w', generate_answer fixed repr self query chunks w = (Ok answer, w').
Proof.
  intros Hall. destruct chunks as [|top_chunk rest]; [by do 2 eexists|].
  unfold generate_answer, prompt_for, bind, lift, try_except.
  destruct (rmap_total (context_part fixed repr) (top_chunk :: rest)) as [parts Hparts].
  { eapply Forall_impl; [exact Hall|]. apply context_part_total. }
  rewrite Hparts. simpl.
  match goal with
  | |- context [produce_answer self ?p ?c w] =>
      destruct (produce_answer self p c w) as [[answer|e] w1]
  end.
  - destruct (as_str answer) as [text|e]; simpl.
    + destruct (post_process (top_chunk :: rest) (strip text)) as [a|e];
        [by do 2 eexists|].
      inversion Hall as [|? ? (_ & _ & (md & Hmd & _)) _]; subst.
      unfold stored_answer. rewrite (getitem_Some _ _ _ Hmd). simpl.
      by do 2 eexists.
    + inversion Hall as [|? ? (_ & _ & (md & Hmd & _)) _]; subst.
      unfold stored_answer. rewrite (getitem_Some _ _ _ Hmd). simpl.
      by do 2 eexists.
  - inversion Hall as [|? ? (_ & _ & (md & Hmd & _)) _]; subst.
    simpl. unfold stored_answer. rewrite (getitem_Some _ _ _ Hmd). simpl.
    by do 2 eexists.
Qed.

(** C10. On a non-empty list of chunks, [validate_relevance] returns, and
    the confidence it returns is the fused score of the first chunk in each
    of its four outcomes: blocked by the threshold, blocked by the variance,
    blocked by the keyword overlap, accepted. [query] passes that
    confidence on: when retrieval gave these chunks, the result of [query]
    reports the fused score of the first chunk as its confidence, blocked
    or not. *)
Theorem confidence_is_top_score cfg top_chunk rest user_query :
  Forall is_chunk (top_chunk :: rest) ->
  exists s,
    top_chunk !! "score" = Some (VFloat s)
    /\ (validate_relevance fixed repr cfg (top_chunk :: rest) user_query
          = Ok (false, VFloat s,
                "Similarity score " ++ fixed 2 s ++ " below threshold "
                ++ repr (VFloat (similarity_threshold cfg)))
        \/ (exists variance,
              validate_relevance fixed repr cfg (top_chunk :: rest) user_query
              = Ok (false, VFloat s,
                    "High score variance " ++ fixed 3 variance
                    ++ " indicates ambiguous query"))
        \/ (exists overlap,
              validate_relevance fixed repr cfg (top_chunk :: rest) user_query
              = Ok (false, VFloat s,
                    "Low keyword overlap " ++ fixed 2 overlap
                    ++ " - retrieved content may not be relevant"))
        \/ validate_relevance fixed repr cfg (top_chunk :: rest) user_query
           = Ok (true, VFloat s, "All validation checks passed"))
    /\ (forall (self : RAGPipeline) w w1,
          is_blank user_query = false ->
          retrieve cfg self user_query None (tick w) = (Ok (top_chunk :: rest), w1) ->
          exists d w',
            query fixed repr cfg self user_query w = (Ok d, w')
            /\ d !! "confidence" = Some (VFloat s)).
Proof.
  intros Hall.
  destruct (validate_relevance_outcome fixed repr cfg _ _ user_query Hall)
    as (s & Hs & Hout).
  exists s. split; [done|]. split; [done|].
  intros self w w1 Hblank Hret.
  assert (Hvalid : exists is_valid reason,
             validate_relevance fixed repr cfg (top_chunk :: rest) user_query
             = Ok (is_valid, VFloat s, reason)).
  { destruct Hout as [H|[[v H]|[[o H]|H]]]; rewrite H; eauto. }
  destruct Hvalid as (is_valid & reason & Hvalid).
  destruct (rmap_total format_chunk (top_chunk :: rest)) as [formatted Hfmt].
  { eapply Forall_impl; [exact Hall|]. apply format_chunk_total. }
  assert (Htry : exists d w',
             query_try cfg (methods fixed repr cfg self) user_query
               (clock w (reads w)) (tick w) = (Ok d, w')
             /\ d !! "confidence" = Some (VFloat s)).
  { unfold query_try, bind, lift, ret, elapsed_ms, bind, time_time, ret. simpl.
    rewrite Hret, Hvalid. destruct is_valid.
    - destruct (generate_answer_total self user_query _ w1 Hall) as (a & w2 & Hg).
      rewrite Hg, Hfmt. do 2 eexists. split; [done|].
      unfold query_result. by simplify_map_eq.
    - rewrite Hfmt. do 2 eexists. split; [done|].
      unfold query_result. by simplify_map_eq. }
  destruct Htry as (d & w' & Htry & Hconf).
  exists d, w'. split; [|done].
  unfold query. by apply query_with_returned.
Qed.

End Confidence.

Lemma confidence_is_top_score_witness :
  Forall is_chunk scenario_D
  /\ exists s,
       score_of (demo_chunk (9 # 10) billing_text "Go to Settings > Billing...") = Some s
       /\ exists is_valid reason,
            validate_relevance decimal_fixed decimal_repr default_settings
              scenario_D "How do I pilot a submarine?"
            = Ok (is_valid, VFloat s, reason).
Proof.
  assert (Hall : Forall is_chunk scenario_D).
  { unfold scenario_D. forall_list; apply demo_chunk_is_chunk. }
  split; [exact Hall|].
  destruct (confidence_is_top_score decimal_fixed decimal_repr default_settings
              _ _ "How do I pilot a submarine?" Hall) as (s & Hs & Hout & _).
  exists s. split.
  - unfold score_of. rewrite Hs. reflexivity.
  - destruct Hout as [H|[[v H]|[[o H]|H]]];
      do 2 eexists; exact H.
Defined.

(** * Further properties of the retrieval path *)

(** ** The guards of [retrieve] *)

(** X1. [retrieve] raises in one case only: the query is not blank and
    the pipeline has no retriever; the exception is then the [ValueError]
    of the guard and no index was called. A blank query gives the empty
    list without touching the pipeline, with or without a retriever. *)
Theorem retrieve_guards cfg self query top_k w :
  (is_blank query = true -> retrieve cfg self query top_k w = (Ok [], w))
  /\ (is_blank query = false -> retriever self = None ->
      retrieve cfg self query top_k w
      = (Raise (ValueError "RAG pipeline not properly initialized. Retriever missing."),
         w))
  /\ (forall e w',
        retrieve cfg self query top_k w = (Raise e, w') ->
        is_blank query = false /\ retriever self = None).
Proof.
  split; [|split].
  - intros Hb. unfold retrieve. by rewrite Hb, orb_true_r.
  - intros Hb Hr. unfold retrieve.
    by rewrite Hb, (not_blank_not_empty _ Hb), Hr.
  - intros e w' Hret. destruct (is_blank query) eqn:Hb.
    + unfold retrieve in Hret. by rewrite Hb, orb_true_r in Hret.
    + split; [done|]. destruct (retriever self) as [r|] eqn:Hr; [|done].
      destruct (retrieve_inv cfg self r query top_k w Hr Hb) as (docs & w1 & H & _).
      congruence.
Qed.

(** X2. Whatever top-K is asked for, [retrieve] returns no more chunks
    than the [k] of the retriever and no more than the corpus has
    entries: a larger top-K does not give more. *)
Theorem retrieve_capped_by_retriever cfg self r query top_k w chunks w' :
  retriever self = Some r ->
  (0 <= _k r)%Z ->
  retrieve cfg self query top_k w = (Ok chunks, w') ->
  (length chunks <= Z.to_nat (_k r))%nat
  /\ (length chunks <= length (_document_texts r))%nat.
Proof.
  intros Hr Hk Hret. destruct (is_blank query) eqn:Hb.
  { unfold retrieve in Hret. rewrite Hb, orb_true_r in Hret.
    inversion Hret; subst. simpl. lia. }
  destruct (retrieve_inv cfg self r query top_k w Hr Hb)
    as (docs & w1 & Hret' & Hdocs).
  rewrite Hret in Hret'. inversion Hret'; subst chunks w1.
  rewrite length_map.
  pose proof (slice_to_length_le docs (default (max_context_chunks cfg) top_k)) as Hle.
  destruct Hdocs as [->|(vd & bs & _ & _ & Hrank)]; [simpl in Hle; lia|].
  apply rank_length in Hrank.
  pose proof (slice_to_length (_document_texts r) (_k r) Hk).
  pose proof (slice_to_length_le (_document_texts r) (_k r)). lia.
Qed.

Lemma retrieve_capped_by_retriever_witness :
  exists chunks w',
    retrieve default_settings (demo_pipeline default_retriever)
      "update payment method" (Some 10%Z) world0 = (Ok chunks, w')
    /\ (length chunks <= 5)%nat /\ (length chunks <= 3)%nat.
Proof.
  destruct (retrieve_inv default_settings (demo_pipeline default_retriever)
              default_retriever "update payment method" (Some 10%Z) world0)
    as (docs & w' & Hret & _).
  - reflexivity.
  - vm_compute. reflexivity.
  - eexists _, w'. split; [exact Hret|].
    apply (retrieve_capped_by_retriever default_settings
             (demo_pipeline default_retriever) default_retriever
             "update payment method" (Some 10%Z) world0 _ w').
    + reflexivity.
    + vm_compute. discriminate.
    + exact Hret.
Defined.

(** ** The documents of the retriever *)

Lemma rmap_Forall2 {A B} (f : A -> result B) (l : list A) (l' : list B) :
  rmap f l = Ok l' -> Forall2 (fun x y => f x = Ok y) l l'.
Proof.
  revert l'. induction l as [|a l IH]; simpl; intros l' H.
  - inversion H. constructor.
  - destruct (f a) as [b|] eqn:Ha; simpl in H; [|done].
    destruct (rmap f l) as [ys|]; simpl in H; [|done].
    inversion H; subst. constructor; [done|]. by apply IH.
Qed.

Lemma items_fst {A} (l : list A) : (items l).*1 = seq 0 (length l).
Proof.
  apply list_eq. intros i. unfold items.
  rewrite list_lookup_fmap, list_lookup_imap.
  destruct (l !! i) as [x|] eqn:Hi; simpl.
  - symmetry. apply lookup_seq. split; [done|]. by eapply lookup_lt_Some.
  - symmetry. apply lookup_seq_ge. by apply lookup_ge_None.
Qed.

Lemma top_indices_NoDup self combined : NoDup (top_indices self combined).
Proof.
  unfold top_indices.
  destruct (slice_to_take (sorted_indices combined) (_k self)) as (m & -> & _).
  rewrite fmap_take. eapply sublist_NoDup; [|apply sublist_take].
  rewrite (sorted_indices_perm combined), items_fst. apply NoDup_seq.
Qed.

(** X3. The documents the retriever returns stand for distinct entries of
    the corpus: no entry is returned twice. Each document has the text
    and the metadata of one and the same corpus position; its metadata
    is the metadata of the corpus with three keys set, [vector_score] to
    the vector similarity of the position (0 when the vector store did
    not return it), [bm25_score] to its normalised BM25 score and [score]
    to the weighted sum of the two, and every other key unchanged. *)
Theorem retriever_documents_distinct self query w docs w' :
  _get_relevant_documents self query w = (Ok docs, w') ->
  docs = []
  \/ exists vector_docs bm25_scores normalized (indices : list nat),
       _vectorstore self query (_k self * 2)%Z = Ok vector_docs
       /\ _bm25_index self (split (lower query)) = Ok bm25_scores
       /\ bm25_scores_normalized bm25_scores = Ok normalized
       /\ NoDup indices
       /\ Forall2 (fun idx doc =>
            exists text meta b,
              let vscore := default 0 (vector_scores_dict self vector_docs !! idx) in
              let score := _vector_weight self * vscore + _bm25_weight self * b in
              _document_texts self !! idx = Some text
              /\ _metadata self !! idx = Some meta
              /\ normalized !! idx = Some b
              /\ page_content doc = text
              /\ metadata doc
                 = <["bm25_score" := VFloat b]>
                     (<["vector_score" := VFloat vscore]>
                        (<["score" := VFloat score]> meta))
              /\ metadata doc !! "score" = Some (VFloat score)
              /\ metadata doc !! "vector_score" = Some (VFloat vscore)
              /\ metadata doc !! "bm25_score" = Some (VFloat b)
              /\ (forall key, key <> "score" -> key <> "vector_score" ->
                    key <> "bm25_score" -> metadata doc !! key = meta !! key))
            indices docs.
Proof.
  intros Hrun.
  destruct (get_relevant_documents_inv _ _ _ _ _ Hrun)
    as [[_ ->]|(vd & bs & _ & Hv & Hb & Hrank)]; [by left|].
  right. unfold rank in Hrank.
  destruct (bm25_scores_normalized bs) as [normalized|] eqn:Hn;
    simpl in Hrank; [|done].
  destruct (combined_scores self (vector_scores_dict self vd) normalized)
    as [combined|] eqn:Hc; simpl in Hrank; [|done].
  exists vd, bs, normalized, (top_indices self combined).
  split; [done|]. split; [done|]. split; [done|].
  split; [apply top_indices_NoDup|].
  apply rmap_Forall2 in Hrank. eapply Forall2_impl; [exact Hrank|].
  intros idx doc Hdoc. simpl in Hdoc. unfold build_document in Hdoc.
  destruct (index (_document_texts self) idx) as [text|] eqn:Ht; simpl in Hdoc; [|done].
  destruct (index (_metadata self) idx) as [meta|] eqn:Hm; simpl in Hdoc; [|done].
  destruct (index combined idx) as [score|] eqn:Hs; simpl in Hdoc; [|done].
  destruct (index normalized idx) as [b|] eqn:Hnb; simpl in Hdoc; [|done].
  inversion Hdoc; subst doc. apply index_Ok in Ht, Hm, Hs, Hnb.
  destruct (combined_scores_lookup _ _ _ _ _ _ Hc Hs) as (b' & Hb' & ->).
  rewrite Hnb in Hb'. inversion Hb'; subst b'.
  exists text, meta, b. cbv zeta.
  destruct (built_metadata_lookup meta
              (_vector_weight self * default 0 (vector_scores_dict self vd !! idx)
               + _bm25_weight self * b)
              (default 0 (vector_scores_dict self vd !! idx)) b) as (H1 & H2 & H3 & H4).
  by repeat split.
Qed.

Lemma retriever_documents_distinct_witness :
  exists docs w' (indices : list nat),
    _get_relevant_documents default_retriever "update payment method" world0
    = (Ok docs, w')
    /\ NoDup indices /\ length indices = length docs /\ length docs = 3%nat.
Proof.
  destruct (_get_relevant_documents default_retriever "update payment method" world0)
    as [res w'] eqn:Hrun.
  assert (Hok : exists docs, res = Ok docs /\ length docs = 3%nat).
  { assert (H : match res with
                | Ok docs => Some (length docs)
                | Raise _ => None
                end = Some 3%nat).
    { change res with (fst (res, w')). rewrite <- Hrun. vm_compute. reflexivity. }
    destruct res as [docs|]; [|discriminate]. inversion H. eauto. }
  destruct Hok as (docs & -> & Hlen).
  destruct (retriever_documents_distinct default_retriever "update payment method"
              world0 docs w' Hrun)
    as [->|(vd & bs & nz & indices & _ & _ & _ & Hnd & Hall)]; [discriminate|].
  exists docs, w', indices. split; [reflexivity|]. split; [exact Hnd|].
  split; [by eapply Forall2_length|exact Hlen].
Defined.

(** ** When the ranking returns, and when it raises *)

Lemma bm25_scores_normalized_total (bm25_scores : list Q) :
  bm25_scores <> [] ->
  exists normalized,
    bm25_scores_normalized bm25_scores = Ok normalized
    /\ length normalized = length bm25_scores.
Proof.
  intros Hne. destruct bm25_scores as [|x l]; [done|].
  unfold bm25_scores_normalized, bm25_max.
  change (np_max (x :: l)) with (Ok (foldl Qmax2 x l)). cbn [rbind].
  match goal with |- context [Qgtb (if ?c then _ else _) 0] => destruct c end;
    match goal with |- context [if ?c then _ else _] => destruct c end;
    eexists; (split; [reflexivity|]); by rewrite ?length_map.
Qed.

Lemma combined_scores_total self vsd normalized :
  (length (_document_texts self) <= length normalized)%nat ->
  exists combined, combined_scores self vsd normalized = Ok combined.
Proof.
  intros Hle. unfold combined_scores. apply rmap_total.
  apply Forall_forall. intros idx [_ Hidx]%elem_of_seq.
  destruct (lookup_lt_is_Some_2 normalized idx) as [b Hb]; [lia|].
  unfold index. rewrite Hb. simpl. eauto.
Qed.

Lemma rmap_first_raise {A B} (f : A -> result B) (l1 l2 : list A) x e :
  Forall (fun y => exists v, f y = Ok v) l1 ->
  f x = Raise e ->
  rmap f (l1 ++ x :: l2)%list = Raise e.
Proof.
  intros Hall Hx. induction Hall as [|y l1 [v Hv] _ IH]; simpl.
  - by rewrite Hx.
  - by rewrite Hv, IH.
Qed.

Lemma combined_scores_short self vsd normalized :
  (length normalized < length (_document_texts self))%nat ->
  combined_scores self vsd normalized = Raise IndexError.
Proof.
  intros Hlt. unfold combined_scores.
  set (m := length normalized). set (n := length (_document_texts self)).
  assert (Hseq : seq 0 n = (seq 0 m ++ m :: seq (S m) (n - S m))%list).
  { replace n with (m + S (n - S m))%nat at 1 by (unfold m, n; lia).
    by rewrite seq_app. }
  rewrite Hseq. apply rmap_first_raise.
  - apply Forall_forall. intros idx [_ Hidx]%elem_of_seq.
    destruct (lookup_lt_is_Some_2 normalized idx) as [b Hb]; [unfold m in Hidx; lia|].
    unfold index. rewrite Hb. simpl. eauto.
  - unfold index. by rewrite (lookup_ge_None_2 normalized m).
Qed.

(** X4. When the BM25 index gives at least one score per corpus entry
    and every entry has its metadata, the ranking returns, and it returns
    as many documents as the slice [[:k]] of the corpus has entries: the
    smaller of [k] and the corpus size when [k] is not negative. *)
Theorem rank_returns_top_k self vsd bm25_scores :
  bm25_scores <> [] ->
  (length (_document_texts self) <= length bm25_scores)%nat ->
  (length (_document_texts self) <= length (_metadata self))%nat ->
  exists docs,
    rank self vsd bm25_scores = Ok docs
    /\ length docs = length (slice_to (_document_texts self) (_k self))
    /\ ((0 <= _k self)%Z ->
        length docs = (Z.to_nat (_k self) `min` length (_document_texts self))%nat).
Proof.
  intros Hne Hscores Hmeta.
  destruct (bm25_scores_normalized_total _ Hne) as (normalized & Hn & Hlen).
  destruct (combined_scores_total self vsd normalized) as [combined Hc]; [lia|].
  pose proof (combined_scores_length _ _ _ _ Hc) as Hclen.
  assert (Hdocs : exists docs, rank self vsd bm25_scores = Ok docs).
  { unfold rank. rewrite Hn. simpl. rewrite Hc. simpl. apply rmap_total.
    apply Forall_forall. intros idx Hidx. unfold top_indices in Hidx.
    apply list_elem_of_fmap in Hidx as ([idx' score] & -> & Hin). simpl.
    apply list_elem_of_lookup_1 in Hin as [i Hi]. apply slice_to_lookup in Hi.
    apply list_elem_of_lookup_2, sorted_indices_elem in Hi.
    pose proof (lookup_lt_Some _ _ _ Hi) as Hlt.
    destruct (lookup_lt_is_Some_2 (_document_texts self) idx') as [text Ht]; [lia|].
    destruct (lookup_lt_is_Some_2 (_metadata self) idx') as [meta Hm]; [lia|].
    destruct (lookup_lt_is_Some_2 normalized idx') as [b Hb]; [lia|].
    unfold build_document, index. rewrite Ht, Hm, Hi, Hb. simpl. eauto. }
  destruct Hdocs as [docs Hdocs]. exists docs. split; [done|].
  pose proof (rank_length _ _ _ _ Hdocs) as Hl. split; [done|].
  intros Hk. rewrite Hl. unfold slice_to.
  destruct (0 <=? _k self)%Z eqn:Hk'; [|apply Z.leb_gt in Hk'; lia].
  by rewrite length_take.
Qed.

Lemma rank_returns_top_k_witness :
  exists docs,
    rank default_retriever ∅ [2; 1; 0] = Ok docs /\ length docs = 3%nat.
Proof.
  destruct (rank_returns_top_k default_retriever ∅ [2; 1; 0])
    as (docs & Hrank & _ & Hlen).
  - done.
  - simpl. lia.
  - simpl. lia.
  - exists docs. split; [exact Hrank|]. rewrite Hlen; [reflexivity|].
    vm_compute. discriminate.
Defined.

(** X5. The ranking raises when the BM25 index gives no score at all
    ([ValueError], from the maximum of an empty array) and when it gives
    fewer scores than the corpus has entries ([IndexError]); it returns in
    no other case where scores are missing. [retrieve] turns either
    exception into an empty list of chunks. *)
Theorem rank_needs_a_score_per_entry self vsd bm25_scores :
  (bm25_scores = [] -> exists msg, rank self vsd bm25_scores = Raise (ValueError msg))
  /\ (bm25_scores <> [] ->
      (length bm25_scores < length (_document_texts self))%nat ->
      rank self vsd bm25_scores = Raise IndexError)
  /\ (forall docs,
        rank self vsd bm25_scores = Ok docs ->
        bm25_scores <> []
        /\ (length (_document_texts self) <= length bm25_scores)%nat)
  /\ (forall cfg (pipeline : RAGPipeline) query top_k w vector_docs,
        retriever pipeline = Some self ->
        is_blank query = false ->
        _vectorstore self query (_k self * 2)%Z = Ok vector_docs ->
        _bm25_index self (split (lower query)) = Ok bm25_scores ->
        vsd = vector_scores_dict self vector_docs ->
        (length bm25_scores < length (_document_texts self))%nat ->
        exists w', retrieve cfg pipeline query top_k w = (Ok [], w')).
Proof.
  assert (H1 : bm25_scores = [] ->
               exists msg, rank self vsd bm25_scores = Raise (ValueError msg)).
  { intros ->. by eexists. }
  assert (H2 : bm25_scores <> [] ->
               (length bm25_scores < length (_document_texts self))%nat ->
               rank self vsd bm25_scores = Raise IndexError).
  { intros Hne Hlt.
    destruct (bm25_scores_normalized_total _ Hne) as (normalized & Hn & Hlen).
    unfold rank. rewrite Hn. simpl.
    rewrite combined_scores_short; [done|lia]. }
  assert (H3 : forall docs,
             rank self vsd bm25_scores = Ok docs ->
             bm25_scores <> []
             /\ (length (_document_texts self) <= length bm25_scores)%nat).
  { intros docs Hrank. split.
    - intros Hnil. destruct (H1 Hnil) as [msg Hmsg]. congruence.
    - destruct (decide (bm25_scores = [])) as [Hnil|Hne].
      + destruct (H1 Hnil) as [msg Hmsg]. congruence.
      + destruct (le_lt_dec (length (_document_texts self)) (length bm25_scores))
          as [?|Hlt]; [done|].
        rewrite (H2 Hne Hlt) in Hrank. done. }
  split; [done|]. split; [done|]. split; [done|].
  intros cfg pipeline query top_k w vd Hr Hb Hv Hbm -> Hlt.
  destruct (retrieve_inv cfg pipeline self query top_k w Hr Hb)
    as (docs & w' & Hret & Hdocs).
  exists w'. rewrite Hret.
  destruct Hdocs as [->|(vd' & bs' & Hv' & Hbm' & Hrank)].
  - by rewrite slice_to_nil.
  - rewrite Hv in Hv'. inversion Hv'; subst vd'.
    rewrite Hbm in Hbm'. inversion Hbm'; subst bs'.
    apply H3 in Hrank as [_ Hle]. lia.
Qed.

(** ** _get_doc_index *)

Lemma find_index_Some {A} (p : A -> bool) (l : list A) (i : nat) :
  find_index p l = Some i
  <-> (exists x, l !! i = Some x /\ p x = true)
      /\ (forall j y, (j < i)%nat -> l !! j = Some y -> p y = false).
Proof.
  revert i. induction l as [|a l IH]; intros i; simpl.
  - split; [done|]. by intros [[x [Hx _]] _].
  - destruct (p a) eqn:Ha.
    + split.
      * intros H; inversion H; subst. split; [by exists a|]. intros; lia.
      * intros [[x [Hx Hpx]] Hfirst]. destruct i as [|i]; [done|].
        specialize (Hfirst 0%nat a ltac:(lia) eq_refl). congruence.
    + rewrite fmap_Some. split.
      * intros (k & Hk & ->). apply IH in Hk as [Hx Hfirst].
        split; [done|]. intros [|j] y Hj Hy; simpl in Hy.
        -- by inversion Hy; subst.
        -- apply (Hfirst j); [lia|done].
      * intros [[x [Hx Hpx]] Hfirst]. destruct i as [|i]; simpl in Hx.
        -- inversion Hx; subst. congruence.
        -- exists i. split; [|done]. apply IH. split; [eauto|].
           intros j y Hj Hy. apply (Hfirst (S j)); [lia|done].
Qed.

(** X6. [_get_doc_index] gives the first corpus position whose metadata
    has an [id] equal to the [id] of the document, and nothing when the
    document has no [id], when its [id] is empty or zero, or when no entry
    of the corpus has that [id]. *)
Theorem get_doc_index_first_match self doc i :
  _get_doc_index self doc = Some i
  <-> truthy (get (metadata doc) "id") = true
      /\ (exists meta,
             _metadata self !! i = Some meta
             /\ py_eq (get meta "id") (get (metadata doc) "id") = true)
      /\ (forall j meta,
             (j < i)%nat -> _metadata self !! j = Some meta ->
             py_eq (get meta "id") (get (metadata doc) "id") = false).
Proof.
  unfold _get_doc_index. destruct (truthy (get (metadata doc) "id")).
  - rewrite find_index_Some. split; [by intros [? ?]|by intros (_ & ? & ?)].
  - split; [done|by intros [? _]].
Qed.

(** ** The vector scores *)

Lemma get_doc_index_lt self doc i :
  _get_doc_index self doc = Some i -> (i < length (_metadata self))%nat.
Proof.
  unfold _get_doc_index. destruct (truthy (get (metadata doc) "id")); [|done].
  intros [[meta [Hm _]] _]%find_index_Some. by eapply lookup_lt_Some.
Qed.

(** X7. Every entry of [vector_scores_dict] is at a position of the
    corpus and holds the similarity [1 / (1 + distance)] of a document the
    vector store returned for that position: a document whose [id] is not
    in the corpus leaves no entry. *)
Theorem vector_scores_recorded self vector_docs idx v :
  vector_scores_dict self vector_docs !! idx = Some v ->
  (idx < length (_metadata self))%nat
  /\ exists doc distance,
       (doc, distance) ∈ vector_docs
       /\ _get_doc_index self doc = Some idx
       /\ v = similarity distance.
Proof.
  revert idx v. induction vector_docs as [|[doc d] l IH] using rev_ind;
    intros idx v; unfold vector_scores_dict in *.
  - simpl. by rewrite lookup_empty.
  - rewrite foldl_app. simpl.
    destruct (_get_doc_index self doc) as [doc_idx|] eqn:Hidx.
    + destruct (decide (doc_idx = idx)) as [->|Hne].
      * rewrite lookup_insert_eq. intros H; inversion H; subst.
        split; [by eapply get_doc_index_lt|].
        exists doc, d. split; [|done].
        apply elem_of_app. right. apply list_elem_of_here.
      * rewrite lookup_insert_ne by done. intros H.
        destruct (IH _ _ H) as (Hlt & doc' & d' & Hin & Hi & Hv).
        split; [done|]. exists doc', d'. split; [|done].
        apply elem_of_app. by left.
    + intros H. destruct (IH _ _ H) as (Hlt & doc' & d' & Hin & Hi & Hv).
      split; [done|]. exists doc', d'. split; [|done].
        apply elem_of_app. by left.
Qed.

Lemma vector_scores_recorded_witness :
  exists v,
    vector_scores_dict default_retriever
      [({| page_content := login_text; metadata := login_meta |}, 1)] !! 1%nat
    = Some v
    /\ v = similarity 1.
Proof.
  destruct (vector_scores_recorded default_retriever
              [({| page_content := login_text; metadata := login_meta |}, 1)]
              1%nat (similarity 1)) as (_ & doc & d & Hin & _ & Hv).
  - vm_compute. reflexivity.
  - exists (similarity 1). split; [vm_compute; reflexivity|reflexivity].
Defined.

(** ** White space and letter case *)

Lemma is_space_lower_char (c : ascii) : is_space (lower_char c) = is_space c.
Proof. destruct c as [[] [] [] [] [] [] [] []]; reflexivity. Qed.

Lemma all_space_lower (s : string) : all_space (lower s) = all_space s.
Proof.
  induction s as [|c s IH]; simpl; [done|].
  by rewrite is_space_lower_char, IH.
Qed.

Lemma split_all_space (s : string) : all_space s = true -> split s = [].
Proof.
  unfold split. induction s as [|c s IH]; simpl; [done|].
  intros [Hc Hs]%andb_true_iff. rewrite Hc. by apply IH.
Qed.

(** X8. Called with a query made of white space only, the retriever
    still searches the vector store once, then returns no document
    without calling the BM25 index. *)
Theorem retriever_blank_query self query w vector_docs :
  all_space query = true ->
  _vectorstore self query (_k self * 2)%Z = Ok vector_docs ->
  _get_relevant_documents self query w
  = (Ok [], {| clock := clock w; reads := reads w;
               trace := trace w ++ [VectorSearch query (_k self * 2)] |}).
Proof.
  intros Hs Hv. unfold _get_relevant_documents, bind, call, ret.
  rewrite Hv, split_all_space; [done|]. by rewrite all_space_lower.
Qed.

Lemma retriever_blank_query_witness :
  _get_relevant_documents default_retriever "   " world0
  = (Ok [], {| clock := clock world0; reads := 0;
               trace := [VectorSearch "   " 10] |}).
Proof.
  apply (retriever_blank_query default_retriever "   " world0
           (omap (fun '(i, d) =>
                    text ← _document_texts default_retriever !! i;
                    meta ← _metadata default_retriever !! i;
                    Some ({| page_content := text; metadata := meta |}, d))
                 demo_distances)).
  - reflexivity.
  - reflexivity.
Defined.

Lemma lower_string_of_list (l : list ascii) :
  lower (string_of_list_ascii l) = string_of_list_ascii (map lower_char l).
Proof. induction l as [|c l IH]; simpl; [done|]. by rewrite IH. Qed.

Lemma split_aux_lower (s : string) (cur : list ascii) :
  split_aux (lower s) (map lower_char cur) = map lower (split_aux s cur).
Proof.
  assert (Hflush : forall (cur : list ascii) (k : list string),
             match map lower_char cur with
             | [] => map lower k
             | _ :: _ => string_of_list_ascii (rev (map lower_char cur)) :: map lower k
             end
             = map lower match cur with
                         | [] => k
                         | _ :: _ => string_of_list_ascii (rev cur) :: k
                         end).
  { intros [|a l] k; [done|].
    rewrite <- map_rev. cbn [map]. by rewrite lower_string_of_list. }
  revert cur. induction s as [|c s IH]; intros cur; simpl.
  - apply (Hflush cur []).
  - rewrite is_space_lower_char. destruct (is_space c).
    + pose proof (IH []) as IH0. simpl in IH0. rewrite IH0. apply Hflush.
    + apply (IH (c :: cur)).
Qed.

Lemma split_lower (s : string) : split (lower s) = map lower (split s).
Proof. apply (split_aux_lower s []). Qed.

Lemma length_lower (s : string) : String.length (lower s) = String.length s.
Proof. induction s as [|c s IH]; simpl; [done|]. by rewrite IH. Qed.

(** The content words of a string are those of its lower-case form. *)
Lemma content_words_lower (s : string) :
  content_words s
  = list_to_set (filter (fun word => (2 < String.length word)%nat) (split (lower s))).
Proof.
  unfold content_words. f_equal. rewrite split_lower.
  induction (split s) as [|x l IH]; [done|].
  cbn [map]. rewrite !filter_cons, length_lower.
  destruct (decide (2 < String.length x)%nat); [|done].
  cbn [map]. by rewrite IH.
Qed.

Section ValidationFootprint.

Variable fixed : nat -> Q -> string.
Variable repr : pyval -> string.

(** X9. On queries whose characters are code points below 256, the
    strings of this model, validation does not depend on the letter case
    of the query: two such queries with the same lower-case form get the
    same verdict, the same confidence and the same reason on any list of
    chunks. The code keeps the words of more than two characters before
    it lowers them, so the property needs [lower] to keep the length of a
    word, which holds on that range and not above it. *)
Theorem validation_ignores_case cfg chunks query1 query2 :
  lower query1 = lower query2 ->
  validate_relevance fixed repr cfg chunks query1
  = validate_relevance fixed repr cfg chunks query2.
Proof.
  intros Heq.
  assert (Hw : content_words query1 = content_words query2).
  { by rewrite (content_words_lower query1), (content_words_lower query2), Heq. }
  unfold validate_relevance, coverage_check. by rewrite Hw.
Qed.

(** X10. Validation reads the score of the three first chunks and the
    content of the first one, and nothing else: metadata, the content of
    the other chunks and every chunk after the third do not change its
    result. With fewer than three chunks the second one is not read at
    all. *)
Theorem validation_footprint cfg c0 c0' query :
  c0 !! "score" = c0' !! "score" ->
  c0 !! "content" = c0' !! "content" ->
  (forall c1 c2 rest c1' c2' rest',
      c1 !! "score" = c1' !! "score" ->
      c2 !! "score" = c2' !! "score" ->
      validate_relevance fixed repr cfg (c0 :: c1 :: c2 :: rest) query
      = validate_relevance fixed repr cfg (c0' :: c1' :: c2' :: rest') query)
  /\ (forall c1,
        validate_relevance fixed repr cfg [c0; c1] query
        = validate_relevance fixed repr cfg [c0'] query).
Proof.
  intros H0 Hc. split.
  - intros c1 c2 rest c1' c2' rest' H1 H2.
    unfold validate_relevance, consistency_check, coverage_check, getitem. simpl.
    by rewrite H0, Hc, H1, H2.
  - intros c1.
    unfold validate_relevance, consistency_check, coverage_check, getitem. simpl.
    by rewrite H0, Hc.
Qed.

(** X11. A query none of whose words has more than two characters is
    never blocked for its keyword overlap: once the top score clears the
    threshold and the consistency check passes, it is accepted, whatever
    the content of the top chunk is, even when the chunk has none. *)
Theorem short_words_skip_coverage cfg top rest query top_score s :
  Forall (fun word => (String.length word <= 2)%nat) (split query) ->
  top !! "score" = Some top_score ->
  as_number top_score = Ok s ->
  similarity_threshold cfg <= s ->
  consistency_check cfg (top :: rest) = Ok None ->
  validate_relevance fixed repr cfg (top :: rest) query
  = Ok (true, top_score, "All validation checks passed").
Proof.
  intros Hshort Hscore Hnum Hge Hcons.
  assert (Hw : content_words query = ∅).
  { unfold content_words.
    assert (Hnil : filter (fun word => (2 < String.length word)%nat) (split query) = []).
    { induction Hshort as [|x l Hx _ IH]; [done|].
      rewrite filter_cons. destruct (decide (2 < String.length x)%nat); [lia|done]. }
    by rewrite Hnil. }
  unfold validate_relevance. rewrite (getitem_Some _ _ _ Hscore). simpl.
  rewrite Hnum. simpl. apply Qltb_ge in Hge. rewrite Hge, Hcons. simpl.
  unfold coverage_check. rewrite Hw. by rewrite size_empty.
Qed.

(** X12. When every content word of the query is a content word of the
    top chunk, the keyword overlap is 1 and the coverage check passes for
    any threshold the settings accept. *)
Theorem covered_query_passes cfg top query text :
  top !! "content" = Some (VStr text) ->
  content_words query ⊆ content_words text ->
  keyword_overlap_threshold cfg <= 1 ->
  coverage_check cfg top query = Ok None.
Proof.
  intros Htext Hsub Hthr. unfold coverage_check.
  case_bool_decide as Hsize; [done|].
  rewrite (getitem_Some _ _ _ Htext). simpl.
  rewrite (subseteq_intersection_1_L _ _ Hsub).
  set (n := inject_Z (Z.of_nat (size (content_words query)))).
  assert (Hn : ~ n == 0).
  { unfold n. intros H. apply Hsize.
    unfold Qeq in H. simpl in H. lia. }
  assert (Hone : n / n == 1) by (field; exact Hn).
  assert (Hge : Qltb (n / n) (keyword_overlap_threshold cfg) = false).
  { apply Qltb_ge. by rewrite Hone. }
  by rewrite Hge.
Qed.

End ValidationFootprint.

Lemma validation_ignores_case_witness :
  validate_relevance decimal_fixed decimal_repr default_settings scenario_D
    "UPDATE my Payment METHOD"
  = validate_relevance decimal_fixed decimal_repr default_settings scenario_D
      "update my payment method".
Proof.
  apply (validation_ignores_case decimal_fixed decimal_repr default_settings
           scenario_D "UPDATE my Payment METHOD" "update my payment method").
  vm_compute. reflexivity.
Defined.

Lemma validation_footprint_witness :
  validate_relevance decimal_fixed decimal_repr default_settings
    [ demo_chunk (9 # 10) billing_text "Go to Settings > Billing...";
      demo_chunk (5 # 10) login_text "first";
      demo_chunk (4 # 10) export_text "second";
      demo_chunk (1 # 10) export_text "third" ]
    "How do I update my payment method?"
  = validate_relevance decimal_fixed decimal_repr default_settings
      [ demo_chunk (9 # 10) billing_text "another stored answer";
        {[ "score" := VFloat (5 # 10) ]};
        {[ "score" := VFloat (4 # 10) ]} ]
      "How do I update my payment method?".
Proof.
  destruct (validation_footprint decimal_fixed decimal_repr default_settings
              (demo_chunk (9 # 10) billing_text "Go to Settings > Billing...")
              (demo_chunk (9 # 10) billing_text "another stored answer")
              "How do I update my payment method?") as [Hthree _].
  - vm_compute. reflexivity.
  - vm_compute. reflexivity.
  - apply Hthree; vm_compute; reflexivity.
Defined.

Lemma short_words_skip_coverage_witness :
  validate_relevance decimal_fixed decimal_repr default_settings
    [ {[ "score" := VFloat (9 # 10) ]} ] "is it ok"
  = Ok (true, VFloat (9 # 10), "All validation checks passed").
Proof.
  apply (short_words_skip_coverage decimal_fixed decimal_repr default_settings
           {[ "score" := VFloat (9 # 10) ]} [] "is it ok" (VFloat (9 # 10)) (9 # 10)).
  - vm_compute. forall_list; lia.
  - vm_compute. reflexivity.
  - reflexivity.
  - vm_compute. discriminate.
  - reflexivity.
Defined.

Lemma covered_query_passes_witness :
  coverage_check default_settings
    (demo_chunk (9 # 10) "Update the payment method in Billing" "stored")
    "payment METHOD"
  = Ok None.
Proof.
  apply (covered_query_passes default_settings _ "payment METHOD"
           "Update the payment method in Billing").
  - vm_compute. reflexivity.
  - intros word. unfold content_words. rewrite !elem_of_list_to_set.
    assert (E1 : map lower (filter (fun word => (2 < String.length word)%nat)
                              (split "payment METHOD"))
                 = ["payment"; "method"]) by (vm_compute; reflexivity).
    assert (E2 : map lower (filter (fun word => (2 < String.length word)%nat)
                              (split "Update the payment method in Billing"))
                 = ["update"; "the"; "payment"; "method"; "billing"])
      by (vm_compute; reflexivity).
    rewrite E1, E2, !elem_of_cons.
    intros [H|[H|H]]; [rewrite H; tauto|rewrite H; tauto|by apply elem_of_nil in H].
  - vm_compute. discriminate.
Defined.

(** * Further properties of generation and of [query] *)

Section Answering.

Variable fixed : nat -> Q -> string.
Variable repr : pyval -> string.

(** ** generate_answer *)

(** X13. A generated text that, once stripped, has at least 10
    characters and none of the refusal phrases is the answer, stripped:
    the stored answer is not consulted. *)
Theorem accepted_generation_returned (self : RAGPipeline) query top_chunk rest
    prompt generated w w' :
  prompt_for fixed repr query (top_chunk :: rest) = Ok prompt ->
  produce_answer self prompt (top_chunk :: rest) w = (Ok (VStr generated), w') ->
  is_refusal (strip generated) = false ->
  (10 <= String.length (strip generated))%nat ->
  generate_answer fixed repr self query (top_chunk :: rest) w
  = (Ok (VStr (strip generated)), w').
Proof.
  intros Hprompt Hprod Hrefusal Hlen.
  unfold generate_answer, bind, lift, try_except. rewrite Hprompt, Hprod. simpl.
  unfold post_process. rewrite Hrefusal. simpl.
  destruct (strip generated) as [|c s] eqn:Hs; [simpl in Hlen; lia|]. simpl.
  assert (Hlt : (String.length s <? 9)%nat = false) by (apply Nat.ltb_ge; simpl in Hlen; lia).
  destruct (String.length s) as [|[|[|[|[|[|[|[|[|n]]]]]]]]] eqn:Hn;
    try (simpl in Hlt; discriminate); reflexivity.
Qed.

(** X14. When the back end that is configured raises, be it the
    inference client or the local model, [generate_answer] has made that
    one call and returns the answer stored with the top chunk. *)
Theorem backend_failure_answered_from_store (self : RAGPipeline) query top_chunk
    rest md stored prompt e w :
  top_chunk !! "metadata" = Some (VDict md) ->
  md !! "answer" = Some stored ->
  prompt_for fixed repr query (top_chunk :: rest) = Ok prompt ->
  (use_inference_api self = true /\ hf_client self prompt = Raise e)
  \/ (use_inference_api self = false
      /\ exists llm, llm_model self = Some llm /\ llm (truncate_prompt prompt) = Raise e) ->
  exists ev,
    is_generation ev = true
    /\ generate_answer fixed repr self query (top_chunk :: rest) w
       = (Ok stored, {| clock := clock w; reads := reads w; trace := trace w ++ [ev] |}).
Proof.
  intros Hmd Hans Hprompt Hfail.
  unfold generate_answer, bind, lift, try_except. rewrite Hprompt. simpl.
  unfold produce_answer, bind, call, ret.
  destruct Hfail as [[Hapi Hraise]|(Hapi & llm & Hllm & Hraise)].
  - exists (TextGeneration prompt). split; [done|].
    rewrite Hapi, Hraise. simpl. by rewrite (stored_answer_Some _ _ _ _ Hmd Hans).
  - exists (LocalGeneration (truncate_prompt prompt)). split; [done|].
    rewrite Hapi, Hllm, Hraise. simpl. by rewrite (stored_answer_Some _ _ _ _ Hmd Hans).
Qed.

(** ** What a stage leaves of the world *)

(** The calls [retrieve] can add to the trace. *)
Lemma retrieve_frame cfg self query top_k w res w' :
  retrieve cfg self query top_k w = (res, w') ->
  clock w' = clock w /\ reads w' = reads w
  /\ exists searches : list event,
       trace w' = (trace w ++ searches)%list
       /\ (searches = []
           \/ (exists k, searches = [VectorSearch query k])
           \/ (exists k, searches = [VectorSearch query k;
                                     Bm25Scores (split (lower query))])).
Proof.
  unfold retrieve.
  destruct (String.eqb query "" || is_blank query).
  { intros H; inversion H; subst. repeat split. exists []. rewrite app_nil_r. eauto. }
  destruct (retriever self) as [r|].
  2: { intros H; inversion H; subst. repeat split. exists []. rewrite app_nil_r. eauto. }
  unfold try_except, bind, get_relevant_documents, _get_relevant_documents,
    bind, call, ret, lift.
  destruct (_vectorstore r query (_k r * 2)%Z) as [vd|].
  2: { intros H; inversion H; subst. simpl. repeat split. eauto 6. }
  destruct (split (lower query)) as [|tok toks].
  { intros H; inversion H; subst. simpl. repeat split. eauto 6. }
  destruct (_bm25_index r (tok :: toks)) as [bs|].
  2: { intros H; inversion H; subst. simpl. repeat split.
       eexists. rewrite <- app_assoc. split; [reflexivity|]. right; right. eauto. }
  simpl. destruct (rank r (vector_scores_dict r vd) bs) as [docs|].
  - intros H; inversion H; subst. simpl. repeat split.
    eexists. rewrite <- app_assoc. split; [reflexivity|]. right; right. eauto.
  - intros H; inversion H; subst. simpl. repeat split.
    eexists. rewrite <- app_assoc. split; [reflexivity|]. right; right. eauto.
Qed.

(** The call [generate_answer] can add to the trace. *)
Lemma generate_answer_frame (self : RAGPipeline) query chunks w res w' :
  generate_answer fixed repr self query chunks w = (res, w') ->
  clock w' = clock w /\ reads w' = reads w
  /\ exists generations : list event,
       trace w' = (trace w ++ generations)%list
       /\ (generations = []
           \/ (exists prompt, generations = [TextGeneration prompt])
           \/ (exists prompt, generations = [LocalGeneration prompt])).
Proof.
  unfold generate_answer. destruct chunks as [|top rest].
  { intros H; inversion H; subst. repeat split. exists []. rewrite app_nil_r. eauto. }
  unfold bind, lift, try_except.
  destruct (prompt_for fixed repr query (top :: rest)) as [prompt|].
  2: { intros H; inversion H; subst. repeat split. exists []. rewrite app_nil_r. eauto. }
  unfold produce_answer, bind, call, ret, lift.
  destruct (use_inference_api self).
  - destruct (hf_client self prompt) as [text|]; simpl.
    + destruct (post_process (top :: rest) (strip text));
        intros H; inversion H; subst; simpl; repeat split; eauto 6.
    + intros H; inversion H; subst; simpl; repeat split; eauto 6.
  - destruct (llm_model self) as [llm|].
    + destruct (llm (truncate_prompt prompt)) as [text|]; simpl.
      * destruct (post_process (top :: rest) (strip text));
          intros H; inversion H; subst; simpl; repeat split; eauto 6.
      * intros H; inversion H; subst; simpl; repeat split; eauto 6.
    + match goal with
      | |- context [rbind (index ?c ?n) ?k] => destruct (rbind (index c n) k) as [answer|]
      end.
      * destruct (as_str answer) as [text|]; simpl.
        -- destruct (post_process (top :: rest) (strip text));
             intros H; inversion H; subst; repeat split;
             exists []; rewrite app_nil_r; eauto.
        -- intros H; inversion H; subst; repeat split;
             exists []; rewrite app_nil_r; eauto.
      * intros H; inversion H; subst; repeat split;
          exists []; rewrite app_nil_r; eauto.
Qed.

(** ** The runs of [query] *)

(** The three ways [query] runs on a pipeline: a blank query; a pipeline
    without retriever, where the guard of [retrieve] raises and the
    handler apologises; and the full path, where retrieval and validation
    return and generation runs when validation accepts. *)
Lemma query_cases cfg (self : RAGPipeline) user_query w :
  let elapsed (w1 : world) := (clock w1 (reads w1) - clock w (reads w)) * 1000 in
  (is_blank user_query = true
   /\ query fixed repr cfg self user_query w
      = (Ok (query_result (VStr please_ask) [] (VFloat 0) true (elapsed (tick w))),
         tick (tick w)))
  \/ (is_blank user_query = false /\ retriever self = None
      /\ query fixed repr cfg self user_query w
         = (Ok (query_result (VStr pipeline_error) [] (VFloat 0) true
                  (elapsed (tick w))),
            tick (tick w)))
  \/ (is_blank user_query = false
      /\ exists r chunks w1 confidence reason formatted,
           retriever self = Some r
           /\ retrieve cfg self user_query None (tick w) = (Ok chunks, w1)
           /\ Forall is_chunk chunks
           /\ rmap format_chunk chunks = Ok formatted
           /\ ((validate_relevance fixed repr cfg chunks user_query
                = Ok (false, confidence, reason)
                /\ query fixed repr cfg self user_query w
                   = (Ok (query_result
                            (VStr (if debug cfg then no_information_because reason
                                   else no_information))
                            formatted confidence true (elapsed w1)),
                      tick w1))
               \/ (validate_relevance fixed repr cfg chunks user_query
                   = Ok (true, confidence, reason)
                   /\ exists answer w2,
                        generate_answer fixed repr self user_query chunks w1
                        = (Ok answer, w2)
                        /\ query fixed repr cfg self user_query w
                           = (Ok (query_result answer formatted confidence false
                                    (elapsed w2)),
                              tick w2)))).
Proof.
  intros elapsed. destruct (is_blank user_query) eqn:Hblank.
  { left. split; [done|]. unfold query. rewrite query_with_blank; [done|].
    by rewrite <- is_blank_all_space. }
  right. destruct (retriever self) as [r|] eqn:Hr.
  2: { left. split; [done|]. split; [done|]. unfold query.
       erewrite query_with_caught; [reflexivity|done|].
       unfold query_try, bind. simpl. unfold retrieve.
       rewrite Hblank, (not_blank_not_empty _ Hblank), Hr. reflexivity. }
  right. split; [done|].
  destruct (retrieve_inv cfg self r user_query None (tick w) Hr Hblank)
    as (docs & w1 & Hret & _).
  set (chunks := map format_result
                   (slice_to docs (default (max_context_chunks cfg) None))) in *.
  pose proof (retrieve_is_chunk _ _ _ _ _ _ _ Hret) as Hall.
  destruct (rmap_total format_chunk chunks) as [formatted Hfmt].
  { eapply Forall_impl; [exact Hall|]. apply format_chunk_total. }
  assert (Hvalid : exists is_valid confidence reason,
             validate_relevance fixed repr cfg chunks user_query
             = Ok (is_valid, confidence, reason)).
  { destruct chunks as [|top rest]; [by do 3 eexists|].
    destruct (validate_relevance_outcome fixed repr cfg _ _ user_query Hall)
      as (s & _ & [H|[[v H]|[[o H]|H]]]); rewrite H; eauto. }
  destruct Hvalid as (is_valid & confidence & reason & Hvalid).
  exists r, chunks, w1, confidence, reason, formatted.
  split; [done|]. split; [done|]. split; [done|]. split; [done|].
  destruct is_valid.
  - right. split; [done|].
    destruct (generate_answer_total fixed repr self user_query chunks w1 Hall)
      as (answer & w2 & Hgen).
    exists answer, w2. split; [done|]. unfold query.
    apply query_with_returned; [done|].
    unfold query_try, bind, lift, ret, elapsed_ms, bind, time_time, ret. simpl.
    by rewrite Hret, Hvalid, Hgen, Hfmt.
  - left. split; [done|]. unfold query.
    apply query_with_returned; [done|].
    unfold query_try, bind, lift, ret, elapsed_ms, bind, time_time, ret. simpl.
    by rewrite Hret, Hvalid, Hfmt.
Qed.

End Answering.

Lemma format_chunk_built text score (id category question answer tags : pyval) :
  format_chunk
    {[ "content" := VStr text;
       "score" := VFloat score;
       "metadata" := VDict
          {[ "id" := id; "category" := category; "question" := question;
             "answer" := answer; "tags" := tags ]} ]}
  = Ok (VDict {[ "content" := VStr text;
                 "score" := VFloat score;
                 "metadata" := VDict {[ "id" := id; "category" := category ]} ]}).
Proof.
  unfold format_chunk, getitem, subscript, getitem.
  by repeat first [rewrite lookup_insert_eq | rewrite lookup_insert_ne by done]; simpl;
     repeat first [rewrite lookup_insert_eq | rewrite lookup_insert_ne by done].
Qed.

Lemma query_result_lookup answer chunks confidence blocked t :
  query_result answer chunks confidence blocked t !! "answer" = Some answer
  /\ query_result answer chunks confidence blocked t !! "chunks" = Some (VList chunks)
  /\ query_result answer chunks confidence blocked t !! "confidence" = Some confidence
  /\ query_result answer chunks confidence blocked t !! "blocked" = Some (VBool blocked)
  /\ query_result answer chunks confidence blocked t !! "response_time_ms"
     = Some (VFloat t).
Proof.
  unfold query_result.
  repeat split;
    by repeat first [rewrite lookup_insert_eq | rewrite lookup_insert_ne by done].
Qed.

Section Querying.

Variable fixed : nat -> Q -> string.
Variable repr : pyval -> string.

Lemma validate_relevance_accepts cfg chunks query confidence reason :
  validate_relevance fixed repr cfg chunks query = Ok (true, confidence, reason) ->
  exists top rest s,
    chunks = top :: rest
    /\ top !! "score" = Some confidence
    /\ as_number confidence = Ok s
    /\ similarity_threshold cfg <= s
    /\ consistency_check cfg chunks = Ok None
    /\ coverage_check cfg top query = Ok None.
Proof.
  unfold validate_relevance. destruct chunks as [|top rest]; [done|].
  unfold getitem at 1. destruct (top !! "score") as [ts|] eqn:Hs; simpl; [|done].
  destruct (as_number ts) as [s|] eqn:Hn; simpl; [|done].
  destruct (Qltb s (similarity_threshold cfg)) eqn:Hlt; [done|].
  destruct (consistency_check cfg (top :: rest)) as [[v|]|] eqn:Hc; simpl; try done.
  destruct (coverage_check cfg top query) as [[o|]|] eqn:Hcov; simpl; try done.
  intros H; inversion H; subst. exists top, rest, s.
  repeat split; try done. by apply Qltb_ge.
Qed.

(** X15. When validation blocks, [query] reports the fixed refusal (or,
    in debug mode, the refusal with the reason), the confidence
    validation gave and the retrieved chunks, and it leaves the world as
    retrieval left it but for the reading of the clock: generation is not
    run, whatever it is. *)
Theorem blocked_query_skips_generation cfg (self : Stages) user_query w chunks w1
    confidence reason formatted :
  is_blank user_query = false ->
  do_retrieve self user_query (tick w) = (Ok chunks, w1) ->
  do_validate_relevance self chunks user_query = Ok (false, confidence, reason) ->
  rmap format_chunk chunks = Ok formatted ->
  query_with cfg self user_query w
  = (Ok (query_result
           (VStr (if debug cfg then no_information_because reason else no_information))
           formatted confidence true
           ((clock w1 (reads w1) - clock w (reads w)) * 1000)),
     tick w1).
Proof.
  intros Hblank Hret Hvalid Hfmt. apply query_with_returned; [done|].
  unfold query_try, bind, lift, ret, elapsed_ms, bind, time_time, ret. simpl.
  by rewrite Hret, Hvalid, Hfmt.
Qed.

(** X16. When the vector store raises, [query] does not apologise for an
    error: it answers that it has not enough information, blocked, with
    no chunks and confidence 0.0, after that one call to the vector store
    and without calling the BM25 index or a generator. *)
Theorem failed_index_gives_no_information cfg (self : RAGPipeline) r user_query w e :
  retriever self = Some r ->
  is_blank user_query = false ->
  _vectorstore r user_query (_k r * 2)%Z = Raise e ->
  query fixed repr cfg self user_query w
  = (Ok (query_result
           (VStr (if debug cfg then no_information_because "No chunks retrieved"
                  else no_information))
           [] (VFloat 0) true
           ((clock w (S (reads w)) - clock w (reads w)) * 1000)),
     {| clock := clock w; reads := S (S (reads w));
        trace := trace w ++ [VectorSearch user_query (_k r * 2)] |}).
Proof.
  intros Hr Hblank Hv. unfold query. apply query_with_returned; [done|].
  unfold query_try, bind, lift, ret, elapsed_ms, bind, time_time, ret. simpl.
  by rewrite (index_failure_no_chunks cfg self r user_query None (tick w) e Hr Hblank Hv).
Qed.

(** X17. An answer that [query] does not block was validated: retrieval
    gave at least one chunk, the fused score of the first chunk is at
    least the similarity threshold and is the confidence reported, the
    consistency check and the coverage check passed, and the result
    carries as many chunks as were retrieved. *)
Theorem unblocked_answer_was_validated cfg (self : RAGPipeline) user_query w d w' :
  query fixed repr cfg self user_query w = (Ok d, w') ->
  d !! "blocked" = Some (VBool false) ->
  exists top rest w1 s formatted,
    retrieve cfg self user_query None (tick w) = (Ok (top :: rest), w1)
    /\ score_of top = Some s
    /\ similarity_threshold cfg <= s
    /\ d !! "confidence" = Some (VFloat s)
    /\ consistency_check cfg (top :: rest) = Ok None
    /\ coverage_check cfg top user_query = Ok None
    /\ d !! "chunks" = Some (VList formatted)
    /\ length formatted = S (length rest).
Proof.
  intros Hq Hblocked.
  destruct (query_cases fixed repr cfg self user_query w)
    as [[_ H]|[(_ & _ & H)|(_ & r & chunks & w1 & conf & reason & formatted
                            & Hr & Hret & Hall & Hfmt & Hrun)]].
  - rewrite Hq in H. inversion H; subst d.
    match type of Hblocked with
    | query_result ?a ?c ?f ?b ?t !! _ = _ =>
        destruct (query_result_lookup a c f b t) as (_ & _ & _ & Hb & _)
    end.
    rewrite Hb in Hblocked. discriminate.
  - rewrite Hq in H. inversion H; subst d.
    match type of Hblocked with
    | query_result ?a ?c ?f ?b ?t !! _ = _ =>
        destruct (query_result_lookup a c f b t) as (_ & _ & _ & Hb & _)
    end.
    rewrite Hb in Hblocked. discriminate.
  - destruct Hrun as [[Hvalid H]|(Hvalid & answer & w2 & Hgen & H)].
    + rewrite Hq in H. inversion H; subst d.
      match type of Hblocked with
      | query_result ?a ?c ?f ?b ?t !! _ = _ =>
          destruct (query_result_lookup a c f b t) as (_ & _ & _ & Hb & _)
      end.
      rewrite Hb in Hblocked. discriminate.
    + rewrite Hq in H. inversion H; subst d w'.
      destruct (validate_relevance_accepts _ _ _ _ _ Hvalid)
        as (top & rest & s & -> & Hs & Hnum & Hge & Hcons & Hcov).
      inversion Hall as [|? ? ([s0 Hs0] & _) _]; subst.
      rewrite Hs0 in Hs. inversion Hs; subst conf. simpl in Hnum.
      inversion Hnum; subst s0.
      match goal with
      | |- context [query_result ?a ?c ?f ?b ?t] =>
          destruct (query_result_lookup a c f b t) as (_ & Hc & Hf & _ & _)
      end.
      exists top, rest, w1, s, formatted. repeat split; try done.
      * unfold score_of. by rewrite Hs0.
      * apply rmap_length in Hfmt. by rewrite Hfmt.
Qed.

(** X18. [query] always returns. It reads the clock exactly twice, and
    the time it reports is the difference of the two readings, in
    milliseconds. It calls the vector store at most once, then the BM25
    index at most once with the lower-case words of the query, then a
    generator at most once, and nothing else. *)
Theorem query_cost cfg (self : RAGPipeline) user_query w :
  exists d w' (searches generations : list event),
    query fixed repr cfg self user_query w = (Ok d, w')
    /\ clock w' = clock w
    /\ reads w' = S (S (reads w))
    /\ d !! "response_time_ms"
       = Some (VFloat ((clock w (S (reads w)) - clock w (reads w)) * 1000))
    /\ trace w' = (trace w ++ searches ++ generations)%list
    /\ (searches = []
        \/ (exists k, searches = [VectorSearch user_query k])
        \/ (exists k, searches = [VectorSearch user_query k;
                                  Bm25Scores (split (lower user_query))]))
    /\ (generations = []
        \/ (exists prompt, generations = [TextGeneration prompt])
        \/ (exists prompt, generations = [LocalGeneration prompt])).
Proof.
  assert (Htime : forall a c f b t,
             query_result a c f b t !! "response_time_ms" = Some (VFloat t)).
  { intros a c f b t. by destruct (query_result_lookup a c f b t) as (_ & _ & _ & _ & Ht). }
  destruct (query_cases fixed repr cfg self user_query w)
    as [[_ H]|[(_ & _ & H)|(_ & r & chunks & w1 & conf & reason & formatted
                            & Hr & Hret & Hall & Hfmt & Hrun)]].
  - do 2 eexists. exists [], []. split; [exact H|].
    split; [done|]. split; [done|]. split; [apply Htime|].
    split; [simpl; by rewrite app_nil_r|]. split; by left.
  - do 2 eexists. exists [], []. split; [exact H|].
    split; [done|]. split; [done|]. split; [apply Htime|].
    split; [simpl; by rewrite app_nil_r|]. split; by left.
  - destruct (retrieve_frame _ _ _ _ _ _ _ Hret)
      as (Hclock & Hreads & searches & Htrace & Hsearches).
    simpl in Hclock, Hreads, Htrace.
    destruct Hrun as [[Hvalid H]|(Hvalid & answer & w2 & Hgen & H)].
    + do 2 eexists. exists searches, []. split; [exact H|].
      split; [done|]. split; [simpl; by rewrite Hreads|].
      split; [rewrite Htime, Hclock, Hreads; done|].
      split; [simpl; by rewrite app_nil_r|]. split; [done|by left].
    + destruct (generate_answer_frame _ _ _ _ _ _ _ _ Hgen)
        as (Hclock2 & Hreads2 & generations & Htrace2 & Hgenerations).
      do 2 eexists. exists searches, generations. split; [exact H|].
      split; [simpl; by rewrite Hclock2|].
      split; [simpl; by rewrite Hreads2, Hreads|].
      split; [rewrite Htime, Hclock2, Hreads2, Hclock, Hreads; done|].
      split; [simpl; by rewrite Htrace2, Htrace, <- app_assoc|]. done.
Qed.

(** The chunks [query] reports are the formatted chunks of retrieval. *)
Lemma query_chunks_from_retrieval cfg (self : RAGPipeline) user_query w d w' formatted :
  query fixed repr cfg self user_query w = (Ok d, w') ->
  d !! "chunks" = Some (VList formatted) ->
  formatted = []
  \/ exists chunks w1,
       retrieve cfg self user_query None (tick w) = (Ok chunks, w1)
       /\ rmap format_chunk chunks = Ok formatted.
Proof.
  intros Hq Hchunks.
  destruct (query_cases fixed repr cfg self user_query w)
    as [[_ H]|[(_ & _ & H)|(_ & r & chunks & w1 & conf & reason & formatted'
                            & Hr & Hret & Hall & Hfmt & Hrun)]].
  - left. rewrite Hq in H. inversion H; subst d.
    match type of Hchunks with
    | query_result ?a ?c ?f ?b ?t !! _ = _ =>
        destruct (query_result_lookup a c f b t) as (_ & Hc & _)
    end.
    rewrite Hc in Hchunks. by inversion Hchunks.
  - left. rewrite Hq in H. inversion H; subst d.
    match type of Hchunks with
    | query_result ?a ?c ?f ?b ?t !! _ = _ =>
        destruct (query_result_lookup a c f b t) as (_ & Hc & _)
    end.
    rewrite Hc in Hchunks. by inversion Hchunks.
  - right. exists chunks, w1. split; [done|].
    assert (Hd : exists a b t, d = query_result a formatted' conf b t).
    { destruct Hrun as [[_ H]|(_ & answer & w2 & _ & H)];
        rewrite Hq in H; inversion H; subst; eauto. }
    destruct Hd as (a & b & t & ->).
    destruct (query_result_lookup a formatted' conf b t) as (_ & Hc & _).
    rewrite Hc in Hchunks. by inversion Hchunks; subst.
Qed.

(** X19. The chunk at a position of the result of [query] is made from
    the chunk retrieval returned at that position, which comes from one
    entry of the corpus. It carries the text of the entry, the fused
    score of the retrieved chunk, which is the score the ranking has at
    that position and the weighted sum of the vector similarity and the
    normalised BM25 score of the entry, and of the metadata the id and
    the category only: the question, the answer and the tags of the entry
    are not in the result. The result has as many chunks as retrieval
    returned. *)
Theorem query_chunks_trimmed cfg (self : RAGPipeline) user_query w d w' formatted i f :
  query fixed repr cfg self user_query w = (Ok d, w') ->
  d !! "chunks" = Some (VList formatted) ->
  formatted !! i = Some f ->
  exists chunks w1 c r vector_docs bm25_scores normalized combined idx text meta b,
    retrieve cfg self user_query None (tick w) = (Ok chunks, w1)
    /\ length formatted = length chunks
    /\ chunks !! i = Some c
    /\ retriever self = Some r
    /\ _vectorstore r user_query (_k r * 2)%Z = Ok vector_docs
    /\ _bm25_index r (split (lower user_query)) = Ok bm25_scores
    /\ bm25_scores_normalized bm25_scores = Ok normalized
    /\ combined_scores r (vector_scores_dict r vector_docs) normalized = Ok combined
    /\ _document_texts r !! idx = Some text
    /\ _metadata r !! idx = Some meta
    /\ normalized !! idx = Some b
    /\ let score := _vector_weight r
                    * default 0 (vector_scores_dict r vector_docs !! idx)
                    + _bm25_weight r * b in
       sorted_indices combined !! i = Some (idx, score)
       /\ c !! "content" = Some (VStr text)
       /\ c !! "score" = Some (VFloat score)
       /\ f = VDict {[ "content" := VStr text;
                       "score" := VFloat score;
                       "metadata" := VDict {[ "id" := get meta "id";
                                              "category" := get meta "category" ]} ]}.
Proof.
  intros Hq Hchunks Hf.
  destruct (query_chunks_from_retrieval _ _ _ _ _ _ _ Hq Hchunks)
    as [->|(chunks & w1 & Hret & Hfmt)]; [done|].
  destruct (rmap_lookup_inv _ _ _ _ _ Hfmt Hf) as (c & Hc & Hfc).
  destruct (retrieve_position _ _ _ _ _ _ _ _ _ Hret Hc)
    as (r & docs & doc & Hr & Hblank & Hrun & Hdoc & ->).
  destruct (get_relevant_documents_inv _ _ _ _ _ Hrun)
    as [[_ ->]|(vd & bs & _ & Hv & Hb & Hrank)]; [done|].
  destruct (rank_lookup _ _ _ _ _ _ Hrank Hdoc)
    as (nz & cb & idx & score & text & meta & b
        & Hn & Hcb & Hsorted & Ht & Hm & Hnb & -> & ->).
  rewrite format_result_built, format_chunk_built in Hfc. inversion Hfc; subst f.
  eexists chunks, w1, _, r, vd, bs, nz, cb, idx, text, meta, b.
  cbv zeta. rewrite format_result_built in *.
  split; [done|]. split; [by apply rmap_length in Hfmt|].
  repeat match goal with |- _ /\ _ => split end; done.
Qed.

End Querying.

Lemma accepted_generation_returned_witness :
  fst (generate_answer decimal_fixed decimal_repr
         (scripted_pipeline default_retriever "  Open Settings, then Billing.  ")
         "payment"
         [demo_chunk (9 # 10) "update payment" "Go to Settings > Billing..."]
         world0)
  = Ok (VStr "Open Settings, then Billing.").
Proof.
  erewrite (accepted_generation_returned decimal_fixed decimal_repr
              (scripted_pipeline default_retriever "  Open Settings, then Billing.  ")
              "payment"
              (demo_chunk (9 # 10) "update payment" "Go to Settings > Billing...")
              [] _ "  Open Settings, then Billing.  " world0).
  - vm_compute. reflexivity.
  - vm_compute. reflexivity.
  - vm_compute. reflexivity.
  - vm_compute. reflexivity.
  - vm_compute. lia.
Defined.

Lemma backend_failure_answered_from_store_witness :
  exists ev,
    is_generation ev = true
    /\ generate_answer decimal_fixed decimal_repr failing_generator_pipeline
         "payment"
         [demo_chunk (9 # 10) "update payment" "Go to Settings > Billing..."]
         world0
       = (Ok (VStr "Go to Settings > Billing..."),
          {| clock := clock world0; reads := 0; trace := [ev] |}).
Proof.
  eapply (backend_failure_answered_from_store decimal_fixed decimal_repr
            failing_generator_pipeline "payment"
            (demo_chunk (9 # 10) "update payment" "Go to Settings > Billing...")
            [] _ (VStr "Go to Settings > Billing...") _
            (ExternalError "inference endpoint unavailable") world0).
  - vm_compute. reflexivity.
  - vm_compute. reflexivity.
  - vm_compute. reflexivity.
  - left. split; reflexivity.
Defined.

Lemma blocked_query_skips_generation_witness :
  query_with default_settings
    {| do_retrieve := fun _ =>
         ret [demo_chunk (1 # 2) login_text
                "Use the Forgot password link on the sign-in page."];
       do_validate_relevance :=
         validate_relevance decimal_fixed decimal_repr default_settings;
       do_generate_answer := fun _ _ => raise (ExternalError "generation was run") |}
    "How do I pilot a submarine?" world0
  = (Ok (query_result (VStr no_information)
           [VDict {[ "content" := VStr login_text;
                     "score" := VFloat (1 # 2);
                     "metadata" := VDict {[ "id" := VStr "1";
                                            "category" := VStr "Billing" ]} ]}]
           (VFloat (1 # 2)) true ((1 - 0) * 1000)),
     {| clock := clock world0; reads := 2; trace := [] |}).
Proof.
  apply (blocked_query_skips_generation default_settings
           {| do_retrieve := fun _ =>
                ret [demo_chunk (1 # 2) login_text
                       "Use the Forgot password link on the sign-in page."];
              do_validate_relevance :=
                validate_relevance decimal_fixed decimal_repr default_settings;
              do_generate_answer :=
                fun _ _ => raise (ExternalError "generation was run") |}
           "How do I pilot a submarine?" world0
           [demo_chunk (1 # 2) login_text
              "Use the Forgot password link on the sign-in page."]
           (tick world0) (VFloat (1 # 2))
           "Similarity score 0.50 below threshold 0.65").
  - vm_compute. reflexivity.
  - reflexivity.
  - vm_compute. reflexivity.
  - cbn [rmap]. unfold demo_chunk. rewrite format_chunk_built. reflexivity.
Defined.

Lemma failed_index_gives_no_information_witness :
  shown (query decimal_fixed decimal_repr default_settings failing_index_pipeline
           "How do I update my payment method?" world0)
  = Some (Some (VStr no_information), Some 0%nat, Some (VFloat 0), Some (VBool true)).
Proof.
  rewrite (failed_index_gives_no_information decimal_fixed decimal_repr
             default_settings failing_index_pipeline
             (default single_retriever (retriever failing_index_pipeline))
             "How do I update my payment method?" world0
             (ExternalError "embedding failed")).
  - vm_compute. reflexivity.
  - reflexivity.
  - vm_compute. reflexivity.
  - reflexivity.
Defined.

Lemma unblocked_answer_was_validated_witness :
  exists d w' s,
    query decimal_fixed decimal_repr default_settings
      (demo_pipeline accepting_retriever) "How do I update my payment method?" world0
    = (Ok d, w')
    /\ d !! "confidence" = Some (VFloat s)
    /\ similarity_threshold default_settings <= s.
Proof.
  destruct (query decimal_fixed decimal_repr default_settings
              (demo_pipeline accepting_retriever)
              "How do I update my payment method?" world0) as [res w'] eqn:Hq.
  assert (Hd : exists d, res = Ok d /\ d !! "blocked" = Some (VBool false)).
  { assert (H : match res with
                | Ok d => d !! "blocked"
                | Raise _ => None
                end = Some (VBool false)).
    { change res with (fst (res, w')). rewrite <- Hq. vm_compute. reflexivity. }
    destruct res as [d|]; [eauto|discriminate]. }
  destruct Hd as (d & -> & Hblocked).
  destruct (unblocked_answer_was_validated decimal_fixed decimal_repr default_settings
              _ _ _ _ _ Hq Hblocked)
    as (top & rest & w1 & s & formatted & _ & _ & Hge & Hconf & _).
  exists d, w', s. split; [reflexivity|]. split; [exact Hconf|exact Hge].
Defined.

Lemma first_formatted_chunk (d : gmap string pyval) :
  match d !! "chunks" with
  | Some (VList (_ :: _)) => true
  | _ => false
  end = true ->
  exists f formatted, d !! "chunks" = Some (VList (f :: formatted)).
Proof.
  destruct (d !! "chunks") as [[| | | | |[|f formatted]|]|]; try discriminate.
  eauto.
Qed.

Lemma query_chunks_trimmed_witness :
  exists d w' formatted f,
    query decimal_fixed decimal_repr default_settings
      (demo_pipeline accepting_retriever) "How do I update my payment method?" world0
    = (Ok d, w')
    /\ d !! "chunks" = Some (VList (f :: formatted))
    /\ exists content score md,
         f = VDict {[ "content" := content; "score" := VFloat score;
                      "metadata" := VDict md ]}
         /\ md !! "answer" = None.
Proof.
  destruct (query decimal_fixed decimal_repr default_settings
              (demo_pipeline accepting_retriever)
              "How do I update my payment method?" world0) as [res w'] eqn:Hq.
  assert (Hd : exists d f formatted,
             res = Ok d /\ d !! "chunks" = Some (VList (f :: formatted))).
  { assert (H : match res with
                | Ok d => match d !! "chunks" with
                          | Some (VList (_ :: _)) => true
                          | _ => false
                          end
                | Raise _ => false
                end = true).
    { change res with (fst (res, w')). rewrite <- Hq. vm_compute. reflexivity. }
    clear Hq. destruct res as [d|]; [|discriminate].
    destruct (first_formatted_chunk d H) as (f & formatted & Hc). eauto. }
  destruct Hd as (d & f & formatted & -> & Hchunks).
  destruct (query_chunks_trimmed decimal_fixed decimal_repr default_settings
              _ _ _ _ _ (f :: formatted) 0%nat f Hq Hchunks eq_refl)
    as (chunks & w1 & c & r & vd & bs & nz & cb & idx & text & meta & b & _ & _ & _ & _
        & _ & _ & _ & _ & _ & _ & _ & Hrest).
  cbv zeta in Hrest. destruct Hrest as (_ & _ & _ & Hf).
  exists d, w', formatted, f. split; [reflexivity|]. split; [exact Hchunks|].
  do 3 eexists. split; [exact Hf|].
  rewrite lookup_insert_ne by done. by apply lookup_singleton_ne.
Defined.

(** * Start-up *)

(** ** _init_llm *)

Section ModelLoading.

Context {Tokenizer Model : Type}.
Variable local_generate : Tokenizer -> Model -> string -> result string.
Variable fixed : nat -> Q -> string.
Variable repr : pyval -> string.

(** X20. [_init_llm] ends in one of three states. The inference client
    is used exactly when the flag is set, the key is set and not empty,
    and the client could be made; the local model is used exactly when
    the flag or the key is missing and both the tokenizer and the model
    could be loaded; in every other case there is no generator at all.
    It never gives the pipeline a retriever. *)
Theorem init_llm_outcomes (s : LLMSettings) (hub : Hub Tokenizer Model) :
  let self := _init_llm local_generate s hub new_pipeline in
  retriever self = None
  /\ (inference_key s = None
      <-> (use_hf_inference s = false \/ huggingface_api_key s = None
           \/ huggingface_api_key s = Some ""))
  /\ (use_inference_api self = true
      <-> exists key client,
            inference_key s = Some key
            /\ InferenceClient hub (settings_llm_model s) key = Ok client)
  /\ (forall key client,
        inference_key s = Some key ->
        InferenceClient hub (settings_llm_model s) key = Ok client ->
        hf_client self = client /\ llm_model self = None)
  /\ (forall generate,
        llm_model self = Some generate
        <-> inference_key s = None
            /\ exists tokenizer model,
                 AutoTokenizer_from_pretrained hub (settings_llm_model s) = Ok tokenizer
                 /\ AutoModelForCausalLM_from_pretrained hub (settings_llm_model s)
                    = Ok model
                 /\ generate = local_generate tokenizer model).
Proof.
  intros self. subst self. unfold _init_llm, init_llm_try.
  split; [|split; [|split; [|split]]].
  - destruct (inference_key s) as [key|].
    + by destruct (InferenceClient hub (settings_llm_model s) key).
    + destruct (AutoTokenizer_from_pretrained hub (settings_llm_model s)); [|done].
      simpl. by destruct (AutoModelForCausalLM_from_pretrained hub (settings_llm_model s)).
  - unfold inference_key. destruct (use_hf_inference s).
    + destruct (huggingface_api_key s) as [key|].
      * destruct (String.eqb key "") eqn:Hk.
        -- apply String.eqb_eq in Hk. subst. split; [by right; right|done].
        -- apply String.eqb_neq in Hk. split; [done|].
           intros [?|[?|Hs]]; [done..|]. inversion Hs. by subst.
      * split; [by right; left|done].
    + split; [by left|done].
  - destruct (inference_key s) as [key|].
    + destruct (InferenceClient hub (settings_llm_model s) key) as [client|] eqn:Hc;
        simpl.
      * split; [intros _; by exists key, client|done].
      * split; [done|]. intros (key' & client & Hk & Hc').
        inversion Hk; subst. congruence.
    + split.
      * destruct (AutoTokenizer_from_pretrained hub (settings_llm_model s)); [|done].
        simpl.
        by destruct (AutoModelForCausalLM_from_pretrained hub (settings_llm_model s)).
      * by intros (key & client & Hk & _).
  - intros key client -> ->. done.
  - intros generate. destruct (inference_key s) as [key|].
    + split.
      * by destruct (InferenceClient hub (settings_llm_model s) key).
      * by intros [? _].
    + destruct (AutoTokenizer_from_pretrained hub (settings_llm_model s))
        as [tokenizer|] eqn:Ht; simpl.
      * destruct (AutoModelForCausalLM_from_pretrained hub (settings_llm_model s))
          as [model|] eqn:Hm; simpl.
        -- split.
           ++ intros H; inversion H; subst. split; [done|]. by exists tokenizer, model.
           ++ intros (_ & tokenizer' & model' & Ht' & Hm' & ->).
              by inversion Ht'; inversion Hm'; subst.
        -- split; [done|]. by intros (_ & tokenizer' & model' & _ & Hm' & _).
      * split; [done|]. by intros (_ & tokenizer' & model' & Ht' & _).
Qed.

(** X21. When the model could not be loaded, whichever constructor
    raised, answers are taken from the corpus: [generate_answer] calls no
    generator and leaves the world as it is. It returns the answer stored
    with the top chunk, stripped, when that answer is a string that once
    stripped has at least 10 characters and none of the refusal phrases,
    and the stored answer as it is in every other case. *)
Theorem failed_model_load_answers_from_store (s : LLMSettings)
    (hub : Hub Tokenizer Model) e query top_chunk rest md stored w :
  init_llm_try local_generate s hub new_pipeline = Raise e ->
  Forall is_chunk (top_chunk :: rest) ->
  top_chunk !! "metadata" = Some (VDict md) ->
  md !! "answer" = Some stored ->
  generate_answer fixed repr (_init_llm local_generate s hub new_pipeline) query
    (top_chunk :: rest) w
  = (Ok match stored with
        | VStr text =>
            if is_refusal (strip text) || (String.length (strip text) <? 10)%nat
            then stored
            else VStr (strip text)
        | _ => stored
        end,
     w).
Proof.
  intros Hfail Hall Hmd Hans. unfold _init_llm. rewrite Hfail. simpl.
  destruct (rmap_total (context_part fixed repr) (top_chunk :: rest)) as [parts Hparts].
  { eapply Forall_impl; [exact Hall|]. apply context_part_total. }
  unfold generate_answer, prompt_for, bind, lift, try_except. rewrite Hparts. simpl.
  unfold produce_answer, lift. simpl.
  rewrite !(stored_answer_Some _ _ _ _ Hmd Hans).
  destruct stored as [| | | |text| |]; simpl; try reflexivity.
  unfold post_process. simpl. rewrite !(stored_answer_Some _ _ _ _ Hmd Hans).
  destruct (is_refusal (strip text)); simpl.
  - destruct (String.eqb text ""); simpl; [reflexivity|].
    by destruct (String.length text <? 10)%nat.
  - destruct (String.eqb (strip text) "") eqn:Hempty; simpl.
    + apply String.eqb_eq in Hempty. by rewrite Hempty.
    + by destruct (String.length (strip text) <? 10)%nat.
Qed.

End ModelLoading.

Lemma failed_model_load_answers_from_store_witness :
  generate_answer decimal_fixed decimal_repr
    (_init_llm echo demo_llm_settings demo_hub new_pipeline) "payment"
    [demo_chunk (9 # 10) "update payment" "  Go to Settings > Billing...  "] world0
  = (Ok (VStr "Go to Settings > Billing..."), world0).
Proof.
  rewrite (failed_model_load_answers_from_store echo decimal_fixed decimal_repr
             demo_llm_settings demo_hub (ExternalError "model not found") "payment"
             (demo_chunk (9 # 10) "update payment" "  Go to Settings > Billing...  ")
             []
             {[ "id" := VStr "1";
                "category" := VStr "Billing";
                "question" := VStr "How do I update my payment method?";
                "answer" := VStr "  Go to Settings > Billing...  ";
                "tags" := VList [] ]}
             (VStr "  Go to Settings > Billing...  ") world0).
  - vm_compute. reflexivity.
  - reflexivity.
  - forall_list. apply demo_chunk_is_chunk.
  - vm_compute. reflexivity.
  - vm_compute. reflexivity.
Defined.

(** ** _load_documents *)

Section CorpusLoading.

Variable repr : pyval -> string.
Variable key_order : gmap string pyval -> list string.

(** One turn of the loop skips the entry or appends one element to each
    of the four lists. *)
Lemma load_entry_cases (self self' : Corpus) (doc : pyval) :
  load_entry repr key_order self doc = Ok self' ->
  (complete doc = false /\ self' = self)
  \/ (complete doc = true
      /\ exists d tags_str content md,
           doc = VDict d
           /\ join_value key_order ", " (get_default d "tags" (VList [])) = Ok tags_str
           /\ entry_content repr d tags_str = Ok content
           /\ entry_metadata d = Ok md
           /\ self' = {| documents := documents self ++ [doc];
                         langchain_documents :=
                           langchain_documents self
                           ++ [{| page_content := content; metadata := md |}];
                         document_texts := document_texts self ++ [content];
                         corpus_metadata := corpus_metadata self ++ [md] |}).
Proof.
  unfold load_entry, complete.
  destruct (has_fields doc required_fields) as [[|]|]; simpl; [| |done].
  - destruct (method_get doc) as [d|] eqn:Hd; simpl; [|done].
    destruct doc; try discriminate. inversion Hd; subst.
    destruct (join_value key_order ", " (get_default d "tags" (VList [])))
      as [tags_str|] eqn:Htags; simpl; [|done].
    destruct (entry_content repr d tags_str) as [content|] eqn:Hcontent; simpl; [|done].
    destruct (entry_metadata d) as [md|] eqn:Hmd; simpl; [|done].
    intros H; inversion H; subst. right. split; [done|].
    by exists d, tags_str, content, md.
  - intros H; inversion H; subst. by left.
Qed.

Lemma load_entry_aligned (self self' : Corpus) (doc : pyval) :
  aligned repr key_order self ->
  load_entry repr key_order self doc = Ok self' ->
  aligned repr key_order self'.
Proof.
  intros (Hl1 & Hl2 & Hl3 & Hrows) Hload.
  destruct (load_entry_cases _ _ _ Hload)
    as [[_ ->]|(Hcomplete & d & tags_str & content & md & -> & Htags & Hcontent
                & Hmd & ->)]; [done|].
  unfold aligned. simpl. rewrite !length_app. simpl.
  split; [lia|]. split; [lia|]. split; [lia|].
  intros i doc Hi. apply lookup_snoc_Some in Hi as [[Hlt Hi]|[-> <-]].
  - destruct (Hrows i doc Hi)
      as (d' & tags' & content' & md' & -> & Hc' & Ht' & Hcn' & Hm' & Hx & Hy & Hz).
    exists d', tags', content', md'. repeat split; try done.
    + rewrite lookup_app_l; [done|lia].
    + rewrite lookup_app_l; [done|lia].
    + rewrite lookup_app_l; [done|lia].
  - exists d, tags_str, content, md. repeat split; try done.
    + rewrite lookup_app_r; [|lia]. by rewrite Hl2, Nat.sub_diag.
    + rewrite lookup_app_r; [|lia]. by rewrite Hl3, Nat.sub_diag.
    + rewrite lookup_app_r; [|lia]. by rewrite Hl1, Nat.sub_diag.
Qed.

Lemma load_entries_aligned (self self' : Corpus) (docs : list pyval) :
  aligned repr key_order self ->
  load_entries repr key_order self docs = Ok self' ->
  aligned repr key_order self'.
Proof.
  revert self. induction docs as [|doc docs IH]; intros self Hself; simpl.
  - intros H; by inversion H; subst.
  - destruct (load_entry repr key_order self doc) as [self1|] eqn:H1; simpl; [|done].
    apply IH. by eapply load_entry_aligned.
Qed.

Lemma load_entries_documents (self self' : Corpus) (docs : list pyval) :
  load_entries repr key_order self docs = Ok self' ->
  documents self' = (documents self ++ List.filter complete docs)%list.
Proof.
  revert self. induction docs as [|doc docs IH]; intros self; simpl.
  - intros H; inversion H; subst. by rewrite app_nil_r.
  - destruct (load_entry repr key_order self doc) as [self1|] eqn:H1; simpl; [|done].
    intros H. rewrite (IH _ H).
    destruct (load_entry_cases _ _ _ H1) as [[-> ->]|(-> & d & t & c & m & _ & _ & _ & _ & ->)];
      [done|].
    simpl. by rewrite <- app_assoc.
Qed.

Lemma load_entries_app (self : Corpus) (docs1 docs2 : list pyval) :
  load_entries repr key_order self (docs1 ++ docs2)
  = rbind (load_entries repr key_order self docs1)
      (fun self1 => load_entries repr key_order self1 docs2).
Proof.
  revert self. induction docs1 as [|doc docs1 IH]; intros self; simpl; [done|].
  destruct (load_entry repr key_order self doc); simpl; [apply IH|done].
Qed.

Lemma empty_corpus_aligned : aligned repr key_order empty_corpus.
Proof. unfold aligned, empty_corpus. simpl. repeat split. intros i doc Hi. done. Qed.

Lemma entry_metadata_keys (d md : gmap string pyval) :
  entry_metadata d = Ok md ->
  md !! "id" = d !! "id"
  /\ md !! "category" = d !! "category"
  /\ md !! "question" = d !! "question"
  /\ md !! "answer" = d !! "answer"
  /\ md !! "tags" = Some (get_default d "tags" (VList []))
  /\ md !! "source" = Some (VStr "documentation.json")
  /\ Forall (fun k => is_Some (md !! k)) metadata_keys.
Proof.
  unfold entry_metadata, getitem.
  destruct (d !! "id") as [id|] eqn:Hid; simpl; [|done].
  destruct (d !! "category") as [category|] eqn:Hcat; simpl; [|done].
  destruct (d !! "question") as [question|] eqn:Hq; simpl; [|done].
  destruct (d !! "answer") as [answer|] eqn:Ha; simpl; [|done].
  intros H; inversion H; subst. clear H.
  repeat match goal with |- _ /\ _ => split end;
    try by repeat first [rewrite lookup_insert_eq | rewrite lookup_insert_ne by done
                        | rewrite lookup_singleton_eq].
  unfold metadata_keys. forall_list; eexists;
    by repeat first [rewrite lookup_insert_eq | rewrite lookup_insert_ne by done
                    | rewrite lookup_singleton_eq].
Qed.

Lemma complete_dict (d : gmap string pyval) :
  complete (VDict d) = true <-> Forall (fun k => is_Some (d !! k)) required_fields.
Proof.
  unfold complete, required_fields. simpl. split.
  - repeat (case_bool_decide; simpl; [|done]). intros _. by forall_list.
  - intros H.
    repeat match goal with
           | H : Forall _ (_ :: _) |- _ =>
               let Hx := fresh "Hx" in
               apply Forall_cons in H as [Hx H]
           end.
    by rewrite !bool_decide_eq_true_2.
Qed.

(** X22. A corpus that was loaded is aligned: its four lists have the
    same length, and at each position they hold a complete entry of the
    file, the text and the metadata made from that entry, and the
    document that pairs the two. The metadata has the id, category,
    question, answer and tags of the entry and the fixed source. *)
Theorem loaded_corpus_aligned file_exists json_load corpus :
  _load_documents repr key_order file_exists json_load empty_corpus = Ok corpus ->
  aligned repr key_order corpus
  /\ (forall i doc md,
        documents corpus !! i = Some doc ->
        corpus_metadata corpus !! i = Some md ->
        exists d,
          doc = VDict d
          /\ Forall (fun k => is_Some (d !! k) /\ md !! k = d !! k) required_fields
          /\ md !! "source" = Some (VStr "documentation.json")).
Proof.
  unfold _load_documents. destruct file_exists; simpl; [|done].
  destruct json_load as [docs|]; simpl; [|done]. intros Hload.
  pose proof (load_entries_aligned _ _ _ empty_corpus_aligned Hload) as Hal.
  split; [done|]. intros i doc md Hdoc Hmd.
  destruct Hal as (_ & _ & _ & Hrows).
  destruct (Hrows i doc Hdoc)
    as (d & tags_str & content & md' & -> & Hcomplete & _ & _ & Hentry & _ & Hmd' & _).
  rewrite Hmd in Hmd'. inversion Hmd'; subst md'.
  exists d. split; [done|].
  destruct (entry_metadata_keys _ _ Hentry) as (H1 & H2 & H3 & H4 & H5 & H6 & _).
  split; [|done]. apply complete_dict in Hcomplete.
  unfold required_fields in *.
  repeat match goal with
         | H : Forall _ (_ :: _) |- _ =>
             let Hx := fresh "Hx" in
             apply Forall_cons in H as [Hx H]
         end.
  forall_list; try (split; done).
  split; [done|]. destruct Hx3 as [tags Htags].
  rewrite H5. unfold get_default. by rewrite Htags.
Qed.

(** X23. The entries kept are exactly the entries of the file that pass
    the test of the required fields, in the order of the file; a dict
    passes when it has the five keys, whatever their values. Entries that
    do not pass change nothing. *)
Theorem loading_keeps_complete_entries file_exists json_load docs corpus :
  json_load = Ok docs ->
  _load_documents repr key_order file_exists json_load empty_corpus = Ok corpus ->
  documents corpus = List.filter complete docs
  /\ length (document_texts corpus) = length (List.filter complete docs)
  /\ (forall d,
        complete (VDict d) = true
        <-> Forall (fun k => is_Some (d !! k)) required_fields).
Proof.
  intros -> Hload. pose proof Hload as Hload'. unfold _load_documents in Hload.
  destruct file_exists; simpl in Hload; [|done].
  pose proof (load_entries_documents _ _ _ Hload) as Hdocs. simpl in Hdocs.
  split; [done|]. split; [|apply complete_dict].
  destruct (load_entries_aligned _ _ _ empty_corpus_aligned Hload) as (_ & Hl & _).
  by rewrite Hl, Hdocs.
Qed.

Lemma join_value_unjoinable sep tags :
  unjoinable tags -> join_value key_order sep tags = Raise TypeError.
Proof.
  destruct tags as [| | | | |l|]; simpl; try done.
  intros (item & Hin & Hne).
  assert (H : rmap (fun item => match item with
                                | VStr s => Ok s
                                | _ => Raise TypeError
                                end) l = Raise TypeError).
  { induction l as [|x l IH]; [by apply elem_of_nil in Hin|].
    simpl. destruct x; try done. apply elem_of_cons in Hin as [->|Hin].
    - by destruct (Hne s).
    - by rewrite IH. }
  by rewrite H.
Qed.

(** X24. One complete entry whose tags cannot be joined stops the whole
    load with a [TypeError]: the entry is not skipped, and the entries
    that follow it are not read. *)
Theorem malformed_tags_abort_loading self self' before d tags after :
  load_entries repr key_order self before = Ok self' ->
  complete (VDict d) = true ->
  d !! "tags" = Some tags ->
  unjoinable tags ->
  load_entries repr key_order self (before ++ VDict d :: after) = Raise TypeError.
Proof.
  intros Hbefore Hcomplete Htags Hbad.
  rewrite load_entries_app, Hbefore. simpl.
  unfold load_entry. unfold complete in Hcomplete.
  destruct (has_fields (VDict d) required_fields) as [[|]|]; try done. simpl.
  unfold get_default. rewrite Htags. simpl.
  by rewrite (join_value_unjoinable _ _ Hbad).
Qed.

End CorpusLoading.

Lemma loaded_corpus_aligned_witness :
  exists corpus,
    _load_documents decimal_repr (fun _ => []) true (Ok demo_entries) empty_corpus
    = Ok corpus
    /\ aligned decimal_repr (fun _ => []) corpus.
Proof.
  destruct (_load_documents decimal_repr (fun _ => []) true (Ok demo_entries)
              empty_corpus) as [corpus|e] eqn:Hload.
  - exists corpus. split; [reflexivity|].
    by destruct (loaded_corpus_aligned decimal_repr (fun _ => []) true
                   (Ok demo_entries) corpus Hload).
  - exfalso.
    assert (H : match _load_documents decimal_repr (fun _ => []) true
                        (Ok demo_entries) empty_corpus with
                | Ok _ => true
                | Raise _ => false
                end = true) by (vm_compute; reflexivity).
    rewrite Hload in H. discriminate.
Defined.

Lemma loading_keeps_complete_entries_witness :
  exists corpus,
    _load_documents decimal_repr (fun _ => []) true
      (Ok [VDict billing_meta; VDict {[ "id" := VStr "9" ]}; VStr "note";
           VDict export_meta])
      empty_corpus
    = Ok corpus
    /\ documents corpus = [VDict billing_meta; VDict export_meta].
Proof.
  destruct (_load_documents decimal_repr (fun _ => []) true
              (Ok [VDict billing_meta; VDict {[ "id" := VStr "9" ]}; VStr "note";
                   VDict export_meta])
              empty_corpus) as [corpus|e] eqn:Hload.
  - exists corpus. split; [reflexivity|].
    destruct (loading_keeps_complete_entries decimal_repr (fun _ => []) true _ _
                corpus eq_refl Hload) as (Hdocs & _).
    rewrite Hdocs. vm_compute. reflexivity.
  - exfalso.
    assert (H : match _load_documents decimal_repr (fun _ => []) true
                        (Ok [VDict billing_meta; VDict {[ "id" := VStr "9" ]};
                             VStr "note"; VDict export_meta])
                        empty_corpus with
                | Ok _ => true
                | Raise _ => false
                end = true) by (vm_compute; reflexivity).
    rewrite Hload in H. discriminate.
Defined.

Lemma malformed_tags_abort_loading_witness :
  _load_documents decimal_repr (fun _ => []) true
    (Ok [VDict billing_meta;
         VDict (<["tags" := VList [VStr "data"; VInt 7]]> export_meta);
         VDict login_meta])
    empty_corpus
  = Raise TypeError.
Proof.
  unfold _load_documents. simpl.
  eapply (malformed_tags_abort_loading decimal_repr (fun _ => []) empty_corpus
           _ [VDict billing_meta]
           (<["tags" := VList [VStr "data"; VInt 7]]> export_meta)
           (VList [VStr "data"; VInt 7]) [VDict login_meta]).
  - vm_compute. reflexivity.
  - vm_compute. reflexivity.
  - vm_compute. reflexivity.
  - exists (VInt 7). split; [|done].
    apply list_elem_of_further, list_elem_of_here.
Defined.

(** ** _build_indices *)

Lemma rebuild_indices_eq env self :
  _rebuild_indices env self = from_documents env (langchain_documents self).
Proof.
  unfold _rebuild_indices.
  destruct (from_documents env (langchain_documents self)) as [vs|]; simpl; [|done].
  by destruct (save_local env vs).
Qed.

(** The store [_build_indices] ends with. *)
Lemma build_store env self vectorstore :
  (if index_path_exists env && index_file_exists env then
     match load_index_try env self with
     | Ok vectorstore => Ok vectorstore
     | Raise _ => _rebuild_indices env self
     end
   else _rebuild_indices env self) = Ok vectorstore ->
  (index_path_exists env = true /\ index_file_exists env = true
   /\ load_local env = Ok vectorstore
   /\ ntotal vectorstore = length (langchain_documents self))
  \/ from_documents env (langchain_documents self) = Ok vectorstore.
Proof.
  rewrite !rebuild_indices_eq.
  destruct (index_path_exists env), (index_file_exists env); simpl; try by right.
  unfold load_index_try. rewrite rebuild_indices_eq.
  destruct (load_local env) as [vs|]; simpl; [|by right].
  destruct (ntotal vs =? length (langchain_documents self))%nat eqn:Hn.
  - intros H; inversion H; subst. left. apply Nat.eqb_eq in Hn. done.
  - destruct (from_documents env (langchain_documents self)); by right.
Qed.

(** X25. When [_build_indices] returns, the corpus is not empty and the
    retriever searches one of two stores: the one loaded from disk, and
    then both files were there and the store has exactly one vector per
    document, or the one built from the documents of the corpus. The
    retriever holds the texts and the metadata of the corpus, the BM25
    index made from the lower-case words of the texts, and the weights
    and the [k] of the settings. *)
Theorem built_retriever_is_consistent cfg env self r :
  _build_indices cfg env self = Ok r ->
  langchain_documents self <> []
  /\ (exists vectorstore,
        _vectorstore r = similarity_search_with_score vectorstore
        /\ ((index_path_exists env = true /\ index_file_exists env = true
             /\ load_local env = Ok vectorstore
             /\ ntotal vectorstore = length (langchain_documents self))
            \/ from_documents env (langchain_documents self) = Ok vectorstore))
  /\ BM25Okapi env (map (fun doc => split (lower doc)) (document_texts self))
     = Ok (_bm25_index r)
  /\ _document_texts r = document_texts self
  /\ _metadata r = corpus_metadata self
  /\ _vector_weight r = vector_weight cfg
  /\ _bm25_weight r = bm25_weight cfg
  /\ _k r = max_context_chunks cfg.
Proof.
  unfold _build_indices.
  destruct (langchain_documents self) as [|doc docs] eqn:Hdocs; [done|].
  rewrite <- Hdocs.
  match goal with
  | |- rbind ?store _ = _ -> _ => destruct store as [vectorstore|] eqn:Hstore
  end; simpl; [|done].
  destruct (BM25Okapi env (map (fun doc => split (lower doc)) (document_texts self)))
    as [bm25|] eqn:Hbm25; simpl; [|done].
  intros H; inversion H; subst r. simpl.
  split; [by rewrite Hdocs|]. split; [|done].
  exists vectorstore. split; [done|]. by apply build_store.
Qed.

(** X26. What [_build_indices] returns does not depend on whether the
    index could be saved, and, when one of the two files is missing, it
    does not depend on what loading from disk would give. *)
Theorem build_ignores_save_and_missing_index cfg env self save load :
  let env_save :=
    {| index_path_exists := index_path_exists env;
       index_file_exists := index_file_exists env;
       load_local := load_local env;
       from_documents := from_documents env;
       save_local := save;
       BM25Okapi := BM25Okapi env |} in
  let env_load :=
    {| index_path_exists := index_path_exists env;
       index_file_exists := index_file_exists env;
       load_local := load;
       from_documents := from_documents env;
       save_local := save_local env;
       BM25Okapi := BM25Okapi env |} in
  _build_indices cfg env_save self = _build_indices cfg env self
  /\ (index_path_exists env = false \/ index_file_exists env = false ->
      _build_indices cfg env_load self = _build_indices cfg env self).
Proof.
  intros env_save env_load. split.
  - unfold _build_indices, load_index_try. rewrite !rebuild_indices_eq. reflexivity.
  - intros Hmissing. unfold _build_indices. rewrite !rebuild_indices_eq. simpl.
    destruct (langchain_documents self); [done|].
    destruct Hmissing as [-> | ->]; [done|]. by rewrite andb_false_r.
Qed.

(** ** RAGPipeline.__init__ *)

Section Initialisation.

Context {Tokenizer Model : Type}.
Variable local_generate : Tokenizer -> Model -> string -> result string.
Variable repr : pyval -> string.
Variable key_order : gmap string pyval -> list string.

Lemma init_inv cfg (start : Startup Tokenizer Model) p :
  __init__ local_generate repr key_order cfg start = Ok p ->
  exists corpus r,
    _load_documents repr key_order (data_file_exists start) (data_file_items start)
      empty_corpus = Ok corpus
    /\ _build_indices cfg (index_env start) corpus = Ok r
    /\ p = {| retriever := Some r;
              use_inference_api :=
                use_inference_api
                  (_init_llm local_generate (llm_settings start) (hf_hub start)
                     new_pipeline);
              hf_client :=
                hf_client
                  (_init_llm local_generate (llm_settings start) (hf_hub start)
                     new_pipeline);
              llm_model :=
                llm_model
                  (_init_llm local_generate (llm_settings start) (hf_hub start)
                     new_pipeline) |}.
Proof.
  unfold __init__.
  destruct (HuggingFaceEmbeddings start); simpl; [|done].
  destruct (_load_documents repr key_order (data_file_exists start)
              (data_file_items start) empty_corpus) as [corpus|] eqn:Hload; simpl;
    [|done].
  destruct (_build_indices cfg (index_env start) corpus) as [r|] eqn:Hbuild; simpl;
    [|done].
  intros H; inversion H; subst. by exists corpus, r.
Qed.

(** X27. A pipeline that [__init__] returns has a retriever over a
    corpus that is not empty, with one metadata dict per text and the
    five keys of a chunk in every metadata dict; its [k] and its weights
    are those of the settings, so that [k] is between 1 and 20 and each
    weight between 0 and 1 when the settings passed their validators. *)
Theorem initialised_pipeline_is_aligned cfg (start : Startup Tokenizer Model) p :
  __init__ local_generate repr key_order cfg start = Ok p ->
  exists r,
    retriever p = Some r
    /\ (0 < length (_document_texts r))%nat
    /\ length (_metadata r) = length (_document_texts r)
    /\ Forall (fun meta => Forall (fun k => is_Some (meta !! k)) metadata_keys)
         (_metadata r)
    /\ _k r = max_context_chunks cfg
    /\ _vector_weight r = vector_weight cfg
    /\ _bm25_weight r = bm25_weight cfg
    /\ (valid_settings cfg = true ->
        (1 <= _k r <= 20)%Z
        /\ 0 <= _vector_weight r /\ _vector_weight r <= 1
        /\ 0 <= _bm25_weight r /\ _bm25_weight r <= 1).
Proof.
  intros Hinit. destruct (init_inv _ _ _ Hinit) as (corpus & r & Hload & Hbuild & ->).
  destruct (loaded_corpus_aligned _ _ _ _ _ Hload) as [(Hl1 & Hl2 & Hl3 & Hrows) _].
  destruct (built_retriever_is_consistent _ _ _ _ Hbuild)
    as (Hne & _ & _ & Ht & Hm & Hvw & Hbw & Hk).
  exists r. split; [done|]. rewrite Ht, Hm, Hvw, Hbw, Hk.
  split; [|split; [|split; [|split; [|split; [|split]]]]]; try done.
  - rewrite Hl2, <- Hl1. destruct (langchain_documents corpus); [done|simpl; lia].
  - by rewrite Hl2, Hl3.
  - apply Forall_forall. intros meta Hin.
    apply list_elem_of_lookup_1 in Hin as [i Hi].
    destruct (lookup_lt_is_Some_2 (documents corpus) i) as [doc Hdoc].
    { rewrite <- Hl3. by eapply lookup_lt_Some. }
    destruct (Hrows i doc Hdoc)
      as (d & tags_str & content & md & _ & _ & _ & _ & Hentry & _ & Hmd & _).
    rewrite Hi in Hmd. inversion Hmd; subst md.
    by destruct (entry_metadata_keys _ _ Hentry) as (_ & _ & _ & _ & _ & _ & Hkeys).
  - unfold valid_settings, validate_threshold, validate_chunks, validate_thresholds,
      validate_weights, in_unit.
    rewrite !andb_true_iff, negb_true_iff, orb_false_iff, !Z.ltb_ge, !Qle_bool_iff.
    intros [[[[[_ [H1 H20]] _] _] [Hv0 Hv1]] [Hb0 Hb1]]. repeat split; done.
Qed.

(** X28. When no entry of the documentation file passes the test of the
    required fields, [__init__] raises [ValueError("No documents loaded")]
    before any index is loaded or built. *)
Theorem no_complete_entry_fails_startup cfg (start : Startup Tokenizer Model) u docs :
  HuggingFaceEmbeddings start = Ok u ->
  data_file_exists start = true ->
  data_file_items start = Ok docs ->
  Forall (fun doc => has_fields doc required_fields = Ok false) docs ->
  __init__ local_generate repr key_order cfg start
  = Raise (ValueError "No documents loaded").
Proof.
  intros Hemb Hfile Hitems Hall. unfold __init__, _load_documents.
  rewrite Hemb, Hfile, Hitems. simpl.
  assert (Hload : load_entries repr key_order empty_corpus docs = Ok empty_corpus).
  { clear Hitems. induction Hall as [|doc docs Hdoc _ IH]; [done|].
    simpl. unfold load_entry at 1. rewrite Hdoc. simpl. exact IH. }
  by rewrite Hload.
Qed.

End Initialisation.

Lemma built_retriever_is_consistent_witness :
  exists r,
    _build_indices default_settings demo_index_env
      {| documents := [VDict billing_meta];
         langchain_documents :=
           [{| page_content := billing_text; metadata := billing_meta |}];
         document_texts := [billing_text];
         corpus_metadata := [billing_meta] |}
    = Ok r
    /\ _k r = 5%Z /\ _document_texts r = [billing_text].
Proof.
  destruct (_build_indices default_settings demo_index_env
              {| documents := [VDict billing_meta];
                 langchain_documents :=
                   [{| page_content := billing_text; metadata := billing_meta |}];
                 document_texts := [billing_text];
                 corpus_metadata := [billing_meta] |}) as [r|e] eqn:Hbuild.
  - exists r. split; [reflexivity|].
    destruct (built_retriever_is_consistent _ _ _ _ Hbuild)
      as (_ & _ & _ & Ht & _ & _ & _ & Hk).
    split; [exact Hk|exact Ht].
  - discriminate.
Defined.

Lemma initialised_pipeline_is_aligned_witness :
  exists p r,
    __init__ echo decimal_repr (fun _ => []) default_settings
      (demo_startup demo_entries) = Ok p
    /\ retriever p = Some r
    /\ length (_metadata r) = length (_document_texts r)
    /\ (1 <= _k r <= 20)%Z.
Proof.
  destruct (__init__ echo decimal_repr (fun _ => []) default_settings
              (demo_startup demo_entries)) as [p|e] eqn:Hinit.
  - destruct (initialised_pipeline_is_aligned echo decimal_repr (fun _ => [])
                default_settings (demo_startup demo_entries) p Hinit)
      as (r & Hr & _ & Hlen & _ & _ & _ & _ & Hvalid).
    exists p, r. split; [reflexivity|]. split; [exact Hr|]. split; [exact Hlen|].
    by destruct (Hvalid eq_refl) as [Hk _].
  - exfalso.
    assert (H : match __init__ echo decimal_repr (fun _ => []) default_settings
                        (demo_startup demo_entries) with
                | Ok _ => true
                | Raise _ => false
                end = true) by (vm_compute; reflexivity).
    rewrite Hinit in H. discriminate.
Defined.

Lemma no_complete_entry_fails_startup_witness :
  __init__ echo decimal_repr (fun _ => []) default_settings
    (demo_startup [VDict {[ "id" := VStr "9"; "question" := VStr "Why?" ]};
                   VStr "a note"])
  = Raise (ValueError "No documents loaded").
Proof.
  apply (no_complete_entry_fails_startup echo decimal_repr (fun _ => [])
           default_settings
           (demo_startup [VDict {[ "id" := VStr "9"; "question" := VStr "Why?" ]};
                          VStr "a note"])
           tt
           [VDict {[ "id" := VStr "9"; "question" := VStr "Why?" ]}; VStr "a note"]).
  - reflexivity.
  - reflexivity.
  - reflexivity.
  - forall_list; vm_compute; reflexivity.
Defined.

(** ** The order of the normalised BM25 scores *)

Lemma foldl_Qmax2_in (l : list Q) (a : Q) : foldl Qmax2 a l ∈ a :: l.
Proof.
  revert a. induction l as [|x l IH]; intros a; simpl.
  - apply list_elem_of_here.
  - specialize (IH (Qmax2 a x)). apply elem_of_cons in IH as [->|IH].
    + unfold Qmax2. destruct (Qle_bool a x).
      * apply list_elem_of_further, list_elem_of_here.
      * apply list_elem_of_here.
    + by do 2 apply list_elem_of_further.
Qed.

Lemma np_max_in (l : list Q) (m : Q) : np_max l = Ok m -> m ∈ l.
Proof.
  destruct l as [|x l]; simpl; [done|]. intros H; inversion H; subst.
  apply foldl_Qmax2_in.
Qed.

(** X29. Normalisation keeps the scores in place and in order: there is
    one normalised score per raw score, and a document whose raw score is
    not above that of another has a normalised score that is not above
    it either. When the largest raw score is positive, a document that
    has it gets the normalised score 1 and no document gets more. *)
Theorem normalisation_keeps_order (bm25_scores normalized : list Q) :
  bm25_scores_normalized bm25_scores = Ok normalized ->
  length normalized = length bm25_scores
  /\ (forall i j a b a' b',
        bm25_scores !! i = Some a -> bm25_scores !! j = Some b ->
        normalized !! i = Some a' -> normalized !! j = Some b' ->
        a <= b -> a' <= b')
  /\ (forall m,
        np_max bm25_scores = Ok m -> 0 < m ->
        Forall (fun x => x <= 1) normalized
        /\ exists i x,
             bm25_scores !! i = Some m /\ normalized !! i = Some x /\ x == 1).
Proof.
  intros Hnorm.
  destruct (bm25_scores_normalized_eq _ _ Hnorm) as (m & mx & Hm & Hmx & Hpos & ->).
  split; [by rewrite length_map|]. split.
  - intros i j a b a' b' Ha Hb Ha' Hb' Hle.
    rewrite list_lookup_fmap, Ha in Ha'. rewrite list_lookup_fmap, Hb in Hb'.
    simpl in Ha', Hb'. inversion Ha'; inversion Hb'; subst a' b'.
    unfold Qdiv. apply Qmult_le_compat_r; [done|].
    apply Qlt_le_weak, Qinv_lt_0_compat, Hpos.
  - intros m' Hm' Hmpos. rewrite Hm in Hm'. inversion Hm'; subst m'.
    assert (Hgt : Qgtb m 0 = true) by by apply Qltb_lt.
    rewrite Hgt in Hmx. subst mx. split.
    + pose proof (np_max_upper _ _ Hm) as Hup.
      rewrite Forall_fmap. eapply Forall_impl; [exact Hup|].
      intros x Hx. simpl. apply Qle_shift_div_r; [done|]. by rewrite Qmult_1_l.
    + apply np_max_in, list_elem_of_lookup_1 in Hm as [i Hi].
      exists i, (m / m). split; [done|]. split.
      * by rewrite list_lookup_fmap, Hi.
      * field. intros H0. rewrite H0 in Hmpos. by apply Qlt_irrefl in Hmpos.
Qed.

Lemma normalisation_keeps_order_witness :
  exists normalized,
    bm25_scores_normalized [1; 4; 2] = Ok normalized
    /\ length normalized = 3%nat
    /\ Forall (fun x => x <= 1) normalized.
Proof.
  destruct (bm25_scores_normalized [1; 4; 2]) as [normalized|e] eqn:Hn.
  - destruct (normalisation_keeps_order [1; 4; 2] normalized Hn)
      as (Hlen & _ & Hmax).
    exists normalized. split; [reflexivity|]. split; [exact Hlen|].
    destruct (Hmax 4) as [Hall _]; [reflexivity|reflexivity|exact Hall].
  - discriminate.
Defined.
